(** * Neural Monkey: recurrent decoder and attention combination

    A shallow embedding of [neuralmonkey/decoders/decoder.py] and
    [neuralmonkey/encoders/encoder_wrapper.py].

    The TensorFlow graph is read as the function it computes on one fed
    batch.  Integer and boolean tensors of shape [batch] are lists, time-major
    tensors are lists of such lists.  For the decoder, the learned numerical
    operators (RNN cells, linear layers, embedding lookup, dropout) are
    fields of a [Runtime] record: the decoder code only routes their results
    and compares logits.  For the attention combination, float tensors are
    read over the real numbers.  *)

From Stdlib Require Import ZArith List Bool String Lia Reals Lra.
Import ListNotations.
Local Open Scope Z_scope.

(** ** The numerical runtime: errors, tensor arrays, broadcasting, argmax *)

Module Tf.

Inductive error : Type :=
| ValueError (msg : string)
| AssertionError
| KeyError (key : string)
| IndexError
| InvalidArgumentError (msg : string)
| UnimplementedError (msg : string).

Inductive result (A : Type) : Type :=
| Ok (a : A)
| Err (e : error).
Arguments Ok {A} a.
Arguments Err {A} e.

Definition bind {A B : Type} (m : result A) (k : A -> result B) : result B :=
  match m with
  | Ok a => k a
  | Err e => Err e
  end.

Declare Scope result_scope.
Delimit Scope result_scope with result.
Notation "x <- m ;; k" := (bind m (fun x => k))
  (at level 61, m at next level, right associativity) : result_scope.
Notation "' p <- m ;; k" := (bind m (fun p => k))
  (at level 61, p pattern, m at next level, right associativity) : result_scope.
Local Open Scope result_scope.

Fixpoint mapM {A B : Type} (f : A -> result B) (l : list A) : result (list B) :=
  match l with
  | [] => Ok []
  | x :: r => y <- f x ;; ys <- mapM f r ;; Ok (y :: ys)
  end.

(** [tf.TensorArray(dynamic_size=True, size=0)]: a growable array of slots,
    created without an element shape.  A slot is written at most once;
    [stack] needs every slot written, and at least one slot: an array of
    size zero whose element shape is not known cannot be packed. *)
Definition TensorArray (A : Type) : Type := list (option A).

Definition TensorArray_new {A : Type} : TensorArray A := [].

Fixpoint write_slot {A : Type} (i : nat) (v : A) (ta : TensorArray A)
  : result (TensorArray A) :=
  match i, ta with
  | O, [] => Ok [Some v]
  | O, None :: r => Ok (Some v :: r)
  | O, Some _ :: _ =>
      Err (InvalidArgumentError "TensorArray index has already been written to")
  | S i', [] => r <- write_slot i' v [] ;; Ok (None :: r)
  | S i', x :: r => r' <- write_slot i' v r ;; Ok (x :: r')
  end.

Definition write {A : Type} (ta : TensorArray A) (index : Z) (v : A)
  : result (TensorArray A) :=
  if index <? 0
  then Err (InvalidArgumentError "TensorArray index is negative")
  else write_slot (Z.to_nat index) v ta.

Fixpoint read_all {A : Type} (ta : TensorArray A) : result (list A) :=
  match ta with
  | [] => Ok []
  | Some v :: r => l <- read_all r ;; Ok (v :: l)
  | None :: _ =>
      Err (InvalidArgumentError "TensorArray slot has not been written to")
  end.

Definition stack {A : Type} (ta : TensorArray A) : result (list A) :=
  match ta with
  | [] =>
      Err (UnimplementedError
             "TensorArray has size zero, but element shape is not fully defined")
  | _ :: _ => read_all ta
  end.

Fixpoint zip_with {A B C : Type} (f : A -> B -> C) (a : list A) (b : list B)
  : list C :=
  match a, b with
  | x :: a', y :: b' => f x y :: zip_with f a' b'
  | _, _ => []
  end.

(** Elementwise binary operator on two rank-1 tensors, with TensorFlow's
    broadcasting of a dimension of size 1. *)
Definition broadcast2 {A B C : Type} (f : A -> B -> C)
  (a : list A) (b : list B) : result (list C) :=
  if (List.length a =? List.length b)%nat then Ok (zip_with f a b)
  else match a, b with
       | [x], _ => Ok (map (f x) b)
       | _, [y] => Ok (map (fun x => f x y) a)
       | _, _ => Err (InvalidArgumentError "Incompatible shapes")
       end.

Definition logical_or (a b : list bool) : result (list bool) :=
  broadcast2 orb a b.

Definition logical_not (a : list bool) : list bool := map negb a.

(** [tf.equal] of an integer tensor with a scalar constant. *)
Definition equal (a : list Z) (c : Z) : list bool := map (fun x => x =? c) a.

Definition reduce_all (a : list bool) : bool := forallb (fun b => b) a.

(** [tensor[index]] on the outer dimension, the index being a run-time
    scalar: out of bounds is a run-time error. *)
Definition index_outer {A : Type} (t : list A) (index : Z) : result A :=
  if index <? 0
  then Err (InvalidArgumentError "slice index out of bounds")
  else match nth_error t (Z.to_nat index) with
       | Some v => Ok v
       | None => Err (InvalidArgumentError "slice index out of bounds")
       end.

Section Argmax.
Context {float32 : Type}.
Variable gtb : float32 -> float32 -> bool.

(** Left-to-right scan keeping the first greatest entry. *)
Fixpoint argmax_scan (best : float32) (best_i : Z) (i : Z)
  (l : list float32) : Z :=
  match l with
  | [] => best_i
  | x :: r =>
      if gtb x best then argmax_scan x i (i + 1) r
      else argmax_scan best best_i (i + 1) r
  end.

(** [tf.argmax] along an axis of one row; an empty axis is rejected. *)
Definition argmax (row : list float32) : result Z :=
  match row with
  | [] => Err (InvalidArgumentError "Reduction axis is empty")
  | x :: r => Ok (argmax_scan x 0 1 r)
  end.

(** [tf.argmax(t, axis=1)] on a [batch, n] tensor. *)
Definition argmax_axis1 (t : list (list float32)) : result (list Z) :=
  mapM argmax t.
End Argmax.

(** [tf.while_loop(cond, body, init)].  [None] means the fuel ran out before
    the condition became false. *)
Fixpoint while_loop {S : Type} (fuel : nat) (cond : S -> bool)
  (body : S -> result S) (s : S) : option (result S) :=
  if cond s then
    match fuel with
    | O => None
    | Datatypes.S fuel' =>
        match body s with
        | Ok s' => while_loop fuel' cond body s'
        | Err e => Some (Err e)
        end
    end
  else Some (Ok s).

(** [n] applications of the loop body, without looking at the condition. *)
Fixpoint iterate {S : Type} (n : nat) (body : S -> result S) (s : S)
  : result S :=
  match n with
  | O => Ok s
  | Datatypes.S n' => s' <- body s ;; iterate n' body s'
  end.

(** Continue a loop result with a fallible computation. *)
Definition and_then {A B : Type} (m : option (result A)) (k : A -> result B)
  : option (result B) :=
  option_map (fun r => bind r k) m.

(** Size of dimension 1 of a rank-2 tensor held as a list of rows. *)
Definition dim1 {A : Type} (t : list (list A)) : nat :=
  match t with
  | [] => O
  | row :: _ => List.length row
  end.

Fixpoint transpose_cols {A : Type} (cols : nat) (t : list (list A))
  : list (list A) :=
  match t with
  | [] => repeat [] cols
  | row :: r => zip_with cons row (transpose_cols cols r)
  end.

(** [tf.transpose] of the two outer dimensions. *)
Definition transpose {A : Type} (t : list (list A)) : list (list A) :=
  transpose_cols (dim1 t) t.

(** [t[:, :n]] *)
Definition crop_dim1 {A : Type} (n : nat) (t : list (list A))
  : list (list A) :=
  map (firstn n) t.

End Tf.

(** ** [neuralmonkey/decoders/decoder.py] *)

Module Decoder.
Import Tf.
Local Open Scope string_scope.
Local Open Scope Z_scope.
Local Open Scope result_scope.

(** A Python [dict] with string keys, latest binding first. *)
Definition dict (V : Type) : Type := list (string * V).

Fixpoint dict_get {V : Type} (d : dict V) (k : string) : option V :=
  match d with
  | [] => None
  | (k', v) :: r => if String.eqb k k' then Some v else dict_get r k
  end.

Definition dict_in {V : Type} (k : string) (d : dict V) : bool :=
  match dict_get d k with
  | Some _ => true
  | None => false
  end.

Inductive RNNCell : Type := OrthoGRUCell | LSTMCell.

Definition RNN_CELL_TYPES : dict RNNCell :=
  [("GRU", OrthoGRUCell); ("LSTM", LSTMCell)].

Inductive EncoderProjection : Type :=
| empty_initial_state
| concat_encoder_projection
| linear_encoder_projection
| given_encoder_projection (label : string).

Inductive OutputProjection : Type :=
| no_deep_output
| given_output_projection (label : string).

Section Model.
(** [tensor]: float tensors the decoder never inspects (states, cell
    outputs, contexts, embedded inputs).  [float32]: the entries of the
    logits, compared by [gtb].  [att_loop_state]: what an attention object
    threads through the loop. *)
Context {tensor float32 att_loop_state : Type}.

(** The end-of-sequence id, a constant imported from
    [neuralmonkey.vocabulary]. *)
Variable END_TOKEN_INDEX : Z.

Record BaseAttention : Type := {
  attention : tensor -> tensor -> tensor -> att_loop_state -> Z
              -> result (tensor * att_loop_state);
  initial_loop_state : att_loop_state;
  attn_size : Z
}.

Record Encoder : Type := {
  encoder_name : string;
  (** [encoded.get_shape()[1].value] *)
  encoded_size : Z;
  (** [None] when the encoder is not [Attentive] *)
  create_attention_object : option BaseAttention
}.

Record EmbeddedSequence : Type := {
  (** [embedding_matrix.get_shape()[1].value] *)
  embedding_matrix_columns : option Z
}.

Record LoopState : Type := {
  step : Z;
  input_symbol : list Z;
  train_inputs : list (list Z);
  prev_rnn_state : tensor;
  prev_rnn_output : tensor;
  rnn_outputs : TensorArray tensor;
  prev_logits : list (list float32);
  logits : TensorArray (list (list float32));
  prev_contexts : list tensor;
  mask : TensorArray (list bool);
  finished : list bool;
  attention_loop_states : list att_loop_state
}.

(** The operators of the numerical runtime and the learned layers. *)
Record Runtime : Type := {
  gtb : float32 -> float32 -> bool;
  float_zero : float32;
  (** [dropout(tf.nn.embedding_lookup(embedding_matrix, ids), ...)] *)
  embedding_lookup : list Z -> tensor;
  (** [linear(inputs, size, scope)] *)
  linear : list tensor -> option Z -> string -> tensor;
  call_OrthoGRUCell : tensor -> tensor -> tensor * tensor;
  call_LSTMCell : tensor -> tensor * tensor -> tensor * (tensor * tensor);
  (** [tf.contrib.rnn.GRUCell] under scope [cond_gru_2_cell] *)
  call_GRUCell : tensor -> tensor -> tensor * tensor;
  concat : list tensor -> tensor;
  zeros : Z -> Z -> tensor;
  (** [tf.matmul(dropout(state), decoding_w) + decoding_b] *)
  _logit_function : tensor -> list (list float32);
  (** [tf.contrib.seq2seq.sequence_loss(logits, targets, weights)] *)
  sequence_loss : list (list (list float32)) -> list (list Z)
                  -> list (list float32) -> float32
}.

(** What is fed for one batch: the placeholders and the initial state the
    encoder projection computes from the encoders. *)
Record Feed : Type := {
  go_symbols : list Z;
  fed_train_inputs : list (list Z);
  train_padding : list (list float32);
  initial_state : tensor
}.

Record Args : Type := {
  arg_encoders : list Encoder;
  arg_vocabulary_len : Z;
  arg_data_id : string;
  arg_name : string;
  arg_max_output_len : Z;
  arg_rnn_size : option Z;
  arg_embedding_size : option Z;
  arg_output_projection : option OutputProjection;
  arg_encoder_projection : option EncoderProjection;
  arg_use_attention : bool;
  arg_embeddings_source : option EmbeddedSequence;
  arg_attention_on_input : bool;
  arg_rnn_cell : string;
  arg_conditional_gru : bool
}.

Record Decoder : Type := {
  encoders : list Encoder;
  vocabulary_len : Z;
  data_id : string;
  name : string;
  max_output_len : Z;
  embedding_size : option Z;
  rnn_size : Z;
  output_projection : OutputProjection;
  encoder_projection : EncoderProjection;
  use_attention : bool;
  embeddings_source : option EmbeddedSequence;
  _conditional_gru : bool;
  _attention_on_input : bool;
  _rnn_cell_str : string;
  _train_attention_objects : dict BaseAttention;
  _runtime_attention_objects : dict BaseAttention
}.

Definition is_None {A : Type} (o : option A) : bool :=
  match o with
  | None => true
  | Some _ => false
  end.

Definition sum_Z (l : list Z) : Z := fold_right Z.add 0 l.

(** [{e: e.create_attention_object() for e in encoders
      if isinstance(e, Attentive)}], an encoder object being identified by
    its name; a later encoder of the same name overrides an earlier one. *)
Fixpoint attention_objects_of (es : list Encoder) : dict BaseAttention :=
  match es with
  | [] => []
  | e :: r =>
      match create_attention_object e with
      | Some a =>
          if dict_in (encoder_name e) (attention_objects_of r)
          then attention_objects_of r
          else (encoder_name e, a) :: attention_objects_of r
      | None => attention_objects_of r
      end
  end.

(** [self.cost], the teacher-forced loss that the last statement of
    [__init__] formats into its log line.  Reading it builds the training
    graph (the variables, the initial state, one trace of the loop body),
    and that construction may raise: it is an operation of the runtime,
    taken as given. *)
Variable cost : Decoder -> result tensor.

(** [Decoder.__init__], from the first check on. *)
Definition __init__ (a : Args) : result Decoder :=
  if is_None (arg_embedding_size a) && is_None (arg_embeddings_source a)
  then Err (ValueError "You must specify either embedding size or the embedded sequence from which to reuse the embeddings (e.g. set either 'embedding_size' or  'embeddings_source' parameter)")
  else
    let embedding_size :=
      match arg_embeddings_source a with
      | Some src => embedding_matrix_columns src
      | None => arg_embedding_size a
      end in
    let '(encoder_projection, rnn_size) :=
      match arg_encoder_projection a with
      | Some p => (p, arg_rnn_size a)
      | None =>
          match arg_encoders a with
          | [] => (empty_initial_state, arg_rnn_size a)
          | _ :: _ =>
              match arg_rnn_size a with
              | None => (concat_encoder_projection,
                         Some (sum_Z (map encoded_size (arg_encoders a))))
              | Some n => (linear_encoder_projection, Some n)
              end
          end
      end in
    match rnn_size with
    | None => Err AssertionError
    | Some rnn_size =>
        if negb (dict_in (arg_rnn_cell a) RNN_CELL_TYPES)
        then Err (ValueError "RNN cell must be a either 'GRU' or 'LSTM'")
        else
          let output_projection :=
            match arg_output_projection a with
            | Some p => p
            | None => no_deep_output
            end in
          let attention_objects :=
            if arg_use_attention a
            then attention_objects_of (arg_encoders a)
            else [] in
          let self :=
            {| encoders := arg_encoders a;
               vocabulary_len := arg_vocabulary_len a;
               data_id := arg_data_id a;
               name := arg_name a;
               max_output_len := arg_max_output_len a;
               embedding_size := embedding_size;
               rnn_size := rnn_size;
               output_projection := output_projection;
               encoder_projection := encoder_projection;
               use_attention := arg_use_attention a;
               embeddings_source := arg_embeddings_source a;
               _conditional_gru := arg_conditional_gru a;
               _attention_on_input := arg_attention_on_input a;
               _rnn_cell_str := arg_rnn_cell a;
               _train_attention_objects := attention_objects;
               _runtime_attention_objects := attention_objects |} in
          _ <- cost self ;;
          Ok self
    end.

Variable rt : Runtime.

Definition _get_rnn_cell (self : Decoder) : result RNNCell :=
  match dict_get RNN_CELL_TYPES (_rnn_cell_str self) with
  | Some c => Ok c
  | None => Err (KeyError (_rnn_cell_str self))
  end.

Definition get_attention_object (self : Decoder) (encoder : Encoder)
  (train_mode : bool) : option BaseAttention :=
  if train_mode
  then dict_get (_train_attention_objects self) (encoder_name encoder)
  else dict_get (_runtime_attention_objects self) (encoder_name encoder).

Definition embed_input_symbol (loop_state : LoopState) : tensor :=
  embedding_lookup rt (input_symbol loop_state).

Definition input_plus_attention (self : Decoder) (loop_state : LoopState)
  : tensor :=
  linear rt (embed_input_symbol loop_state :: prev_contexts loop_state)
    (embedding_size self) "".

Definition input_projection (self : Decoder) (loop_state : LoopState)
  : tensor :=
  if _attention_on_input self
  then input_plus_attention self loop_state
  else embed_input_symbol loop_state.

(** [[a.attention(cell_output, prev_rnn_output, rnn_input, ls, step)
      for a, ls in zip(att_objects, attention_loop_states)]] *)
Definition run_attentions (att_objects : list BaseAttention)
  (cell_output rnn_input : tensor) (loop_state : LoopState)
  : result (list (tensor * att_loop_state)) :=
  mapM (fun p => attention (fst p) cell_output (prev_rnn_output loop_state)
                  rnn_input (snd p) (step loop_state))
      (combine att_objects (attention_loop_states loop_state)).

(** [contexts, att_loop_states = zip(...attns)]: unpacking an empty
    list fails. *)
Definition unzip_attns (attns : list (tensor * att_loop_state))
  : result (list tensor * list att_loop_state) :=
  match attns with
  | [] => Err (ValueError "not enough values to unpack (expected 2, got 0)")
  | _ :: _ => Ok (List.split attns)
  end.

Definition contexts_of (att_objects : list BaseAttention)
  (attns : list (tensor * att_loop_state))
  : result (list tensor * list att_loop_state) :=
  match att_objects with
  | [] => Ok ([], [])
  | _ :: _ => unzip_attns attns
  end.

(** [tf.concat(values, -1)]: an empty list of values is rejected. *)
Definition tf_concat (values : list tensor) : result tensor :=
  match values with
  | [] =>
      Err (ValueError "List argument 'values' to 'ConcatV2' Op with length 0 shorter than minimum length 2.")
  | _ :: _ => Ok (concat rt values)
  end.

(** The recurrent part of the step: cell output, next state, attention
    results. *)
Definition rnn_step (self : Decoder) (att_objects : list BaseAttention)
  (rnn_input : tensor) (loop_state : LoopState)
  : result (tensor * tensor * list (tensor * att_loop_state)
            * list tensor * list att_loop_state) :=
  _ <- _get_rnn_cell self ;;
  if String.eqb (_rnn_cell_str self) "GRU" then
    let '(cell_output, state) :=
      call_OrthoGRUCell rt rnn_input (prev_rnn_output loop_state) in
    let next_state := state in
    attns <- run_attentions att_objects cell_output rnn_input loop_state ;;
    '(contexts, att_loop_states) <- contexts_of att_objects attns ;;
    if _conditional_gru self then
      cond_input <- tf_concat contexts ;;
      let '(cell_output, state) := call_GRUCell rt cond_input state in
      Ok (cell_output, next_state, attns, contexts, att_loop_states)
    else Ok (cell_output, next_state, attns, contexts, att_loop_states)
  else if String.eqb (_rnn_cell_str self) "LSTM" then
    let prev_state :=
      (prev_rnn_state loop_state, prev_rnn_output loop_state) in
    let '(cell_output, state) := call_LSTMCell rt rnn_input prev_state in
    let next_state := fst state in
    attns <- run_attentions att_objects cell_output rnn_input loop_state ;;
    '(contexts, att_loop_states) <- contexts_of att_objects attns ;;
    Ok (cell_output, next_state, attns, contexts, att_loop_states)
  else Err (ValueError "Unknown RNN cell.").

(** The loop body [get_body(att_objects, train_mode)]. *)
Definition body (self : Decoder) (att_objects : list BaseAttention)
  (train_mode : bool) (loop_state : LoopState) : result LoopState :=
  let step := step loop_state in
  let rnn_input := input_projection self loop_state in
  '(cell_output, next_state, attns, contexts, att_loop_states) <-
    rnn_step self att_objects rnn_input loop_state ;;
  let '(output, att_loop_states) :=
    match attns with
    | _ :: _ => (linear rt (cell_output :: contexts) (Some (rnn_size self))
                   "AttnOutputProjection", att_loop_states)
    | [] => (cell_output, [])
    end in
  let logits_ := _logit_function rt output in
  next_symbols <-
    (if train_mode
     then index_outer (train_inputs loop_state) step
     else argmax_axis1 (gtb rt) logits_) ;;
  let has_just_finished := equal next_symbols END_TOKEN_INDEX in
  has_finished <- logical_or (finished loop_state) has_just_finished ;;
  rnn_outputs' <- write (rnn_outputs loop_state) (step + 1) cell_output ;;
  logits' <- write (logits loop_state) step logits_ ;;
  mask' <- write (mask loop_state) step (logical_not has_finished) ;;
  Ok {| step := step + 1;
        input_symbol := next_symbols;
        train_inputs := train_inputs loop_state;
        prev_rnn_state := next_state;
        prev_rnn_output := cell_output;
        rnn_outputs := rnn_outputs';
        prev_contexts := contexts;
        prev_logits := logits_;
        logits := logits';
        finished := has_finished;
        mask := mask';
        attention_loop_states := att_loop_states |}.

Definition batch_size (feed : Feed) : Z :=
  Z.of_nat (List.length (go_symbols feed)).

Definition get_initial_loop_state (self : Decoder) (feed : Feed)
  (att_objects : list BaseAttention) : result LoopState :=
  rnn_output_ta <- write TensorArray_new 0 (initial_state feed) ;;
  let logit_ta := TensorArray_new in
  let contexts :=
    map (fun a => zeros rt (batch_size feed) (attn_size a)) att_objects in
  let mask_ta := TensorArray_new in
  let attn_loop_states := map initial_loop_state att_objects in
  Ok {| step := 0;
        input_symbol := go_symbols feed;
        train_inputs := fed_train_inputs feed;
        prev_rnn_state := initial_state feed;
        prev_rnn_output := initial_state feed;
        rnn_outputs := rnn_output_ta;
        prev_logits :=
          repeat (repeat (float_zero rt) (Z.to_nat (vocabulary_len self)))
                 (List.length (go_symbols feed));
        logits := logit_ta;
        prev_contexts := contexts;
        mask := mask_ta;
        finished := repeat false (List.length (go_symbols feed));
        attention_loop_states := attn_loop_states |}.

(** The condition under which the loop goes on (the source notes that the
    name says the opposite). *)
Definition loop_exit_criterion (self : Decoder) (loop_state : LoopState)
  : bool :=
  let not_all_done := negb (reduce_all (finished loop_state)) in
  let before_max_len := step loop_state <? max_output_len self in
  not_all_done && before_max_len.

Fixpoint filter_not_None {A : Type} (l : list (option A)) : list A :=
  match l with
  | [] => []
  | Some a :: r => a :: filter_not_None r
  | None :: r => filter_not_None r
  end.

Definition decoding_att_objects (self : Decoder) (train_mode : bool)
  : list BaseAttention :=
  filter_not_None
    (map (fun e => get_attention_object self e train_mode) (encoders self)).

(** The final loop state of [_decoding_loop]. *)
Definition final_loop_state (fuel : nat) (self : Decoder) (feed : Feed)
  (train_mode : bool) : option (result LoopState) :=
  let att_objects := decoding_att_objects self train_mode in
  match get_initial_loop_state self feed att_objects with
  | Ok init =>
      while_loop fuel (loop_exit_criterion self)
        (body self att_objects train_mode) init
  | Err e => Some (Err e)
  end.

(** [_decoding_loop]: the stacked logits, recurrent outputs and mask.
    [finalize_loop] only records the attention histories on the attention
    objects and is left out. *)
Definition _decoding_loop (fuel : nat) (self : Decoder) (feed : Feed)
  (train_mode : bool)
  : option (result (list (list (list float32)) * list tensor
                    * list (list bool))) :=
  match final_loop_state fuel self feed train_mode with
  | None => None
  | Some r =>
      Some (final <- r ;;
            logits_ <- stack (logits final) ;;
            rnn_outputs_ <- stack (rnn_outputs final) ;;
            mask_ <- stack (mask final) ;;
            Ok (logits_, rnn_outputs_, mask_))
  end.

Definition runtime_loop_result (fuel : nat) (self : Decoder) (feed : Feed) :=
  _decoding_loop fuel self feed false.

Definition runtime_logits (fuel : nat) (self : Decoder) (feed : Feed)
  : option (result (list (list (list float32)))) :=
  and_then (runtime_loop_result fuel self feed)
    (fun r => Ok (fst (fst r))).

Definition runtime_mask (fuel : nat) (self : Decoder) (feed : Feed)
  : option (result (list (list bool))) :=
  and_then (runtime_loop_result fuel self feed) (fun r => Ok (snd r)).

(** [tf.argmax(logits[:, :, 1:], -1) + 1] on a [time, batch, vocabulary]
    tensor. *)
Definition decoded_of (logits_ : list (list (list float32)))
  : result (list (list Z)) :=
  mapM (mapM (fun row => i <- argmax (gtb rt) (skipn 1 row) ;; Ok (i + 1)))
       logits_.

Definition decoded (fuel : nat) (self : Decoder) (feed : Feed)
  : option (result (list (list Z))) :=
  and_then (runtime_logits fuel self feed) decoded_of.

(** [runtime_loss] on given free-running logits. *)
Definition runtime_loss_of (feed : Feed)
  (logits_ : list (list (list float32))) : float32 :=
  let train_targets := transpose (fed_train_inputs feed) in
  let batch_major_logits := transpose logits_ in
  let min_time := Nat.min (dim1 train_targets) (dim1 batch_major_logits) in
  sequence_loss rt
    (crop_dim1 min_time batch_major_logits)
    (crop_dim1 min_time train_targets)
    (crop_dim1 min_time (transpose (train_padding feed))).

Definition runtime_loss (fuel : nat) (self : Decoder) (feed : Feed)
  : option (result float32) :=
  and_then (runtime_logits fuel self feed)
    (fun l => Ok (runtime_loss_of feed l)).
End Model.
End Decoder.

(** ** [neuralmonkey/encoders/encoder_wrapper.py]

    Float tensors are read over the real numbers: [exp], [tanh] and the
    division of the renormalisation are the exact ones.  The theorems about
    this module conclude only what rounding keeps: entries that are exactly
    0, bounds that leave room for rounding, shapes, and what is written
    where; none concludes that a weight is positive or that weights sum
    to 1.  A rank-2 tensor
    [batch, n] is a list of rows, a rank-3 tensor [batch, n, d] a list of
    lists of vectors.  Elementwise operators pair rows positionally; the
    batch dimensions of their operands agree in every well-shaped graph. *)

Module EncoderWrapper.
Import Tf.
Local Open Scope string_scope.
Local Open Scope list_scope.
Local Open Scope R_scope.
Local Open Scope result_scope.

Definition Matrix : Type := list (list R).
Definition Tensor3 : Type := list (list (list R)).

Definition reduce_sum (v : list R) : R := fold_right Rplus 0 v.

Definition vector_add (a b : list R) : list R := zip_with Rplus a b.

Definition scale (c : R) (v : list R) : list R := map (Rmult c) v.

(** [tf.nn.softmax] along the last axis. *)
Definition softmax_row (logits : list R) : list R :=
  map (fun x => exp x / reduce_sum (map exp logits)) logits.

Definition softmax (logits : Matrix) : Matrix := map softmax_row logits.

Definition sigmoid (x : R) : R := 1 / (1 + exp (- x)).

(** [tf.expand_dims(t, 1)] *)
Definition expand_dims_1 {A : Type} (t : list A) : list (list A) :=
  map (fun v => [v]) t.

(** [tf.concat(ts, 1)]: the batch dimensions must agree and the list must
    not be empty. *)
Fixpoint concat_axis1 {A : Type} (ts : list (list (list A)))
  : result (list (list A)) :=
  match ts with
  | [] => Err (ValueError "need at least one tensor to concatenate")
  | t :: r =>
      match r with
      | [] => Ok t
      | _ :: _ =>
          r' <- concat_axis1 r ;;
          if (List.length t =? List.length r')%nat
          then Ok (zip_with (@app A) t r')
          else Err (InvalidArgumentError "ConcatOp: dimensions do not match")
      end
  end.

(** The constant [1e-8] of [_renorm_softmax]. *)
Definition epsilon : R := / 100000000.

(** [softmax_concat = tf.nn.softmax(logits) * masks_concat
     norm = tf.reduce_sum(softmax_concat, 1, keep_dims=True) + 1e-8
     attentions = softmax_concat / norm] on one row. *)
Definition renorm_softmax_row (logits mask : list R) : list R :=
  let softmax_concat := zip_with Rmult (softmax_row logits) mask in
  let norm := reduce_sum softmax_concat + epsilon in
  map (fun x => x / norm) softmax_concat.

(** The learned variables and layers, looked up by variable scope.
    [linear] is [neuralmonkey.nn.projection.linear]. *)
Record VariableStore : Type := {
  attn_v : list R;
  linear : string -> list Matrix -> nat -> Matrix;
  vector_bias : string -> R;
  proj_matrix : string -> nat -> list (list R);
  proj_bias : string -> nat -> list R;
  attn_bias : nat -> R
}.

(** [AttentionLoopState] of [neuralmonkey.decoding_function]; the empty one
    holds two fresh tensor arrays. *)
Record AttentionLoopState : Type := {
  contexts : TensorArray Matrix;
  weights : TensorArray Matrix
}.

Definition empty_attention_loop_state : AttentionLoopState :=
  {| contexts := TensorArray_new; weights := TensorArray_new |}.

Section WithVariables.
(** [child_state]: the loop state of an encoder's own attention object. *)
Context {child_state : Type}.
Variable vars : VariableStore.

Definition ChildAttention : Type :=
  @Decoder.BaseAttention Matrix child_state.

Record Attentive : Type := {
  name : string;
  _attention_tensor : Tensor3;
  _attention_mask : Matrix;
  create_attention_object : ChildAttention
}.

Record MultiAttention : Type := {
  _encoders : list Attentive;
  attention_state_size : nat;
  _share_projections : bool;
  _use_sentinels : bool
}.

(** [projected_state + proj] for one batch entry, the state having one
    position. *)
Definition add_state (state proj : list (list R)) : list (list R) :=
  match state with
  | [s] => map (vector_add s) proj
  | _ => zip_with vector_add state proj
  end.

(** [tf.reduce_sum(self.attn_v * tf.tanh(projected_state + proj), [2])] *)
Definition energies (projected_state proj : Tensor3) : Matrix :=
  zip_with
    (fun s p =>
       map (fun v => reduce_sum (zip_with Rmult (attn_v vars) (map tanh v)))
           (add_state s p))
    projected_state proj.

Definition add_scalar (t : Matrix) (c : R) : Matrix :=
  map (map (fun x => x + c)) t.

Definition _vector_logit (self : MultiAttention)
  (projected_decoder_state : Tensor3) (vector_value : Matrix)
  (scope : string) : Tensor3 * Matrix :=
  let scope := String.append scope "_logit" in
  let proj_vector_for_logit :=
    expand_dims_1 (linear vars (String.append scope "/vector_projection")
                     [vector_value] (attention_state_size self)) in
  let proj_vector_for_ctx :=
    if _share_projections self then proj_vector_for_logit
    else expand_dims_1 (linear vars (String.append scope "/vector_ctx_proj")
                          [vector_value] (attention_state_size self)) in
  let vector_logit :=
    add_scalar (energies projected_decoder_state proj_vector_for_logit)
               (vector_bias vars scope) in
  (proj_vector_for_ctx, vector_logit).

(** [tf.concat([prev_state, input_], 1)] on tensors fed to one cell. *)
Definition _sentinel (state prev_state input_ : Matrix) : Matrix :=
  let decoder_state_size := dim1 state in
  let concatenation := zip_with (@app R) prev_state input_ in
  let gate :=
    map (map sigmoid)
        (linear vars "sentinel" [concatenation] decoder_state_size) in
  zip_with (zip_with Rmult) gate state.

(** [tf.reduce_sum(tf.expand_dims(attentions, 2) * projections, [1])] *)
Definition weighted_sum (size : nat) (attentions : Matrix)
  (projections : Tensor3) : Matrix :=
  zip_with
    (fun a p => fold_right vector_add (repeat 0 size) (zip_with scale a p))
    attentions projections.
End WithVariables.

Module FlatMultiAttention.
Section Flat.
Context {child_state : Type}.
Variable vars : VariableStore.

Record t : Type := {
  base : @MultiAttention child_state;
  _encoders_tensors : list Tensor3;
  _encoders_masks : list Matrix;
  encoder_projections_for_logits : list Tensor3;
  encoder_attn_biases : list R;
  encoder_projections_for_ctx : list Tensor3;
  masks_concat : Matrix
}.

(** [tf.matmul(x, proj_matrix) + proj_bias] for one position. *)
Definition project (x : list R) (w : list (list R)) (b : list R) : list R :=
  fold_right vector_add b (zip_with scale x w).

Definition get_encoder_projections (scope : string)
  (tensors : list Tensor3) : list Tensor3 :=
  map (fun p =>
         map (map (fun x => project x (proj_matrix vars scope (fst p))
                              (proj_bias vars scope (fst p))))
             (snd p))
      (combine (seq 0 (List.length tensors)) tensors).

Definition __init__ (b : @MultiAttention child_state) : result t :=
  let tensors := map _attention_tensor (_encoders b) in
  let masks := map _attention_mask (_encoders b) in
  let for_logits := get_encoder_projections "logits_projections" tensors in
  let biases := map (attn_bias vars) (seq 0 (List.length tensors)) in
  let for_ctx :=
    if _share_projections b then for_logits
    else get_encoder_projections "context_projections" tensors in
  masks <-
    (if _use_sentinels b then
       match masks with
       | [] => Err IndexError
       | m0 :: _ => Ok (masks ++ [repeat [1] (List.length m0)])
       end
     else Ok masks) ;;
  masks_concat <- concat_axis1 masks ;;
  Ok {| base := b;
        _encoders_tensors := tensors;
        _encoders_masks := masks;
        encoder_projections_for_logits := for_logits;
        encoder_attn_biases := biases;
        encoder_projections_for_ctx := for_ctx;
        masks_concat := masks_concat |}.

Definition _renorm_softmax (self : t) (logits : Matrix) : Matrix :=
  zip_with renorm_softmax_row logits (masks_concat self).

Definition tile {A : Type} (n : nat) (l : list A) : list A :=
  List.concat (repeat l n).

Definition _tile_encoders_for_beamsearch (self : t)
  (projected_sentinel : Tensor3) : result (list Tensor3) :=
  match encoder_projections_for_ctx self with
  | [] => Err IndexError
  | p0 :: _ =>
      let sentinel_batch_size := List.length projected_sentinel in
      let encoders_batch_size := List.length p0 in
      if (encoders_batch_size =? 0)%nat
      then Err (InvalidArgumentError "Integer division by zero")
      else if (sentinel_batch_size mod encoders_batch_size =? 0)%nat
      then
        let beam_size := (sentinel_batch_size / encoders_batch_size)%nat in
        Ok (map (tile beam_size) (encoder_projections_for_ctx self))
      else Err (InvalidArgumentError "assertion failed")
  end.

(** The logits of all candidates: one block per encoder, then the
    sentinel's when it is enabled. *)
Definition attention_logits (self : t)
  (decoder_state decoder_prev_state decoder_input : Matrix)
  : list Matrix * option Tensor3 :=
  let projected_state :=
    expand_dims_1 (linear vars "" [decoder_state]
                     (attention_state_size (base self))) in
  let logits :=
    zip_with (fun proj bias => add_scalar (energies vars projected_state proj)
                                 bias)
      (encoder_projections_for_logits self) (encoder_attn_biases self) in
  if _use_sentinels (base self) then
    let sentinel_value :=
      _sentinel vars decoder_state decoder_prev_state decoder_input in
    let '(projected_sentinel, sentinel_logit) :=
      _vector_logit vars (base self) projected_state sentinel_value
        "sentinel" in
    (logits ++ [sentinel_logit], Some projected_sentinel)
  else (logits, None).

Definition attention (self : t)
  (decoder_state decoder_prev_state decoder_input : Matrix)
  (loop_state : AttentionLoopState) (step : Z)
  : result (Matrix * AttentionLoopState) :=
  let '(logits, sentinel) :=
    attention_logits self decoder_state decoder_prev_state decoder_input in
  logits_concat <- concat_axis1 logits ;;
  let attentions := _renorm_softmax self logits_concat in
  projections_concat <-
    match sentinel with
    | Some projected_sentinel =>
        tiled_encoder_projections <-
          _tile_encoders_for_beamsearch self projected_sentinel ;;
        concat_axis1 (tiled_encoder_projections ++ [projected_sentinel])
    | None => concat_axis1 (encoder_projections_for_ctx self)
    end ;;
  let contexts_ :=
    weighted_sum (attention_state_size (base self)) attentions
      projections_concat in
  next_contexts <- write (contexts loop_state) step contexts_ ;;
  next_weights <- write (weights loop_state) step attentions ;;
  Ok (contexts_,
      {| contexts := next_contexts; weights := next_weights |}).
End Flat.
End FlatMultiAttention.

Module HierarchicalMultiAttention.
Section Hierarchical.
Context {child_state : Type}.
Variable vars : VariableStore.

Record t : Type := {
  base : @MultiAttention child_state;
  _attn_objs : list (@ChildAttention child_state)
}.

Record HierarchicalLoopState : Type := {
  child_loop_states : list child_state;
  loop_state : AttentionLoopState
}.

Definition __init__ (b : @MultiAttention child_state) : t :=
  {| base := b;
     _attn_objs := map create_attention_object (_encoders b) |}.

Definition initial_loop_state (self : t) : HierarchicalLoopState :=
  {| child_loop_states :=
       map Decoder.initial_loop_state (_attn_objs self);
     loop_state := empty_attention_loop_state |}.

(** [[a.attention(decoder_state, decoder_prev_state, decoder_input, ls,
      step) for a, ls in zip(self._attn_objs, child_loop_states)]] *)
Definition child_attentions (self : t)
  (decoder_state decoder_prev_state decoder_input : Matrix)
  (hier_loop_state : HierarchicalLoopState) (step : Z)
  : result (list (Matrix * child_state)) :=
  mapM (fun p => Decoder.attention (fst p) decoder_state decoder_prev_state
                   decoder_input (snd p) step)
       (combine (_attn_objs self) (child_loop_states hier_loop_state)).

(** Unpacking the unzipped list into two names needs one pair at least. *)
Definition unzip2 {A B : Type} (l : list (A * B))
  : result (list A * list B) :=
  match l with
  | [] => Err (ValueError "not enough values to unpack (expected 2, got 0)")
  | _ :: _ => Ok (List.split l)
  end.

Definition attention (self : t)
  (decoder_state decoder_prev_state decoder_input : Matrix)
  (hier_loop_state : HierarchicalLoopState) (step : Z)
  : result (Matrix * HierarchicalLoopState) :=
  let size := attention_state_size (base self) in
  let projected_state :=
    expand_dims_1 (linear vars "" [decoder_state] size) in
  children <- child_attentions self decoder_state decoder_prev_state
                decoder_input hier_loop_state step ;;
  '(attn_ctx_vectors, child_loop_states_) <- unzip2 children ;;
  '(proj_ctxs, attn_logits) <-
    unzip2 (map (fun p => _vector_logit vars (base self) projected_state
                            (fst p) (name (snd p)))
                (combine attn_ctx_vectors (_encoders (base self)))) ;;
  let sentinel_value :=
    _sentinel vars decoder_state decoder_prev_state decoder_input in
  let '(proj_ctxs, attn_logits) :=
    if _use_sentinels (base self) then
      let '(proj_sentinel, sentinel_logit) :=
        _vector_logit vars (base self) projected_state sentinel_value
          "sentinel" in
      (proj_ctxs ++ [proj_sentinel], attn_logits ++ [sentinel_logit])
    else (proj_ctxs, attn_logits) in
  logits_concat <- concat_axis1 attn_logits ;;
  let attention_distr := softmax logits_concat in
  let output_cxts :=
    if _share_projections (base self) then proj_ctxs
    else
      map (fun p => expand_dims_1
                      (linear vars (String.append "proj_attn_" (name (snd p)))
                         [fst p] size))
          (combine attn_ctx_vectors (_encoders (base self)))
      ++ (if _use_sentinels (base self)
          then [expand_dims_1
                  (linear vars "proj_sentinel" [sentinel_value] size)]
          else []) in
  projections_concat <- concat_axis1 output_cxts ;;
  let context := weighted_sum size attention_distr projections_concat in
  let prev_loop_state := loop_state hier_loop_state in
  next_contexts <- write (contexts prev_loop_state) step context ;;
  next_weights <- write (weights prev_loop_state) step attention_distr ;;
  Ok (context,
      {| child_loop_states := child_loop_states_;
         loop_state := {| contexts := next_contexts;
                          weights := next_weights |} |}).
End Hierarchical.
End HierarchicalMultiAttention.

End EncoderWrapper.

(** ** Feeding the decoder and recording attention histories

    The remaining graph inputs of [decoder.py]: the broadcast of the initial
    state, the feed dictionary, the key under which an unroll records its
    attention history, and [finalize_loop] of the flat attention. *)

Module DecoderInputs.
Import Tf Decoder.
Local Open Scope string_scope.
Local Open Scope list_scope.
Local Open Scope Z_scope.
Local Open Scope result_scope.

(** What the encoder projection (after dropout) yields: a rank-1 vector or
    an already batched rank-2 tensor. *)
Inductive Projected (A : Type) : Type :=
| Rank1 (v : list A)
| Rank2 (m : list (list A)).
Arguments Rank1 {A} v.
Arguments Rank2 {A} m.

(** [tf.tile(v, [n])] on a rank-1 tensor. *)
Definition tile {A : Type} (n : nat) (v : list A) : list A :=
  List.concat (repeat v n).

Fixpoint rows_of {A : Type} (count width : nat) (l : list A)
  : list (list A) :=
  match count with
  | O => []
  | S c => firstn width l :: rows_of c width (skipn width l)
  end.

(** [tf.reshape(l, [-1, width])] on a rank-1 tensor: the row count is
    inferred, so the width must be positive and divide the size. *)
Definition reshape_rows {A : Type} (width : Z) (l : list A)
  : result (list (list A)) :=
  if width <=? 0
  then Err (InvalidArgumentError "reshape cannot infer the missing dimension")
  else if Z.of_nat (List.length l) mod width =? 0
  then Ok (rows_of (Z.to_nat (Z.of_nat (List.length l) / width))
             (Z.to_nat width) l)
  else Err (InvalidArgumentError "input size is not a multiple of the row size").

(** [Decoder.initial_state], after the projection and dropout. *)
Definition initial_state_of {A : Type} (rnn_size : Z) (batch_size : nat)
  (projected : Projected A) : result (list (list A)) :=
  match projected with
  | Rank2 m => Ok m
  | Rank1 v =>
      if Z.of_nat (List.length v) =? rnn_size
      then reshape_rows rnn_size (tile batch_size v)
      else Err AssertionError
  end.

(** ["{}_{}".format(self.name, "train" if train_mode else "run")] *)
Definition att_history_key (name : string) (train_mode : bool) : string :=
  String.append name
    (String.append "_" (if train_mode then "train" else "run")).

Section FeedDict.
Context {float32 : Type}.

(** [START_TOKEN], a constant imported from [neuralmonkey.vocabulary]. *)
Variable START_TOKEN : string.

Record Dataset : Type := {
  (** [dataset.get_series(data_id, allow_none=True)] *)
  get_series : string -> option (list (list string));
  (** [len(dataset)] *)
  dataset_len : nat
}.

Record Vocabulary : Type := {
  get_word_index : string -> Z;
  (** [sentences_to_tensor(sentences, max_len, train_mode,
        add_start_symbol, add_end_symbol, pad_to_max_len)] *)
  sentences_to_tensor :
    list (list string) -> Z -> bool -> bool -> bool -> bool
    -> list (list Z) * list (list float32)
}.

Record FeedDict : Type := {
  fd_train_mode : bool;
  fd_go_symbols : list Z;
  fd_train_inputs : option (list (list Z));
  fd_train_padding : option (list (list float32))
}.

(** [Decoder.feed_dict(dataset, train)] *)
Definition feed_dict (vocabulary : Vocabulary) (data_id : string)
  (max_output_len : Z) (dataset : Dataset) (train : bool)
  : result FeedDict :=
  let sentences := get_series dataset data_id in
  if is_None sentences && train
  then Err (ValueError "When training, you must feed reference sentences")
  else
    let go_symbol_idx := get_word_index vocabulary START_TOKEN in
    let go := repeat go_symbol_idx (dataset_len dataset) in
    match sentences with
    | Some sentences_list =>
        let '(inputs, weights) :=
          sentences_to_tensor vocabulary sentences_list max_output_len
            false false true false in
        Ok {| fd_train_mode := train;
              fd_go_symbols := go;
              fd_train_inputs := Some inputs;
              fd_train_padding := Some weights |}
    | None =>
        Ok {| fd_train_mode := train;
              fd_go_symbols := go;
              fd_train_inputs := None;
              fd_train_padding := None |}
    end.
End FeedDict.

(** [self.histories[key] = value] *)
Definition dict_set {V : Type} (d : dict V) (k : string) (v : V) : dict V :=
  (k, v) :: d.

(** [FlatMultiAttention.finalize_loop(key, last_loop_state)], on the
    histories of the attention object. *)
Definition finalize_loop
  (histories : dict (list EncoderWrapper.Matrix)) (key : string)
  (last_loop_state : EncoderWrapper.AttentionLoopState)
  : result (dict (list EncoderWrapper.Matrix)) :=
  w <- stack (EncoderWrapper.weights last_loop_state) ;;
  Ok (dict_set histories key w).

End DecoderInputs.

(** ** A small decoder to run the definitions on

    The recurrent state is a step counter, logits are integers, and there is
    no encoder.  With a batch of two, the first sequence emits the end token
    at step 1 and the second at step 2. *)

Module Example.
Import Tf Decoder.
Local Open Scope string_scope.
Local Open Scope Z_scope.

Definition END_TOKEN_INDEX : Z := 2.

Definition logits_at (h : Z) : list (list Z) :=
  if h =? 2 then [[0; 0; 5; 0]; [0; 0; 0; 5]]
  else if h =? 3 then [[0; 0; 0; 5]; [0; 0; 5; 0]]
  else [[0; 0; 0; 5]; [0; 0; 0; 5]].

Definition rt : @Runtime Z Z :=
  {| gtb := Z.gtb;
     float_zero := 0;
     embedding_lookup := fun _ => 0;
     linear := fun _ _ _ => 0;
     call_OrthoGRUCell := fun _ h => (h + 1, h + 1);
     call_LSTMCell := fun _ s => (snd s + 1, (fst s, snd s + 1));
     call_GRUCell := fun _ h => (h, h);
     concat := fun _ => 0;
     zeros := fun _ _ => 0;
     _logit_function := logits_at;
     sequence_loss := fun _ _ _ => 0 |}.

Definition args (rnn_cell : string) : @Args Z unit :=
  {| arg_encoders := [];
     arg_vocabulary_len := 4;
     arg_data_id := "target";
     arg_name := "decoder";
     arg_max_output_len := 5;
     arg_rnn_size := Some 8;
     arg_embedding_size := Some 8;
     arg_output_projection := None;
     arg_encoder_projection := None;
     arg_use_attention := false;
     arg_embeddings_source := None;
     arg_attention_on_input := false;
     arg_rnn_cell := rnn_cell;
     arg_conditional_gru := false |}.

(** The cost graph of the small decoder always builds. *)
Definition cost (self : @Decoder Z unit) : result Z := Ok 0.

(** The decoder [__init__ cost (args "GRU")] builds. *)
Definition decoder : @Decoder Z unit :=
  {| encoders := [];
     vocabulary_len := 4;
     data_id := "target";
     name := "decoder";
     max_output_len := 5;
     embedding_size := Some 8;
     rnn_size := 8;
     output_projection := no_deep_output;
     encoder_projection := empty_initial_state;
     use_attention := false;
     embeddings_source := None;
     _conditional_gru := false;
     _attention_on_input := false;
     _rnn_cell_str := "GRU";
     _train_attention_objects := [];
     _runtime_attention_objects := [] |}.

Definition feed : @Feed Z Z :=
  {| go_symbols := [1; 1];
     fed_train_inputs := [[3; 3]; [2; 3]; [0; 2]];
     train_padding := [[1; 1]; [1; 1]; [0; 1]];
     initial_state := 0 |}.

Definition initial : @LoopState Z Z unit :=
  {| step := 0;
     input_symbol := [1; 1];
     train_inputs := [[3; 3]; [2; 3]; [0; 2]];
     prev_rnn_state := 0;
     prev_rnn_output := 0;
     rnn_outputs := [Some 0];
     prev_logits := [[0; 0; 0; 0]; [0; 0; 0; 0]];
     logits := [];
     prev_contexts := [];
     mask := [];
     finished := [false; false];
     attention_loop_states := [] |}.

(** The state after the first free-running step from [initial]. *)
Definition after_one_step : @LoopState Z Z unit :=
  {| step := 1;
     input_symbol := [3; 3];
     train_inputs := [[3; 3]; [2; 3]; [0; 2]];
     prev_rnn_state := 1;
     prev_rnn_output := 1;
     rnn_outputs := [Some 0; Some 1];
     prev_logits := [[0; 0; 0; 5]; [0; 0; 0; 5]];
     logits := [Some [[0; 0; 0; 5]; [0; 0; 0; 5]]];
     prev_contexts := [];
     mask := [Some [true; true]];
     finished := [false; false];
     attention_loop_states := [] |}.

(** One attentive encoder with two positions, the second one masked, for a
    batch of one. *)
Definition vars : EncoderWrapper.VariableStore :=
  {| EncoderWrapper.attn_v := [1%R];
     EncoderWrapper.linear := fun _ _ _ => [[0%R]];
     EncoderWrapper.vector_bias := fun _ => 0%R;
     EncoderWrapper.proj_matrix := fun _ _ => [[1%R]];
     EncoderWrapper.proj_bias := fun _ _ => [0%R];
     EncoderWrapper.attn_bias := fun _ => 0%R |}.

Definition child_attention : @EncoderWrapper.ChildAttention unit :=
  {| attention := fun decoder_state _ _ ls _ => Ok (decoder_state, ls);
     initial_loop_state := tt;
     attn_size := 1 |}.

Definition encoder : @EncoderWrapper.Attentive unit :=
  {| EncoderWrapper.name := "encoder";
     EncoderWrapper._attention_tensor := [[[1%R]; [1%R]]];
     EncoderWrapper._attention_mask := [[1%R; 0%R]];
     EncoderWrapper.create_attention_object := child_attention |}.

Definition multi_attention (use_sentinels : bool)
  : @EncoderWrapper.MultiAttention unit :=
  {| EncoderWrapper._encoders := [encoder];
     EncoderWrapper.attention_state_size := 1;
     EncoderWrapper._share_projections := true;
     EncoderWrapper._use_sentinels := use_sentinels |}.

(** An encoder whose two positions are both masked out. *)
Definition masked_encoder : @EncoderWrapper.Attentive unit :=
  {| EncoderWrapper.name := "masked";
     EncoderWrapper._attention_tensor := [[[1%R]; [1%R]]];
     EncoderWrapper._attention_mask := [[0%R; 0%R]];
     EncoderWrapper.create_attention_object := child_attention |}.

Definition masked_attention : @EncoderWrapper.MultiAttention unit :=
  {| EncoderWrapper._encoders := [masked_encoder];
     EncoderWrapper.attention_state_size := 1;
     EncoderWrapper._share_projections := true;
     EncoderWrapper._use_sentinels := false |}.

(** An encoder with one position, for a batch of two. *)
Definition pair_encoder : @EncoderWrapper.Attentive unit :=
  {| EncoderWrapper.name := "pair";
     EncoderWrapper._attention_tensor := [[[1%R]]; [[1%R]]];
     EncoderWrapper._attention_mask := [[1%R]; [1%R]];
     EncoderWrapper.create_attention_object := child_attention |}.

Definition pair_attention : @EncoderWrapper.MultiAttention unit :=
  {| EncoderWrapper._encoders := [pair_encoder];
     EncoderWrapper.attention_state_size := 1;
     EncoderWrapper._share_projections := true;
     EncoderWrapper._use_sentinels := true |}.

(** An attention combination over no encoder at all. *)
Definition no_encoders : @EncoderWrapper.MultiAttention unit :=
  {| EncoderWrapper._encoders := [];
     EncoderWrapper.attention_state_size := 1;
     EncoderWrapper._share_projections := true;
     EncoderWrapper._use_sentinels := true |}.

(** A reference in which the first sequence never ends. *)
Definition feed_without_end : @Feed Z Z :=
  {| go_symbols := [1; 1];
     fed_train_inputs := [[3; 3]; [3; 2]];
     train_padding := [[1; 1]; [1; 1]];
     initial_state := 0 |}.

(** The small decoder with no step allowed. *)
Definition silent_decoder : @Decoder Z unit :=
  {| encoders := [];
     vocabulary_len := 4;
     data_id := "target";
     name := "decoder";
     max_output_len := 0;
     embedding_size := Some 8;
     rnn_size := 8;
     output_projection := no_deep_output;
     encoder_projection := empty_initial_state;
     use_attention := false;
     embeddings_source := None;
     _conditional_gru := false;
     _attention_on_input := false;
     _rnn_cell_str := "GRU";
     _train_attention_objects := [];
     _runtime_attention_objects := [] |}.

(** A decoder built by hand around a cell name [__init__] would refuse. *)
Definition decoder_with_cell (rnn_cell : string) : @Decoder Z unit :=
  {| encoders := [];
     vocabulary_len := 4;
     data_id := "target";
     name := "decoder";
     max_output_len := 5;
     embedding_size := Some 8;
     rnn_size := 8;
     output_projection := no_deep_output;
     encoder_projection := empty_initial_state;
     use_attention := false;
     embeddings_source := None;
     _conditional_gru := false;
     _attention_on_input := false;
     _rnn_cell_str := rnn_cell;
     _train_attention_objects := [];
     _runtime_attention_objects := [] |}.

Definition unit_attention : @BaseAttention Z unit :=
  {| attention := fun cell_output _ _ ls _ => Ok (cell_output, ls);
     initial_loop_state := tt;
     attn_size := 1 |}.

Definition source_encoder : @Encoder Z unit :=
  {| encoder_name := "source";
     encoded_size := 3;
     create_attention_object := Some unit_attention |}.

Definition image_encoder : @Encoder Z unit :=
  {| encoder_name := "image";
     encoded_size := 5;
     create_attention_object := None |}.

(** Two encoders, one attentive; no hidden size and no projection given,
    embeddings shared with a source of width 6. *)
Definition attentive_args : @Args Z unit :=
  {| arg_encoders := [source_encoder; image_encoder];
     arg_vocabulary_len := 4;
     arg_data_id := "target";
     arg_name := "decoder";
     arg_max_output_len := 5;
     arg_rnn_size := None;
     arg_embedding_size := Some 8;
     arg_output_projection := None;
     arg_encoder_projection := None;
     arg_use_attention := true;
     arg_embeddings_source := Some {| embedding_matrix_columns := Some 6 |};
     arg_attention_on_input := true;
     arg_rnn_cell := "LSTM";
     arg_conditional_gru := false |}.

(** No hidden size and no encoder to derive it from. *)
Definition args_without_size : @Args Z unit :=
  {| arg_encoders := [];
     arg_vocabulary_len := 4;
     arg_data_id := "target";
     arg_name := "decoder";
     arg_max_output_len := 5;
     arg_rnn_size := None;
     arg_embedding_size := Some 8;
     arg_output_projection := None;
     arg_encoder_projection := None;
     arg_use_attention := false;
     arg_embeddings_source := None;
     arg_attention_on_input := true;
     arg_rnn_cell := "GRU";
     arg_conditional_gru := false |}.

End Example.

(** ** Facts about the runtime primitives *)

Module TfFacts.
Import Tf.
Local Open Scope result_scope.

Lemma bind_Ok_inv {A B : Type} (m : result A) (k : A -> result B) (b : B) :
  bind m k = Ok b -> exists a, m = Ok a /\ k a = Ok b.
Proof.
  destruct m as [a|e]; simpl; intros H; [eauto | discriminate].
Qed.

Lemma write_slot_end {A : Type} (l : list A) (v : A) :
  write_slot (List.length l) v (map Some l) = Ok (map Some (l ++ [v])).
Proof.
  induction l as [|x l IH]; simpl; [reflexivity|].
  rewrite IH. reflexivity.
Qed.

Lemma write_end {A : Type} (l : list A) (v : A) (i : Z) :
  i = Z.of_nat (List.length l) ->
  write (map Some l) i v = Ok (map Some (l ++ [v])).
Proof.
  intros ->. unfold write.
  destruct (Z.ltb_spec (Z.of_nat (List.length l)) 0) as [H|_]; [lia|].
  rewrite Nat2Z.id. apply write_slot_end.
Qed.

Lemma read_all_written {A : Type} (l : list A) :
  read_all (map Some l) = Ok l.
Proof.
  induction l as [|x l IH]; simpl; [reflexivity|].
  rewrite IH. reflexivity.
Qed.

(** A fully written array with at least one slot stacks to its entries. *)
Lemma stack_written {A : Type} (l : list A) :
  l <> [] -> stack (map Some l) = Ok l.
Proof.
  intros Hne. destruct l as [|x l]; [congruence|].
  unfold stack. cbn [map]. apply (read_all_written (x :: l)).
Qed.

(** Nothing was ever written: the array cannot be packed. *)
Lemma stack_empty {A : Type} (ta : TensorArray A) :
  ta = [] -> exists msg, stack ta = Err (UnimplementedError msg).
Proof. intros ->. simpl. eauto. Qed.

(** A packed array had at least one slot. *)
Lemma stack_Ok_nonempty {A : Type} (ta : TensorArray A) (l : list A) :
  stack ta = Ok l -> ta <> [] /\ l <> [].
Proof.
  destruct ta as [|[v|] r]; simpl; intros H; try discriminate.
  split; [discriminate|].
  destruct (read_all r); simpl in H; [|discriminate].
  injection H as <-. discriminate.
Qed.

Lemma zip_with_length {A B C : Type} (f : A -> B -> C) (a : list A)
  (b : list B) :
  List.length a = List.length b ->
  List.length (zip_with f a b) = List.length a.
Proof.
  revert b; induction a as [|x a IH]; intros [|y b]; simpl; intros H;
    try discriminate; [reflexivity|].
  f_equal. apply IH. congruence.
Qed.

Lemma zip_with_nth_error {A B C : Type} (f : A -> B -> C) (a : list A)
  (b : list B) (i : nat) (x : A) (y : B) :
  nth_error a i = Some x -> nth_error b i = Some y ->
  nth_error (zip_with f a b) i = Some (f x y).
Proof.
  revert b i; induction a as [|x0 a IH]; intros [|y0 b] [|i]; simpl;
    intros Ha Hb; try discriminate.
  - congruence.
  - now apply IH.
Qed.

Lemma broadcast2_same_length {A B C : Type} (f : A -> B -> C) (a : list A)
  (b : list B) :
  List.length a = List.length b -> broadcast2 f a b = Ok (zip_with f a b).
Proof.
  intros H. unfold broadcast2. rewrite H, Nat.eqb_refl. reflexivity.
Qed.

(** Total correctness of a loop with an invariant and a measure. *)
Lemma while_loop_total {S : Type} (cond : S -> bool) (body : S -> result S)
  (measure : S -> nat) (Inv : S -> Prop) :
  (forall s, cond s = true -> (0 < measure s)%nat) ->
  (forall s, Inv s -> cond s = true ->
     exists s', body s = Ok s' /\ Inv s' /\ (measure s' < measure s)%nat) ->
  forall fuel s, Inv s -> (measure s <= fuel)%nat ->
    exists s', while_loop fuel cond body s = Some (Ok s') /\ Inv s'.
Proof.
  intros Hpos Hstep. induction fuel as [|fuel IH]; intros s HI Hm; simpl.
  - destruct (cond s) eqn:Hc; [|eauto].
    specialize (Hpos _ Hc). lia.
  - destruct (cond s) eqn:Hc; [|eauto].
    destruct (Hstep _ HI Hc) as (s1 & Hb & HI1 & Hlt).
    rewrite Hb. apply IH; [assumption | lia].
Qed.

Lemma reduce_all_true (a : list bool) :
  reduce_all a = true <->
  forall b, (b < List.length a)%nat -> nth_error a b = Some true.
Proof.
  unfold reduce_all. induction a as [|x a IH]; simpl.
  - split; [intros _ b Hb; lia | reflexivity].
  - rewrite andb_true_iff, IH. split.
    + intros [-> H] [|b] Hb; [reflexivity | apply H; lia].
    + intros H. split.
      * specialize (H O ltac:(lia)). simpl in H. congruence.
      * intros b Hb. apply (H (S b)). lia.
Qed.

Lemma iterate_snoc {S : Type} (body : S -> result S) :
  forall (n : nat) (s : S),
    iterate (Datatypes.S n) body s = (s' <- iterate n body s ;; body s').
Proof.
  induction n as [|n IH]; intros s.
  - simpl. destruct (body s); reflexivity.
  - change (iterate (Datatypes.S (Datatypes.S n)) body s)
      with (s1 <- body s ;; iterate (Datatypes.S n) body s1).
    change (iterate (Datatypes.S n) body s)
      with (s1 <- body s ;; iterate n body s1).
    destruct (body s) as [s1|e]; simpl; [apply IH | reflexivity].
Qed.

Lemma map_Some_inj {A : Type} (l l' : list A) :
  map Some l = map Some l' -> l = l'.
Proof.
  revert l'; induction l as [|x l IH]; intros [|y l'] H; simpl in H;
    try discriminate; [reflexivity|].
  injection H as -> H. f_equal. now apply IH.
Qed.

(** A loop that returns has run its body some number of times, the condition
    holding before each run and failing at the end. *)
Lemma while_loop_Ok {S : Type} (cond : S -> bool) (body : S -> result S) :
  forall fuel s s',
    while_loop fuel cond body s = Some (Ok s') ->
    exists n,
      (n <= fuel)%nat /\
      iterate n body s = Ok s' /\ cond s' = false /\
      forall k, (k < n)%nat ->
        exists sk, iterate k body s = Ok sk /\ cond sk = true.
Proof.
  induction fuel as [|fuel IH]; intros s s' H; simpl in H.
  - destruct (cond s) eqn:Hc; [discriminate|].
    injection H as <-. exists O.
      split; [lia|]. split; [reflexivity|]. split; [assumption|].
      intros k Hk; lia.
  - destruct (cond s) eqn:Hc.
    + destruct (body s) as [s1|e] eqn:Hb; [|discriminate].
      destruct (IH _ _ H) as (n & Hn & Hit & Hend & Hbefore).
      exists (Datatypes.S n). repeat split; [lia| | assumption |].
      * simpl. rewrite Hb. exact Hit.
      * intros [|k] Hk.
        -- exists s. split; [reflexivity | assumption].
        -- destruct (Hbefore k) as (sk & Hsk & Hck); [lia|].
           exists sk. split; [|assumption]. simpl. rewrite Hb. exact Hsk.
    + injection H as <-. exists O.
      split; [lia|]. split; [reflexivity|]. split; [assumption|].
      intros k Hk; lia.
Qed.

(** A loop whose condition needs a positive measure and whose body lowers
    it does not run out of fuel once the fuel covers the measure. *)
Lemma while_loop_enough_fuel {S : Type} (cond : S -> bool)
  (body : S -> result S) (measure : S -> nat) :
  (forall s, cond s = true -> (0 < measure s)%nat) ->
  (forall s s', cond s = true -> body s = Ok s' ->
                (measure s' < measure s)%nat) ->
  forall fuel s, (measure s <= fuel)%nat ->
    while_loop fuel cond body s <> None.
Proof.
  intros Hpos Hdec. induction fuel as [|fuel IH]; intros s Hm; simpl.
  - destruct (cond s) eqn:Hc; [|discriminate].
    specialize (Hpos _ Hc). lia.
  - destruct (cond s) eqn:Hc; [|discriminate].
    destruct (body s) as [s1|e] eqn:Hb; [|discriminate].
    apply IH. specialize (Hdec _ _ Hc Hb). lia.
Qed.

Lemma mapM_Ok {A B : Type} (f : A -> result B) :
  forall (l : list A) (l' : list B),
    mapM f l = Ok l' ->
    List.length l' = List.length l /\
    forall i y, nth_error l' i = Some y ->
      exists x, nth_error l i = Some x /\ f x = Ok y.
Proof.
  induction l as [|x l IH]; intros l' H; simpl in H.
  - injection H as <-. split; [reflexivity|]. intros [|i] y Hy; discriminate.
  - apply bind_Ok_inv in H. destruct H as (y0 & Hy0 & H).
    apply bind_Ok_inv in H. destruct H as (ys & Hys & H).
    injection H as <-. destruct (IH _ Hys) as (Hlen & Hnth).
    split; [simpl; congruence|].
    intros [|i] y Hy; simpl in Hy.
    + injection Hy as <-. exists x. auto.
    + apply Hnth in Hy. exact Hy.
Qed.

(** Every input of a successful [mapM] has its output at the same index. *)
Lemma mapM_Ok_at {A B : Type} (f : A -> result B) :
  forall (l : list A) (l' : list B),
    mapM f l = Ok l' ->
    forall i x, nth_error l i = Some x ->
      exists y, nth_error l' i = Some y /\ f x = Ok y.
Proof.
  intros l l' H i x Hx.
  destruct (mapM_Ok f l l' H) as (Hlen & Hnth).
  destruct (nth_error l' i) as [y|] eqn:Hy.
  - exists y. split; [reflexivity|].
    destruct (Hnth i y Hy) as (x' & Hx' & Hf). congruence.
  - apply nth_error_None in Hy.
    assert (i < List.length l)%nat by (apply nth_error_Some; congruence).
    lia.
Qed.

Lemma mapM_total {A B : Type} (f : A -> result B) :
  forall l : list A,
    (forall x, In x l -> exists y, f x = Ok y) ->
    exists l', mapM f l = Ok l'.
Proof.
  induction l as [|x l IH]; intros H; simpl.
  - eauto.
  - destruct (H x) as (y & Hy); [now left|]. rewrite Hy. simpl.
    destruct IH as (ys & Hys); [intros; apply H; now right|].
    rewrite Hys. simpl. eauto.
Qed.

(** The scan answers the index it started with or one it has visited. *)
Lemma argmax_scan_range {F : Type} (gtb : F -> F -> bool) :
  forall (l : list F) (best : F) (best_i i : Z),
    argmax_scan gtb best best_i i l = best_i \/
    i <= argmax_scan gtb best best_i i l < i + Z.of_nat (List.length l).
Proof.
  induction l as [|x l IH]; intros best best_i i; simpl; [now left|].
  destruct (gtb x best).
  - right. destruct (IH x i (i + 1)) as [-> | H]; lia.
  - destruct (IH best best_i (i + 1)) as [-> | H]; [now left | right; lia].
Qed.

Lemma argmax_range {F : Type} (gtb : F -> F -> bool) (row : list F) (i : Z) :
  argmax gtb row = Ok i -> 0 <= i < Z.of_nat (List.length row).
Proof.
  destruct row as [|x r]; simpl; intros H; [discriminate|].
  injection H as <-.
  destruct (argmax_scan_range gtb r x 0 1) as [-> | H]; lia.
Qed.

Section ArgmaxIsMaximal.
Context {F : Type}.
Variable gtb : F -> F -> bool.

(** [gtb] is the strict part of a total preorder. *)
Hypothesis gtb_asym : forall x y, gtb x y = true -> gtb y x = false.
Hypothesis gtb_trans :
  forall x y z, gtb x y = false -> gtb y z = false -> gtb x z = false.

Lemma gtb_irrefl (x : F) : gtb x x = false.
Proof.
  destruct (gtb x x) eqn:E; [|reflexivity].
  rewrite (gtb_asym _ _ E) in E. discriminate.
Qed.

Lemma argmax_scan_max :
  forall (l : list F) (best : F) (best_i i : Z),
    exists v,
      ((argmax_scan gtb best best_i i l = best_i /\ v = best) \/
       (exists k, argmax_scan gtb best best_i i l = i + Z.of_nat k /\
                  nth_error l k = Some v)) /\
      gtb best v = false /\
      forall y, In y l -> gtb y v = false.
Proof.
  induction l as [|x l IH]; intros best best_i i; simpl.
  - exists best. split; [now left|]. split; [apply gtb_irrefl|].
    intros y [].
  - destruct (gtb x best) eqn:E.
    + destruct (IH x i (i + 1)) as (v & Hpos & Hxv & Hall).
      exists v. split; [|split].
      * right. destruct Hpos as [[-> ->] | (k & -> & Hk)].
        -- exists O. split; [lia | reflexivity].
        -- exists (S k). split; [lia | exact Hk].
      * apply (gtb_trans best x v); [now apply gtb_asym | exact Hxv].
      * intros y [<-|Hy]; [exact Hxv | now apply Hall].
    + destruct (IH best best_i (i + 1)) as (v & Hpos & Hbv & Hall).
      exists v. split; [|split].
      * destruct Hpos as [[-> ->] | (k & -> & Hk)]; [now left|].
        right. exists (S k). split; [lia | exact Hk].
      * exact Hbv.
      * intros y [<-|Hy]; [now apply (gtb_trans x best v) | now apply Hall].
Qed.

(** The index [argmax] answers holds an entry no other entry exceeds. *)
Lemma argmax_is_maximal (row : list F) (i : Z) :
  argmax gtb row = Ok i ->
  exists v,
    nth_error row (Z.to_nat i) = Some v /\
    forall y, In y row -> gtb y v = false.
Proof.
  destruct row as [|x r]; simpl; intros H; [discriminate|].
  injection H as <-.
  destruct (argmax_scan_max r x 0 1) as (v & Hpos & Hxv & Hall).
  exists v. split.
  - destruct Hpos as [[-> ->] | (k & -> & Hk)]; [reflexivity|].
    replace (Z.to_nat (1 + Z.of_nat k)) with (S k) by lia. exact Hk.
  - intros y [<-|Hy]; [exact Hxv | now apply Hall].
Qed.
End ArgmaxIsMaximal.

Lemma zip_with_nth_error_inv {A B C : Type} (f : A -> B -> C) :
  forall (a : list A) (b : list B) (i : nat) (z : C),
    nth_error (zip_with f a b) i = Some z ->
    exists x y, nth_error a i = Some x /\ nth_error b i = Some y /\ z = f x y.
Proof.
  induction a as [|x0 a IH]; intros [|y0 b] [|i] z H; simpl in H;
    try discriminate.
  - injection H as <-. exists x0, y0. auto.
  - apply IH in H. exact H.
Qed.

(** Column [b] of the transpose holds position [b] of every row, in row
    order. *)
Lemma transpose_cols_column {A : Type} (cols : nat) :
  forall (t : list (list A)) (b : nat) (col : list A),
    nth_error (transpose_cols cols t) b = Some col ->
    List.length col = List.length t /\
    forall i row, nth_error t i = Some row ->
      nth_error col i = nth_error row b.
Proof.
  induction t as [|row0 t IH]; intros b col H; simpl in H.
  - apply nth_error_In, repeat_spec in H. subst col.
    split; [reflexivity|]. intros [|i] row Hr; discriminate.
  - apply zip_with_nth_error_inv in H.
    destruct H as (x & col' & Hx & Hcol' & ->).
    destruct (IH _ _ Hcol') as (Hlen & Hnth).
    split; [simpl; congruence|].
    intros [|i] row Hr; simpl in Hr |- *.
    + injection Hr as <-. symmetry. exact Hx.
    + now apply Hnth.
Qed.

Lemma transpose_cols_length {A : Type} (cols : nat) :
  forall t : list (list A),
    (forall row, In row t -> List.length row = cols) ->
    List.length (transpose_cols cols t) = cols.
Proof.
  induction t as [|row0 t IH]; intros H; simpl.
  - apply repeat_length.
  - rewrite zip_with_length.
    + apply H. now left.
    + rewrite IH; [apply H; now left | intros; apply H; now right].
Qed.

(** For a rectangular tensor with a non-empty inner dimension, dimension 1
    of the transpose is the outer length. *)
Lemma dim1_transpose {A : Type} (cols : nat) (t : list (list A)) :
  (0 < cols)%nat ->
  (forall row, In row t -> List.length row = cols) ->
  dim1 (transpose t) = List.length t /\
  List.length (transpose t) = dim1 t /\
  (t <> [] -> dim1 t = cols).
Proof.
  intros Hpos Hrect. unfold transpose.
  destruct t as [|row0 t']; [simpl; repeat split; congruence|].
  assert (Hd : dim1 (row0 :: t') = cols) by (simpl; apply Hrect; now left).
  rewrite Hd.
  pose proof (transpose_cols_length cols (row0 :: t') Hrect) as Hlen.
  repeat split; auto.
  destruct (transpose_cols cols (row0 :: t')) as [|col rest] eqn:Ht;
    [simpl in Hlen; lia|].
  simpl.
  apply (transpose_cols_column cols (row0 :: t') O col).
  rewrite Ht. reflexivity.
Qed.

End TfFacts.

(** ** The decoding loop *)

Module DecoderFacts.
Import Tf TfFacts Decoder.
Local Open Scope string_scope.
Local Open Scope list_scope.
Local Open Scope Z_scope.
Local Open Scope result_scope.

Lemma recognized_cell_names (s : string) :
  dict_in s RNN_CELL_TYPES = true <-> s = "GRU" \/ s = "LSTM".
Proof.
  unfold dict_in, RNN_CELL_TYPES. simpl.
  destruct (String.eqb_spec s "GRU") as [->|H1]; [intuition|].
  destruct (String.eqb_spec s "LSTM") as [->|H2]; [intuition|].
  split; [discriminate | intros [?|?]; contradiction].
Qed.

Section Loop.
Context {tensor float32 att_loop_state : Type}.
Variable END_TOKEN_INDEX : Z.
Variable rt : @Runtime tensor float32.

Abbreviation LoopState := (@LoopState tensor float32 att_loop_state).
Abbreviation BaseAttention := (@BaseAttention tensor att_loop_state).
Abbreviation Decoder := (@Decoder tensor att_loop_state).
Abbreviation body := (body END_TOKEN_INDEX rt).

(** What one successful run of the body did to the loop state. *)
Lemma body_Ok (self : Decoder) (att_objects : list BaseAttention)
  (train_mode : bool) (ls ls' : LoopState) :
  body self att_objects train_mode ls = Ok ls' ->
  step ls' = step ls + 1 /\
  train_inputs ls' = train_inputs ls /\
  (if train_mode
   then index_outer (train_inputs ls) (step ls)
   else argmax_axis1 (gtb rt) (prev_logits ls')) = Ok (input_symbol ls') /\
  logical_or (finished ls) (equal (input_symbol ls') END_TOKEN_INDEX)
    = Ok (finished ls') /\
  write (rnn_outputs ls) (step ls + 1) (prev_rnn_output ls')
    = Ok (rnn_outputs ls') /\
  write (logits ls) (step ls) (prev_logits ls') = Ok (logits ls') /\
  write (mask ls) (step ls) (logical_not (finished ls')) = Ok (mask ls').
Proof.
  unfold Decoder.body. intros H.
  apply bind_Ok_inv in H.
  destruct H as ([[[[cell_output next_state] attns] contexts] als] & _ & H).
  destruct attns as [|a0 attns];
    (apply bind_Ok_inv in H; destruct H as (next_symbols & Hsym & H);
     apply bind_Ok_inv in H; destruct H as (has_finished & Hfin & H);
     apply bind_Ok_inv in H; destruct H as (ro & Hro & H);
     apply bind_Ok_inv in H; destruct H as (lo & Hlo & H);
     apply bind_Ok_inv in H; destruct H as (mo & Hmo & H);
     injection H as <-; simpl; repeat split; assumption).
Qed.

Lemma body_histories (self : Decoder) (att_objects : list BaseAttention)
  (train_mode : bool) (ls ls' : LoopState) (k : nat)
  (ro : list tensor) (lo : list (list (list float32)))
  (mo : list (list bool)) :
  body self att_objects train_mode ls = Ok ls' ->
  step ls = Z.of_nat k ->
  rnn_outputs ls = map Some ro -> List.length ro = S k ->
  logits ls = map Some lo -> List.length lo = k ->
  mask ls = map Some mo -> List.length mo = k ->
  step ls' = Z.of_nat (S k) /\
  rnn_outputs ls' = map Some (ro ++ [prev_rnn_output ls']) /\
  logits ls' = map Some (lo ++ [prev_logits ls']) /\
  mask ls' = map Some (mo ++ [logical_not (finished ls')]).
Proof.
  intros H Hstep Hro Hlro Hlo Hllo Hmo Hlmo.
  destruct (body_Ok _ _ _ _ _ H) as (Hs & _ & _ & _ & Wr & Wl & Wm).
  rewrite Hro in Wr. rewrite Hlo in Wl. rewrite Hmo in Wm.
  rewrite write_end in Wr by lia.
  rewrite write_end in Wl by lia.
  rewrite write_end in Wm by lia.
  injection Wr as <-. injection Wl as <-. injection Wm as <-.
  repeat split; try reflexivity. lia.
Qed.

(** After [n] further runs of the body the three histories are fully
    written and have grown by [n] entries each. *)
Lemma iterate_histories (self : Decoder) (att_objects : list BaseAttention)
  (train_mode : bool) :
  forall (n k : nat) (ls final : LoopState) ro lo mo,
    iterate n (body self att_objects train_mode) ls = Ok final ->
    step ls = Z.of_nat k ->
    rnn_outputs ls = map Some ro -> List.length ro = S k ->
    logits ls = map Some lo -> List.length lo = k ->
    mask ls = map Some mo -> List.length mo = k ->
    step final = Z.of_nat (k + n) /\
    exists ro' lo' mo',
      rnn_outputs final = map Some ro' /\ List.length ro' = S (k + n) /\
      logits final = map Some lo' /\ List.length lo' = (k + n)%nat /\
      mask final = map Some mo' /\ List.length mo' = (k + n)%nat.
Proof.
  induction n as [|n IH]; intros k ls final ro lo mo Hit Hs Hro Hlro Hlo Hllo
    Hmo Hlmo; simpl in Hit.
  - injection Hit as <-. rewrite Nat.add_0_r. split; [assumption|].
    exists ro, lo, mo. auto 10.
  - apply bind_Ok_inv in Hit. destruct Hit as (ls1 & Hb & Hit).
    destruct (body_histories _ _ _ _ _ _ _ _ _ Hb Hs Hro Hlro Hlo Hllo Hmo Hlmo)
      as (Hs1 & Hro1 & Hlo1 & Hmo1).
    replace (k + S n)%nat with (S k + n)%nat by lia.
    eapply IH; eauto; rewrite length_app; simpl; lia.
Qed.

Lemma initial_loop_state_histories (self : Decoder) (feed : Feed)
  (att_objects : list BaseAttention) :
  exists init,
    get_initial_loop_state rt self feed att_objects = Ok init /\
    step init = 0 /\
    rnn_outputs init = map Some [initial_state feed] /\
    logits init = map Some [] /\ mask init = map Some [] /\
    finished init = repeat false (List.length (go_symbols feed)).
Proof.
  eexists. split; [reflexivity|]. simpl. auto.
Qed.

Lemma iterate_from_initial (self : Decoder) (feed : Feed)
  (att_objects : list BaseAttention) (train_mode : bool) (T : nat)
  (init final : LoopState) :
  get_initial_loop_state rt self feed att_objects = Ok init ->
  iterate T (body self att_objects train_mode) init = Ok final ->
  step final = Z.of_nat T /\
  exists ro lo mo,
    rnn_outputs final = map Some ro /\ List.length ro = S T /\
    logits final = map Some lo /\ List.length lo = T /\
    mask final = map Some mo /\ List.length mo = T.
Proof.
  intros Hinit Hit.
  destruct (initial_loop_state_histories self feed att_objects)
    as (init' & Hinit' & Hs & Hro & Hlo & Hmo & _).
  rewrite Hinit in Hinit'. injection Hinit' as <-.
  apply (iterate_histories self att_objects train_mode T 0 init final
           [initial_state feed] [] []); auto.
Qed.

Lemma body_finished_elementwise (self : Decoder)
  (att_objects : list BaseAttention) (train_mode : bool)
  (ls ls' : LoopState) :
  body self att_objects train_mode ls = Ok ls' ->
  List.length (finished ls) = List.length (input_symbol ls') ->
  List.length (finished ls') = List.length (finished ls) /\
  forall b f sym,
    nth_error (finished ls) b = Some f ->
    nth_error (input_symbol ls') b = Some sym ->
    nth_error (finished ls') b = Some (f || (sym =? END_TOKEN_INDEX)).
Proof.
  intros H Hlen.
  destruct (body_Ok _ _ _ _ _ H) as (_ & _ & _ & Hfin & _).
  unfold logical_or in Hfin.
  assert (Hlen' : List.length (finished ls)
                  = List.length (equal (input_symbol ls') END_TOKEN_INDEX)).
  { unfold equal. now rewrite length_map. }
  rewrite broadcast2_same_length in Hfin by assumption.
  injection Hfin as Hfin. rewrite <- Hfin. split.
  - now apply zip_with_length.
  - intros b f sym Hf Hs. apply zip_with_nth_error; [assumption|].
    unfold equal. rewrite nth_error_map, Hs. reflexivity.
Qed.

(** Entry [t] of the mask history is the negation of the finished flags as
    they are after step [t]. *)
Lemma mask_trace (self : Decoder) (feed : Feed)
  (att_objects : list BaseAttention) (train_mode : bool) (init : LoopState) :
  get_initial_loop_state rt self feed att_objects = Ok init ->
  forall (T : nat) (final : LoopState),
    iterate T (body self att_objects train_mode) init = Ok final ->
    exists mo,
      mask final = map Some mo /\ List.length mo = T /\
      forall t ls,
        (t < T)%nat ->
        iterate (S t) (body self att_objects train_mode) init = Ok ls ->
        nth_error mo t = Some (logical_not (finished ls)).
Proof.
  intros Hinit. induction T as [|T IH]; intros final Hit.
  - destruct (iterate_from_initial _ _ _ _ _ _ _ Hinit Hit)
      as (_ & _ & _ & mo & _ & _ & _ & _ & Hmo & Hlen).
    exists mo. repeat split; auto. intros t ls Ht. lia.
  - rewrite iterate_snoc in Hit. apply bind_Ok_inv in Hit.
    destruct Hit as (mid & Hmid & Hb).
    destruct (IH _ Hmid) as (mo & Hmo & Hlen & Hentries).
    destruct (iterate_from_initial _ _ _ _ _ _ _ Hinit Hmid)
      as (Hs & ro & lo & mo' & Hro & Hlro & Hlo & Hllo & Hmo' & Hlmo').
    destruct (body_histories _ _ _ _ _ _ _ _ _ Hb Hs Hro Hlro Hlo Hllo Hmo'
                Hlmo') as (_ & _ & _ & Hmask).
    assert (mo' = mo) by (apply map_Some_inj; congruence). subst mo'.
    exists (mo ++ [logical_not (finished final)]).
    split; [assumption|]. split; [rewrite length_app; simpl; lia|].
    intros t ls Ht Hls.
    destruct (Nat.eq_dec t T) as [->|Hne].
    + rewrite iterate_snoc, Hmid in Hls. simpl in Hls.
      rewrite Hb in Hls. injection Hls as <-.
      rewrite nth_error_app2, Hlen, Nat.sub_diag by lia. reflexivity.
    + rewrite nth_error_app1 by lia. apply Hentries; [lia | assumption].
Qed.

(** With the batch size kept by every step's tokens, a sequence's finished
    flag is set exactly when one of the steps so far chose the end token
    for it. *)
Lemma finished_trace (self : Decoder) (feed : Feed)
  (att_objects : list BaseAttention) (train_mode : bool) (init : LoopState) :
  get_initial_loop_state rt self feed att_objects = Ok init ->
  (forall t ls,
      iterate (S t) (body self att_objects train_mode) init = Ok ls ->
      List.length (input_symbol ls) = List.length (go_symbols feed)) ->
  forall (T : nat) (final : LoopState),
    iterate T (body self att_objects train_mode) init = Ok final ->
    List.length (finished final) = List.length (go_symbols feed) /\
    forall b, (b < List.length (go_symbols feed))%nat ->
      (nth_error (finished final) b = Some true <->
       exists t ls,
         (t < T)%nat /\
         iterate (S t) (body self att_objects train_mode) init = Ok ls /\
         nth_error (input_symbol ls) b = Some END_TOKEN_INDEX) /\
      (nth_error (finished final) b = Some true \/
       nth_error (finished final) b = Some false).
Proof.
  intros Hinit Hbatch.
  destruct (initial_loop_state_histories self feed att_objects)
    as (init' & Hinit' & _ & _ & _ & _ & Hfin0).
  rewrite Hinit in Hinit'. injection Hinit' as <-.
  induction T as [|T IH]; intros final Hit.
  - simpl in Hit. injection Hit as <-. rewrite Hfin0, repeat_length.
    split; [reflexivity|]. intros b Hb.
    rewrite nth_error_repeat by assumption. split; [|now right].
    split; [discriminate|]. intros (t & _ & Ht & _). lia.
  - pose proof Hit as Hfinal.
    rewrite iterate_snoc in Hit. apply bind_Ok_inv in Hit.
    destruct Hit as (mid & Hmid & Hb).
    destruct (IH _ Hmid) as (Hlen & Hflags).
    pose proof (Hbatch _ _ Hfinal) as Hsym.
    destruct (body_finished_elementwise _ _ _ _ _ Hb) as (Hlen' & Hel);
      [congruence|].
    split; [congruence|]. intros b Hlt.
    destruct (Hflags b Hlt) as (Hiff & Hdec).
    destruct (nth_error (input_symbol final) b) as [sym|] eqn:Hs.
    2:{ apply nth_error_None in Hs. lia. }
    assert (Hnew : forall f, nth_error (finished mid) b = Some f ->
                     nth_error (finished final) b
                     = Some (f || (sym =? END_TOKEN_INDEX)))
      by (intros f Hf; now apply Hel).
    split.
    + split.
      * intros Htrue. destruct Hdec as [Hd|Hd].
        -- apply Hiff in Hd. destruct Hd as (t & ls & Ht & Hls & Hend).
           exists t, ls. repeat split; auto.
        -- rewrite (Hnew _ Hd) in Htrue. simpl in Htrue.
           injection Htrue as Htrue. apply Z.eqb_eq in Htrue. subst sym.
           exists T, final. repeat split; auto.
      * intros (t & ls & Ht & Hls & Hend).
        destruct (Nat.eq_dec t T) as [->|Hne].
        -- rewrite Hfinal in Hls. injection Hls as <-.
           rewrite Hs in Hend. injection Hend as ->.
           destruct Hdec as [Hd|Hd]; rewrite (Hnew _ Hd), Z.eqb_refl;
             [reflexivity | reflexivity].
        -- assert (Hd : nth_error (finished mid) b = Some true).
           { apply Hiff. exists t, ls. repeat split; auto. lia. }
           rewrite (Hnew _ Hd). reflexivity.
    + destruct Hdec as [Hd|Hd]; rewrite (Hnew _ Hd);
        destruct (sym =? END_TOKEN_INDEX); simpl; auto.
Qed.

(** What the loop returns as mask after at least one step, with the batch
    size kept by every step's tokens: entry [b] of mask row [t] is 1 exactly
    when sequence [b] has chosen no end token at any step up to and
    including [t].  So the row of the step at which a sequence chooses the
    end token already holds 0 for it. *)
Lemma returned_mask_entries (self : Decoder) (feed : Feed)
  (att_objects : list BaseAttention) (train_mode : bool) (init : LoopState) :
  get_initial_loop_state rt self feed att_objects = Ok init ->
  (forall t ls,
      iterate (S t) (body self att_objects train_mode) init = Ok ls ->
      List.length (input_symbol ls) = List.length (go_symbols feed)) ->
  forall (T : nat) (final : LoopState),
    (0 < T)%nat ->
    iterate T (body self att_objects train_mode) init = Ok final ->
    exists mask_,
      stack (mask final) = Ok mask_ /\ List.length mask_ = T /\
      forall t b, (t < T)%nat -> (b < List.length (go_symbols feed))%nat ->
        exists row m,
          nth_error mask_ t = Some row /\ nth_error row b = Some m /\
          (m = false <->
           exists t' ls,
             (t' <= t)%nat /\
             iterate (S t') (body self att_objects train_mode) init = Ok ls /\
             nth_error (input_symbol ls) b = Some END_TOKEN_INDEX).
Proof.
  intros Hinit Hbatch T final HT Hit.
  destruct (mask_trace _ _ _ _ _ Hinit T final Hit)
    as (mo & Hmo & Hlen & Hentries).
  exists mo. rewrite Hmo, stack_written
    by (intros ->; simpl in Hlen; lia).
  repeat split; auto.
  intros t b Ht Hb.
  assert (Hprefix : exists ls,
             iterate (S t) (body self att_objects train_mode) init = Ok ls).
  { clear Hentries Hmo Hlen HT. revert final Hit.
    induction T as [|T IH]; intros final Hit; [lia|].
    destruct (Nat.eq_dec t T) as [->|Hne]; [eauto|].
    rewrite iterate_snoc in Hit. apply bind_Ok_inv in Hit.
    destruct Hit as (mid & Hmid & _). apply (IH ltac:(lia) mid Hmid). }
  destruct Hprefix as (ls & Hls).
  destruct (finished_trace _ _ _ _ _ Hinit Hbatch (S t) ls Hls)
    as (Hflen & Hflags).
  destruct (Hflags b Hb) as (Hiff & Hdec).
  exists (logical_not (finished ls)).
  destruct Hdec as [Hd|Hd].
  - exists false. split; [now apply Hentries|].
    split; [unfold logical_not; rewrite nth_error_map, Hd; reflexivity|].
    split; [|reflexivity]. intros _.
    apply Hiff in Hd. destruct Hd as (t' & ls' & Ht' & Hls' & Hend).
    exists t', ls'. repeat split; auto. lia.
  - exists true. split; [now apply Hentries|].
    split; [unfold logical_not; rewrite nth_error_map, Hd; reflexivity|].
    split; [discriminate|]. intros (t' & ls' & Ht' & Hls' & Hend).
    assert (Htrue : nth_error (finished ls) b = Some true).
    { apply Hiff. exists t', ls'. repeat split; auto. lia. }
    congruence.
Qed.

(** C10.  When the loop of [_decoding_loop] ends in a final state, that
    state was reached by some number [T] of runs of the body; its history of
    recurrent outputs holds [T + 1] written entries (the seeded initial
    state and one per step), its histories of logits and of the mask [T]
    each.  After at least one step [_decoding_loop] returns exactly these
    histories, so the recurrent outputs are one entry longer than the logits
    and the mask.  After no step the logits history is an array of size
    zero, which cannot be stacked: [_decoding_loop] fails. *)
Theorem rnn_outputs_one_longer (fuel : nat) (self : Decoder) (feed : Feed)
  (train_mode : bool) (final : LoopState) :
  final_loop_state END_TOKEN_INDEX rt fuel self feed train_mode
    = Some (Ok final) ->
  exists (T : nat) init logits_ rnn_outputs_ mask_,
    get_initial_loop_state rt self feed
      (decoding_att_objects self train_mode) = Ok init /\
    iterate T (body self (decoding_att_objects self train_mode) train_mode)
      init = Ok final /\
    step final = Z.of_nat T /\
    rnn_outputs final = map Some rnn_outputs_ /\
    logits final = map Some logits_ /\
    mask final = map Some mask_ /\
    List.length rnn_outputs_ = S T /\
    List.length logits_ = T /\
    List.length mask_ = T /\
    ((0 < T)%nat ->
     _decoding_loop END_TOKEN_INDEX rt fuel self feed train_mode
     = Some (Ok (logits_, rnn_outputs_, mask_)) /\
     List.length rnn_outputs_ = S (List.length logits_) /\
     List.length rnn_outputs_ = S (List.length mask_)) /\
    (T = 0%nat ->
     exists msg,
       _decoding_loop END_TOKEN_INDEX rt fuel self feed train_mode
       = Some (Err (UnimplementedError msg))).
Proof.
  intros Hfin. unfold _decoding_loop. rewrite Hfin.
  unfold final_loop_state in Hfin.
  destruct (get_initial_loop_state rt self feed
              (decoding_att_objects self train_mode)) as [init|e] eqn:Hinit;
    [|discriminate].
  apply while_loop_Ok in Hfin.
  destruct Hfin as (T & _ & Hit & _ & _).
  destruct (iterate_from_initial _ _ _ _ _ _ _ Hinit Hit)
    as (Hs & ro & lo & mo & Hro & Hlro & Hlo & Hllo & Hmo & Hlmo).
  exists T, init, lo, ro, mo.
  do 9 (split; [assumption || reflexivity|]).
  simpl. rewrite Hro, Hlo, Hmo. split.
  - intros HT.
    rewrite !stack_written by (intros ->; simpl in *; lia).
    simpl. repeat split; lia.
  - intros ->. destruct lo; [|discriminate]. simpl. eauto.
Qed.

(** C3.  A run of the body takes as next input the reference row at the
    current step when teacher-forced and the argmax of the logits it has just
    computed (and recorded for this step) otherwise; the new finished flags
    are the old ones or-ed with the test of the next input against the
    end-of-sequence id. *)
Theorem next_input_and_finished (self : Decoder)
  (att_objects : list BaseAttention) (train_mode : bool)
  (ls ls' : LoopState) :
  body self att_objects train_mode ls = Ok ls' ->
  write (logits ls) (step ls) (prev_logits ls') = Ok (logits ls') /\
  (if train_mode
   then 0 <= step ls /\
        nth_error (train_inputs ls) (Z.to_nat (step ls))
        = Some (input_symbol ls')
   else argmax_axis1 (gtb rt) (prev_logits ls') = Ok (input_symbol ls')) /\
  logical_or (finished ls) (equal (input_symbol ls') END_TOKEN_INDEX)
  = Ok (finished ls') /\
  (List.length (finished ls) = List.length (input_symbol ls') ->
   List.length (finished ls') = List.length (finished ls) /\
   forall b f sym,
     nth_error (finished ls) b = Some f ->
     nth_error (input_symbol ls') b = Some sym ->
     nth_error (finished ls') b = Some (f || (sym =? END_TOKEN_INDEX))).
Proof.
  intros H.
  destruct (body_Ok _ _ _ _ _ H) as (_ & _ & Hsym & Hfin & _ & Wl & _).
  split; [assumption|]. split; [|split; [assumption|]].
  - destruct train_mode; [|assumption].
    unfold index_outer in Hsym.
    destruct (Z.ltb_spec (step ls) 0) as [|Hge]; [discriminate|].
    destruct (nth_error (train_inputs ls) (Z.to_nat (step ls)));
      [|discriminate].
    injection Hsym as ->. auto.
  - intros Hlen. now apply (body_finished_elementwise _ _ _ _ _ H).
Qed.

End Loop.

(** *** Free-running decoding on a well-shaped runtime *)

Section FreeRunning.
Context {tensor float32 att_loop_state : Type}.
Variable END_TOKEN_INDEX : Z.
Variable rt : @Runtime tensor float32.
Variable self : @Decoder tensor att_loop_state.
Variable feed : @Feed tensor float32.
Variable att_objects : list (@BaseAttention tensor att_loop_state).

Abbreviation LoopState := (@LoopState tensor float32 att_loop_state).
Abbreviation body := (body END_TOKEN_INDEX rt self att_objects false).

(** The cell name is a recognized one, a conditional GRU has attention
    contexts to read, the attention objects do not fail, and the logits
    have one non-empty row per batch entry. *)
Hypothesis cell_recognized :
  dict_in (_rnn_cell_str self) RNN_CELL_TYPES = true.
Hypothesis conditional_gru_attends :
  _conditional_gru self = true -> att_objects <> [].
Hypothesis attention_total :
  forall a, In a att_objects ->
    forall x y z ls n, exists r, attention a x y z ls n = Ok r.
Hypothesis logits_shape :
  forall x,
    List.length (_logit_function rt x) = List.length (go_symbols feed) /\
    forall row, In row (_logit_function rt x) -> row <> [].

Lemma split_lengths {A B : Type} (l : list (A * B)) :
  List.length (fst (List.split l)) = List.length l /\
  List.length (snd (List.split l)) = List.length l.
Proof.
  induction l as [|[x y] l IH]; simpl; [auto|].
  destruct (List.split l) as [l1 l2]. simpl in *. lia.
Qed.

Lemma rnn_step_total (rnn_input : tensor) (ls : LoopState) :
  List.length (attention_loop_states ls) = List.length att_objects ->
  exists cell_output next_state attns contexts att_loop_states,
    rnn_step rt self att_objects rnn_input ls
    = Ok (cell_output, next_state, attns, contexts, att_loop_states) /\
    List.length attns = List.length att_objects /\
    (attns <> [] -> List.length att_loop_states = List.length att_objects).
Proof.
  intros Hals.
  assert (Hatt : forall cell_output,
             exists attns,
               run_attentions att_objects cell_output rnn_input ls = Ok attns /\
               List.length attns = List.length att_objects).
  { intros cell_output. unfold run_attentions.
    match goal with
    | |- exists attns, mapM ?f ?l = _ /\ _ =>
        destruct (mapM_total f l) as (attns & Hattns)
    end.
    - intros [a als] Hin. apply in_combine_l in Hin.
      apply attention_total. exact Hin.
    - exists attns. split; [assumption|].
      apply mapM_Ok in Hattns. destruct Hattns as (Hlen & _).
      rewrite Hlen, length_combine. lia. }
  assert (Hctx : forall attns,
             List.length attns = List.length att_objects ->
             exists contexts att_loop_states,
               contexts_of att_objects attns = Ok (contexts, att_loop_states) /\
               (attns <> [] ->
                List.length att_loop_states = List.length att_objects) /\
               (att_objects <> [] -> contexts <> [])).
  { intros attns Hlen. unfold contexts_of.
    destruct att_objects as [|a0 objs] eqn:Eo.
    - exists [], []. split; [reflexivity|]. split; [|congruence].
      destruct attns; [congruence | discriminate].
    - destruct attns as [|p attns]; [discriminate|].
      exists (fst (List.split (p :: attns))), (snd (List.split (p :: attns))).
      split; [|split].
      + unfold unzip_attns. now destruct (List.split (p :: attns)).
      + intros _. rewrite <- Hlen. apply split_lengths.
      + intros _ E. apply (f_equal (@List.length _)) in E.
        rewrite (proj1 (split_lengths (p :: attns))) in E. discriminate. }
  unfold rnn_step, _get_rnn_cell.
  pose proof cell_recognized as Hcell. unfold dict_in in Hcell.
  destruct (dict_get RNN_CELL_TYPES (_rnn_cell_str self)) as [c|] eqn:Ec;
    [|discriminate].
  simpl. pose proof cell_recognized as Hname.
  apply recognized_cell_names in Hname.
  destruct Hname as [-> | ->]; simpl.
  - destruct (call_OrthoGRUCell rt rnn_input (prev_rnn_output ls))
      as [cell_output state].
    destruct (Hatt cell_output) as (attns & -> & Hlen). simpl.
    destruct (Hctx attns Hlen) as (contexts & als & -> & Hlen' & Hne). simpl.
    destruct (_conditional_gru self) eqn:Ecg.
    + specialize (Hne (conditional_gru_attends eq_refl)).
      destruct contexts as [|c0 contexts]; [congruence|]. simpl.
      destruct (call_GRUCell rt (concat rt (c0 :: contexts)) state)
        as [co st].
      exists co, state, attns, (c0 :: contexts), als. auto.
    + exists cell_output, state, attns, contexts, als. auto.
  - destruct (call_LSTMCell rt rnn_input
                (prev_rnn_state ls, prev_rnn_output ls))
      as [cell_output state].
    destruct (Hatt cell_output) as (attns & -> & Hlen). simpl.
    destruct (Hctx attns Hlen) as (contexts & als & -> & Hlen' & _). simpl.
    exists cell_output, (fst state), attns, contexts, als. auto.
Qed.

(** A free-running step from a state with written histories, batch-sized
    finished flags and one loop state per attention object returns a state
    of the same kind, one step later. *)
Lemma free_running_step (ls : LoopState) (k : nat)
  (ro : list tensor) (lo : list (list (list float32)))
  (mo : list (list bool)) :
  step ls = Z.of_nat k ->
  rnn_outputs ls = map Some ro -> List.length ro = S k ->
  logits ls = map Some lo -> List.length lo = k ->
  mask ls = map Some mo -> List.length mo = k ->
  List.length (finished ls) = List.length (go_symbols feed) ->
  List.length (attention_loop_states ls) = List.length att_objects ->
  exists ls',
    body ls = Ok ls' /\
    List.length (input_symbol ls') = List.length (go_symbols feed) /\
    List.length (finished ls') = List.length (go_symbols feed) /\
    List.length (attention_loop_states ls') = List.length att_objects.
Proof.
  intros Hs Hro Hlro Hlo Hllo Hmo Hlmo Hfin Hals.
  unfold Decoder.body.
  destruct (rnn_step_total (input_projection rt self ls) ls Hals)
    as (co & ns & attns & ctxs & als & -> & Hlen & Hlen').
  simpl.
  set (pr := match attns with
             | [] => (co, [])
             | _ :: _ => (linear rt (co :: ctxs) (Some (rnn_size self))
                            "AttnOutputProjection", als)
             end).
  assert (Hpr : List.length (snd pr) = List.length att_objects).
  { unfold pr. destruct attns; simpl; [exact Hlen | apply Hlen'; discriminate]. }
  destruct pr as [output als'] eqn:Epr. simpl in Hpr.
  destruct (logits_shape output) as (Hrows & Hnonempty).
  destruct (mapM_total (argmax (gtb rt)) (_logit_function rt output))
    as (syms & Hsyms).
  { intros row Hrow. specialize (Hnonempty row Hrow).
    destruct row; [congruence | simpl; eauto]. }
  unfold argmax_axis1. rewrite Hsyms. simpl.
  assert (Hlsyms : List.length syms = List.length (go_symbols feed)).
  { apply mapM_Ok in Hsyms. destruct Hsyms as (-> & _). exact Hrows. }
  unfold logical_or. rewrite broadcast2_same_length
    by (unfold equal; rewrite length_map; congruence).
  simpl. rewrite Hs, Hro, Hlo, Hmo.
  rewrite !write_end by lia. simpl.
  eexists. split; [reflexivity|]. simpl.
  split; [assumption|]. split; [|assumption].
  rewrite zip_with_length; [assumption|].
  unfold equal. rewrite length_map. congruence.
Qed.

(** With fuel for [max_output_len] steps the free-running loop returns a
    final state, in which the condition fails. *)
Lemma free_running_returns (fuel : nat) :
  0 <= max_output_len self ->
  (Z.to_nat (max_output_len self) <= fuel)%nat ->
  exists init final,
    get_initial_loop_state rt self feed att_objects = Ok init /\
    while_loop fuel (loop_exit_criterion self) body init = Some (Ok final) /\
    loop_exit_criterion self final = false.
Proof.
  intros Hmax Hfuel.
  destruct (initial_loop_state_histories rt self feed att_objects)
    as (init & Hinit & Hs0 & Hro & Hlo & Hmo & Hfin).
  exists init.
  destruct (while_loop_total (loop_exit_criterion self) body
              (fun ls => Z.to_nat (max_output_len self - step ls))
              (fun ls : LoopState =>
                 List.length (finished ls) = List.length (go_symbols feed) /\
                 List.length (attention_loop_states ls)
                 = List.length att_objects /\
                 exists k ro lo mo,
                   step ls = Z.of_nat k /\
                   rnn_outputs ls = map Some ro /\ List.length ro = S k /\
                   logits ls = map Some lo /\ List.length lo = k /\
                   mask ls = map Some mo /\ List.length mo = k))
    with (fuel := fuel) (s := init) as (final & Hw & _).
  - intros s Hc. unfold loop_exit_criterion in Hc.
    apply andb_true_iff in Hc. destruct Hc as [_ Hc].
    apply Z.ltb_lt in Hc. lia.
  - intros s (Hf & Ha & k & ro & lo & mo & Hk & H1 & H2 & H3 & H4 & H5 & H6) Hc.
    destruct (free_running_step s k ro lo mo Hk H1 H2 H3 H4 H5 H6 Hf Ha)
      as (s' & Hb & _ & Hf' & Ha').
    exists s'. split; [assumption|].
    destruct (body_histories _ _ _ _ _ _ _ _ _ _ _ Hb Hk H1 H2 H3 H4 H5 H6)
      as (Hk' & H1' & H3' & H5').
    split.
    + split; [assumption|]. split; [assumption|].
      exists (S k), (ro ++ [prev_rnn_output s']),
        (lo ++ [prev_logits s']), (mo ++ [logical_not (finished s')]).
      rewrite !length_app. simpl. repeat split; auto; lia.
    + unfold loop_exit_criterion in Hc. apply andb_true_iff in Hc.
      destruct Hc as [_ Hc]. apply Z.ltb_lt in Hc. lia.
  - split; [rewrite Hfin; apply repeat_length|].
    split.
    + unfold get_initial_loop_state in Hinit. simpl in Hinit.
      injection Hinit as <-. simpl. apply length_map.
    + exists O, [initial_state feed], [], []. auto 10.
  - rewrite Hs0. replace (max_output_len self - 0) with (max_output_len self)
      by lia. exact Hfuel.
  - exists final. split; [assumption|]. split; [assumption|].
    apply while_loop_Ok in Hw. destruct Hw as (_ & _ & _ & Hend & _).
    exact Hend.
Qed.

(** Every free-running step yields one token per batch entry. *)
Lemma free_running_batch (init : LoopState) :
  get_initial_loop_state rt self feed att_objects = Ok init ->
  forall t ls,
    iterate (S t) body init = Ok ls ->
    List.length (input_symbol ls) = List.length (go_symbols feed).
Proof.
  intros Hinit t ls Hit. rewrite iterate_snoc in Hit.
  apply bind_Ok_inv in Hit. destruct Hit as (mid & _ & Hb).
  unfold Decoder.body in Hb.
  apply bind_Ok_inv in Hb.
  destruct Hb as ([[[[co ns] attns] ctxs] als] & _ & Hb).
  destruct (match attns with
            | [] => (co, [])
            | _ :: _ => _
            end) as [output als'].
  apply bind_Ok_inv in Hb. destruct Hb as (syms & Hsyms & Hb).
  apply bind_Ok_inv in Hb. destruct Hb as (hf & _ & Hb).
  apply bind_Ok_inv in Hb. destruct Hb as (r1 & _ & Hb).
  apply bind_Ok_inv in Hb. destruct Hb as (r2 & _ & Hb).
  apply bind_Ok_inv in Hb. destruct Hb as (r3 & _ & Hb).
  injection Hb as <-. simpl.
  apply mapM_Ok in Hsyms. destruct Hsyms as (-> & _).
  apply logits_shape.
Qed.

(** The run of the free-running loop: the state it returns, the number of
    body runs that led to it, and the test before each of them. *)
Lemma free_running_trace (fuel : nat) :
  0 <= max_output_len self ->
  (Z.to_nat (max_output_len self) <= fuel)%nat ->
  exists init final (T : nat),
    get_initial_loop_state rt self feed att_objects = Ok init /\
    while_loop fuel (loop_exit_criterion self) body init = Some (Ok final) /\
    iterate T body init = Ok final /\
    step final = Z.of_nat T /\
    loop_exit_criterion self final = false /\
    forall k, (k < T)%nat ->
      exists ls_k,
        iterate k body init = Ok ls_k /\ step ls_k = Z.of_nat k /\
        loop_exit_criterion self ls_k = true.
Proof.
  intros Hmax Hfuel.
  destruct (free_running_returns fuel Hmax Hfuel)
    as (init & final & Hinit & Hw & Hend).
  pose proof Hw as Hw'. apply while_loop_Ok in Hw'.
  destruct Hw' as (T & _ & Hit & _ & Hbefore).
  exists init, final, T.
  destruct (iterate_from_initial _ _ _ _ _ _ _ _ _ Hinit Hit) as (Hstep & _).
  repeat split; auto.
  intros k Hk. destruct (Hbefore k Hk) as (ls_k & Hk1 & Hk2).
  exists ls_k.
  destruct (iterate_from_initial _ _ _ _ _ _ _ _ _ Hinit Hk1) as (Hsk & _).
  auto.
Qed.

(** With a non-empty batch and a positive [max_output_len] the loop runs
    its body at least once. *)
Lemma free_running_first_step (init final : LoopState) (T : nat) :
  0 < max_output_len self ->
  go_symbols feed <> [] ->
  get_initial_loop_state rt self feed att_objects = Ok init ->
  iterate T body init = Ok final ->
  loop_exit_criterion self final = false ->
  (0 < T)%nat.
Proof.
  intros Hmax Hbatch Hinit Hit Hend.
  destruct T as [|T]; [|lia]. simpl in Hit. injection Hit as <-.
  destruct (initial_loop_state_histories rt self feed att_objects)
    as (init' & Hinit' & Hs0 & _ & _ & _ & Hfin).
  rewrite Hinit in Hinit'. injection Hinit' as <-.
  unfold loop_exit_criterion in Hend. rewrite Hs0, Hfin in Hend.
  destruct (go_symbols feed) as [|g gs]; [congruence|]. simpl in Hend.
  destruct (Z.ltb_spec 0 (max_output_len self)); [discriminate | lia].
Qed.


(** X10.  The free-running mask, on a well-shaped runtime with a non-empty
    batch and a positive [max_output_len]: the loop returns after at least
    one step; the mask has as many rows as steps were run, at most
    [max_output_len]; and entry [b] of row [t] is 0 exactly when sequence
    [b] has chosen the end token at step [t] or earlier.  Each sequence's
    column is therefore 1s followed by 0s, the first 0 sitting at the step
    that chose the end token. *)
Lemma free_running_mask (fuel : nat) :
  0 < max_output_len self ->
  go_symbols feed <> [] ->
  (Z.to_nat (max_output_len self) <= fuel)%nat ->
  exists init final (T : nat) mask_,
    get_initial_loop_state rt self feed att_objects = Ok init /\
    while_loop fuel (loop_exit_criterion self) body init = Some (Ok final) /\
    iterate T body init = Ok final /\
    (0 < T)%nat /\
    stack (mask final) = Ok mask_ /\
    List.length mask_ = T /\ Z.of_nat T <= max_output_len self /\
    forall t b, (t < T)%nat -> (b < List.length (go_symbols feed))%nat ->
      exists row m,
        nth_error mask_ t = Some row /\ nth_error row b = Some m /\
        (m = false <->
         exists t' ls,
           (t' <= t)%nat /\ iterate (S t') body init = Ok ls /\
           nth_error (input_symbol ls) b = Some END_TOKEN_INDEX).
Proof.
  intros Hmax Hbatch Hfuel.
  destruct (free_running_trace fuel ltac:(lia) Hfuel)
    as (init & final & T & Hinit & Hw & Hit & Hstep & Hend & Hbefore).
  pose proof (free_running_first_step init final T Hmax Hbatch Hinit Hit Hend)
    as HT.
  destruct (returned_mask_entries END_TOKEN_INDEX rt self feed att_objects
              false init Hinit (free_running_batch init Hinit) T final HT Hit)
    as (mask_ & Hstack & Hlen & Hentries).
  exists init, final, T, mask_. repeat split; auto.
  destruct T as [|T']; [lia|].
  destruct (Hbefore T') as (sk & Hsk & Hstepk & Hc); [lia|].
  unfold loop_exit_criterion in Hc. apply andb_true_iff in Hc.
  destruct Hc as [_ Hc]. apply Z.ltb_lt in Hc. lia.
Qed.

End FreeRunning.

Section Outputs.
Context {tensor float32 att_loop_state : Type}.
Variable rt : @Runtime tensor float32.

Lemma decode_row_Ok (row : list float32) (tok : Z) :
  (i <- argmax (gtb rt) (skipn 1 row) ;; Ok (i + 1)) = Ok tok ->
  argmax (gtb rt) (skipn 1 row) = Ok (tok - 1) /\
  1 <= tok < Z.of_nat (List.length row).
Proof.
  intros H. apply bind_Ok_inv in H. destruct H as (i & Hi & H).
  injection H as <-. replace (i + 1 - 1) with i by lia.
  split; [assumption|].
  apply argmax_range in Hi. rewrite length_skipn in Hi. lia.
Qed.

(** C5.  On logits whose rows all have the vocabulary size [V >= 2],
    [decoded] returns one row of tokens per step and, in it, one token per
    batch entry; the token is one more than the argmax of its logits row
    without entry 0, so it lies in [1, V): inside the vocabulary and never
    the padding id 0. *)
Theorem decoded_in_vocabulary (V : Z)
  (logits_ : list (list (list float32))) :
  2 <= V ->
  (forall step_logits row,
      In step_logits logits_ -> In row step_logits ->
      Z.of_nat (List.length row) = V) ->
  exists d,
    decoded_of rt logits_ = Ok d /\
    List.length d = List.length logits_ /\
    forall t step_logits,
      nth_error logits_ t = Some step_logits ->
      exists drow,
        nth_error d t = Some drow /\
        List.length drow = List.length step_logits /\
        forall b row,
          nth_error step_logits b = Some row ->
          exists tok,
            nth_error drow b = Some tok /\
            argmax (gtb rt) (skipn 1 row) = Ok (tok - 1) /\
            0 <= tok < V /\ tok <> 0.
Proof.
  intros HV Hshape. unfold decoded_of.
  destruct (mapM_total
              (mapM (fun row => i <- argmax (gtb rt) (skipn 1 row) ;;
                                Ok (i + 1))) logits_) as (d & Hd).
  { intros step_logits Hin. apply mapM_total. intros row Hrow.
    specialize (Hshape _ _ Hin Hrow).
    destruct row as [|x [|y r]]; simpl in Hshape; try lia.
    simpl. eauto. }
  exists d. split; [assumption|].
  destruct (mapM_Ok _ _ _ Hd) as (Hlen & _). split; [assumption|].
  intros t step_logits Hstep.
  destruct (mapM_Ok_at _ _ _ Hd t step_logits Hstep) as (drow & Hdrow & Hrow).
  exists drow. split; [assumption|].
  destruct (mapM_Ok _ _ _ Hrow) as (Hlen' & _). split; [assumption|].
  intros b row Hr.
  destruct (mapM_Ok_at _ _ _ Hrow b row Hr) as (tok & Htok & Hdec).
  exists tok. split; [assumption|].
  apply decode_row_Ok in Hdec. destruct Hdec as (Harg & Hrange).
  split; [assumption|].
  rewrite <- (Hshape step_logits row); [lia | |];
    eapply nth_error_In; eassumption.
Qed.

Lemma crop_transpose_row {A : Type} (B m : nat) (t : list (list A))
  (b : nat) (row : list A) :
  (0 < B)%nat ->
  (forall r, In r t -> List.length r = B) ->
  (m <= List.length t)%nat ->
  nth_error (crop_dim1 m (transpose t)) b = Some row ->
  List.length row = m /\
  forall i time_row,
    (i < m)%nat -> nth_error t i = Some time_row ->
    nth_error row i = nth_error time_row b.
Proof.
  intros HB Hrect Hm H. unfold crop_dim1 in H.
  rewrite nth_error_map in H.
  destruct (nth_error (transpose t) b) as [col|] eqn:Hcol; [|discriminate].
  injection H as <-. unfold transpose in Hcol.
  apply transpose_cols_column in Hcol. destruct Hcol as (Hlen & Hnth).
  split; [rewrite length_firstn; lia|].
  intros i time_row Hi Ht. rewrite nth_error_firstn.
  destruct (Nat.ltb_spec i m) as [_|]; [|lia]. now apply Hnth.
Qed.

(** C6.  With a non-empty batch [B], reference targets of [T_ref] time
    steps and free-running logits of [T_run] time steps, the run-time loss
    is the sequence loss of three batch-major tensors cropped to
    [m = min T_ref T_run] time steps: the cropped logits and targets have
    [B] rows of exactly [m] entries, entry [t] of row [b] being entry [b]
    of time step [t] of the uncropped tensor.  Nothing is padded. *)
Theorem runtime_loss_crops_to_shorter (feed : @Feed tensor float32)
  (logits_ : list (list (list float32))) (B : nat) :
  (0 < B)%nat ->
  fed_train_inputs feed <> [] -> logits_ <> [] ->
  (forall r, In r (fed_train_inputs feed) -> List.length r = B) ->
  (forall r, In r logits_ -> List.length r = B) ->
  let m := Nat.min (List.length (fed_train_inputs feed))
                   (List.length logits_) in
  exists cropped_logits cropped_targets,
    runtime_loss_of rt feed logits_
    = sequence_loss rt cropped_logits cropped_targets
        (crop_dim1 m (transpose (train_padding feed))) /\
    List.length cropped_logits = B /\
    List.length cropped_targets = B /\
    (forall b row, nth_error cropped_targets b = Some row ->
       List.length row = m /\
       forall t time_row,
         (t < m)%nat -> nth_error (fed_train_inputs feed) t = Some time_row ->
         nth_error row t = nth_error time_row b) /\
    (forall b row, nth_error cropped_logits b = Some row ->
       List.length row = m /\
       forall t time_row,
         (t < m)%nat -> nth_error logits_ t = Some time_row ->
         nth_error row t = nth_error time_row b).
Proof.
  intros HB Hne1 Hne2 Hrect1 Hrect2 m.
  destruct (dim1_transpose B (fed_train_inputs feed) HB Hrect1)
    as (Hd1 & Hl1 & Hc1).
  destruct (dim1_transpose B logits_ HB Hrect2) as (Hd2 & Hl2 & Hc2).
  exists (crop_dim1 m (transpose logits_)),
         (crop_dim1 m (transpose (fed_train_inputs feed))).
  split; [unfold runtime_loss_of; rewrite Hd1, Hd2; reflexivity|].
  unfold crop_dim1 at 1 2. rewrite !length_map, Hl1, Hl2.
  split; [auto|]. split; [auto|]. split.
  - intros b row H.
    apply (crop_transpose_row B m _ b row HB Hrect1); [unfold m; lia | exact H].
  - intros b row H.
    apply (crop_transpose_row B m _ b row HB Hrect2); [unfold m; lia | exact H].
Qed.
End Outputs.

Section Construction.
Context {tensor att_loop_state : Type}.
Variable cost : @Decoder tensor att_loop_state -> result tensor.

Abbreviation __init__ := (__init__ cost).

(** C8.  [__init__] returns an error, hence no decoder, when neither an
    embedding size nor an embeddings source is given, and when the cell name
    is neither GRU nor LSTM; in the first case the error is the first check's
    [ValueError]. *)
Theorem construction_fails (a : @Args tensor att_loop_state) :
  (arg_embedding_size a = None /\ arg_embeddings_source a = None) \/
  (arg_rnn_cell a <> "GRU" /\ arg_rnn_cell a <> "LSTM") ->
  (exists e, __init__ a = Err e) /\
  (forall d, __init__ a <> Ok d) /\
  (arg_embedding_size a = None -> arg_embeddings_source a = None ->
   exists msg, __init__ a = Err (ValueError msg)).
Proof.
  intros H.
  assert (Herr : exists e, __init__ a = Err e).
  { unfold __init__. destruct H as [[-> ->] | [H1 H2]]; [simpl; eauto|].
    destruct (is_None (arg_embedding_size a)
              && is_None (arg_embeddings_source a)); [eauto|].
    assert (Hcell : dict_in (arg_rnn_cell a) RNN_CELL_TYPES = false).
    { destruct (dict_in (arg_rnn_cell a) RNN_CELL_TYPES) eqn:E; [|reflexivity].
      apply recognized_cell_names in E. tauto. }
    rewrite Hcell. simpl.
    destruct (arg_encoder_projection a); [destruct (arg_rnn_size a); eauto|].
    destruct (arg_encoders a); destruct (arg_rnn_size a); eauto. }
  split; [assumption|]. split.
  - destruct Herr as (e & ->). discriminate.
  - intros E1 E2. unfold __init__. rewrite E1, E2. simpl. eauto.
Qed.
End Construction.

(** The loop theorems on the small decoder, run free. *)

Lemma next_input_and_finished_witness :
  body Example.END_TOKEN_INDEX Example.rt Example.decoder [] false
    Example.initial = Ok Example.after_one_step /\
  logical_or (finished Example.initial)
    (equal (input_symbol Example.after_one_step) Example.END_TOKEN_INDEX)
  = Ok (finished Example.after_one_step).
Proof.
  split; [reflexivity|].
  apply (next_input_and_finished Example.END_TOKEN_INDEX Example.rt
           Example.decoder [] false Example.initial Example.after_one_step).
  reflexivity.
Defined.

Lemma rnn_outputs_one_longer_witness :
  exists final,
    final_loop_state Example.END_TOKEN_INDEX Example.rt 5 Example.decoder
      Example.feed false = Some (Ok final) /\
    exists logits_ rnn_outputs_ mask_,
      _decoding_loop Example.END_TOKEN_INDEX Example.rt 5 Example.decoder
        Example.feed false = Some (Ok (logits_, rnn_outputs_, mask_)) /\
      List.length rnn_outputs_ = S (List.length logits_).
Proof.
  eexists. split; [vm_compute; reflexivity|].
  destruct (rnn_outputs_one_longer Example.END_TOKEN_INDEX Example.rt 5
              Example.decoder Example.feed false _ eq_refl)
    as (T & init & l & r & m & _ & _ & Hs & _ & _ & _ & _ & _ & _ & Hpos & _).
  simpl in Hs.
  destruct (Hpos ltac:(lia)) as (Hloop & Hlen & _).
  exists l, r, m. split; [exact Hloop | exact Hlen].
Defined.

(** With [max_output_len = 0] the loop ends before its first step, in the
    initial state, and [_decoding_loop] returns no tensors at all: there
    are no stacked logits of 0 entries. *)
Lemma no_step_nothing_stacked :
  final_loop_state Example.END_TOKEN_INDEX Example.rt 5
    Example.silent_decoder Example.feed false = Some (Ok Example.initial) /\
  step Example.initial = 0 /\
  forall out,
    _decoding_loop Example.END_TOKEN_INDEX Example.rt 5
      Example.silent_decoder Example.feed false <> Some (Ok out).
Proof.
  split; [reflexivity|]. split; [reflexivity|].
  intros out. discriminate.
Qed.

Lemma decoded_in_vocabulary_witness :
  2 <= 4 /\
  (forall step_logits row,
      In step_logits [[[0; 0; 0; 5]; [0; 9; 5; 0]]] -> In row step_logits ->
      Z.of_nat (List.length row) = 4) /\
  exists d,
    decoded_of Example.rt [[[0; 0; 0; 5]; [0; 9; 5; 0]]] = Ok d /\
    List.length d = 1%nat.
Proof.
  assert (Hshape : forall (step_logits : list (list Z)) (row : list Z),
             In step_logits [[[0; 0; 0; 5]; [0; 9; 5; 0]]] ->
             In row step_logits -> Z.of_nat (List.length row) = 4).
  { intros step_logits row [<-|[]] [<-|[<-|[]]]; reflexivity. }
  split; [lia|]. split; [exact Hshape|].
  destruct (decoded_in_vocabulary Example.rt 4
              [[[0; 0; 0; 5]; [0; 9; 5; 0]]]) as (d & Hd & Hlen & _);
    [lia | exact Hshape |].
  exists d. split; [exact Hd | exact Hlen].
Defined.

Lemma runtime_loss_crops_to_shorter_witness :
  (0 < 2)%nat /\
  fed_train_inputs Example.feed <> [] /\
  (forall r, In r (fed_train_inputs Example.feed) -> List.length r = 2%nat) /\
  (forall r, In r [[[0; 0; 0; 5]; [0; 0; 0; 5]]; [[0; 0; 5; 0]; [0; 0; 5; 0]]]
             -> List.length r = 2%nat) /\
  exists cropped_logits cropped_targets,
    runtime_loss_of Example.rt Example.feed
      [[[0; 0; 0; 5]; [0; 0; 0; 5]]; [[0; 0; 5; 0]; [0; 0; 5; 0]]]
    = sequence_loss Example.rt cropped_logits cropped_targets
        (crop_dim1 2 (transpose (train_padding Example.feed))) /\
    List.length cropped_targets = 2%nat.
Proof.
  assert (H1 : forall r : list Z,
             In r (fed_train_inputs Example.feed) -> List.length r = 2%nat).
  { intros r [<-|[<-|[<-|[]]]]; reflexivity. }
  assert (H2 : forall r : list (list Z),
             In r [[[0; 0; 0; 5]; [0; 0; 0; 5]]; [[0; 0; 5; 0]; [0; 0; 5; 0]]]
             -> List.length r = 2%nat).
  { intros r [<-|[<-|[]]]; reflexivity. }
  split; [lia|]. split; [discriminate|]. split; [exact H1|].
  split; [exact H2|].
  destruct (runtime_loss_crops_to_shorter Example.rt Example.feed
              [[[0; 0; 0; 5]; [0; 0; 0; 5]]; [[0; 0; 5; 0]; [0; 0; 5; 0]]] 2%nat)
    as (cl & ct & Hloss & _ & Hct & _);
    [lia | discriminate | discriminate | exact H1 | exact H2 |].
  exists cl, ct. split; [exact Hloss | exact Hct].
Defined.

Lemma construction_fails_witness :
  (arg_rnn_cell (Example.args "RNN") <> "GRU" /\
   arg_rnn_cell (Example.args "RNN") <> "LSTM") /\
  exists e, __init__ Example.cost (Example.args "RNN") = Err e.
Proof.
  assert (H : arg_rnn_cell (Example.args "RNN") <> "GRU" /\
              arg_rnn_cell (Example.args "RNN") <> "LSTM")
    by (split; discriminate).
  split; [exact H|].
  apply (construction_fails Example.cost (Example.args "RNN")). right.
  exact H.
Defined.

(** C1 on the small decoder, run free: the end token is the argmax of the
    logits of step 1 for the first sequence and of step 2 for the second,
    and the mask entry of each sequence is already 0 at that step. *)
Theorem mask_is_zero_at_end_token_step :
  exists logits_ rnn_outputs_ mask_,
    _decoding_loop Example.END_TOKEN_INDEX Example.rt 5 Example.decoder
      Example.feed false = Some (Ok (logits_, rnn_outputs_, mask_)) /\
    map (argmax_axis1 Z.gtb) logits_
    = [Ok [3; 3]; Ok [Example.END_TOKEN_INDEX; 3];
       Ok [3; Example.END_TOKEN_INDEX]] /\
    mask_ = [[true; true]; [false; true]; [false; false]].
Proof.
  do 3 eexists. split; [reflexivity|]. split; reflexivity.
Qed.

End DecoderFacts.

(** Runs of the definitions on the small decoder. *)
Module ExampleRuns.
Import Tf Decoder.
Local Open Scope string_scope.
Local Open Scope Z_scope.

Example init_builds_decoder :
  __init__ Example.cost (Example.args "GRU") = Ok Example.decoder.
Proof. reflexivity. Qed.

Example initial_state_of_loop :
  get_initial_loop_state Example.rt Example.decoder Example.feed []
  = Ok Example.initial.
Proof. reflexivity. Qed.

Example first_step :
  body Example.END_TOKEN_INDEX Example.rt Example.decoder [] false
    Example.initial = Ok Example.after_one_step.
Proof. reflexivity. Qed.

Example free_running_run :
  _decoding_loop Example.END_TOKEN_INDEX Example.rt 5 Example.decoder
    Example.feed false
  = Some (Ok ([[[0; 0; 0; 5]; [0; 0; 0; 5]];
               [[0; 0; 5; 0]; [0; 0; 0; 5]];
               [[0; 0; 0; 5]; [0; 0; 5; 0]]],
              [0; 1; 2; 3],
              [[true; true]; [false; true]; [false; false]])).
Proof. reflexivity. Qed.

Example teacher_forced_run :
  _decoding_loop Example.END_TOKEN_INDEX Example.rt 5 Example.decoder
    Example.feed true
  = Some (Ok ([[[0; 0; 0; 5]; [0; 0; 0; 5]];
               [[0; 0; 5; 0]; [0; 0; 0; 5]];
               [[0; 0; 0; 5]; [0; 0; 5; 0]]],
              [0; 1; 2; 3],
              [[true; true]; [false; true]; [false; false]])).
Proof. reflexivity. Qed.

Example decoded_run :
  decoded_of Example.rt
    [[[0; 0; 0; 5]; [0; 0; 0; 5]];
     [[0; 0; 5; 0]; [0; 0; 0; 5]];
     [[9; 0; 0; 0]; [0; 0; 5; 0]]]
  = Ok [[3; 3]; [2; 3]; [1; 2]].
Proof. reflexivity. Qed.

Example example_logits_shape :
  forall x,
    List.length (_logit_function Example.rt x)
    = List.length (go_symbols Example.feed) /\
    forall row, In row (_logit_function Example.rt x) -> row <> [].
Proof.
  intros x. simpl. unfold Example.logits_at.
  destruct (x =? 2); [|destruct (x =? 3)]; simpl;
    (split; [reflexivity|]; intros row [<-|[<-|[]]]; discriminate).
Qed.

(** The small decoder meets the shape assumptions of the free-running
    lemmas. *)
Example free_running_mask_on_example :
  0 < max_output_len Example.decoder /\
  go_symbols Example.feed <> [] /\
  exists init final (T : nat) mask_,
    get_initial_loop_state Example.rt Example.decoder Example.feed []
    = Ok init /\
    while_loop 5 (loop_exit_criterion Example.decoder)
      (body Example.END_TOKEN_INDEX Example.rt Example.decoder [] false) init
    = Some (Ok final) /\
    (0 < T)%nat /\
    stack (mask final) = Ok mask_ /\
    List.length mask_ = T /\ Z.of_nat T <= 5.
Proof.
  split; [reflexivity|]. split; [discriminate|].
  destruct (DecoderFacts.free_running_mask Example.END_TOKEN_INDEX Example.rt
              Example.decoder Example.feed [] eq_refl
              (fun H : false = true => False_ind _ (diff_false_true H))
              (fun a (H : In a []) => match H with end)
              example_logits_shape 5)
    as (init & final & T & mask_ & H1 & H2 & _ & H0 & H3 & H4 & H5 & _);
    [reflexivity | discriminate | simpl; lia |].
  exists init, final, T, mask_. auto 10.
Defined.


End ExampleRuns.

(** ** Attention combination *)

Module EncoderWrapperFacts.
Import Tf TfFacts EncoderWrapper.
Local Open Scope string_scope.
Local Open Scope list_scope.
Local Open Scope R_scope.
Local Open Scope result_scope.

Lemma epsilon_pos : 0 < epsilon.
Proof. unfold epsilon. apply Rinv_0_lt_compat. lra. Qed.

Lemma reduce_sum_nonneg (l : list R) :
  (forall x, In x l -> 0 <= x) -> 0 <= reduce_sum l.
Proof.
  induction l as [|x l IH]; simpl; intros H; [lra|].
  assert (0 <= x) by (apply H; now left).
  assert (0 <= reduce_sum l) by (apply IH; intros; apply H; now right).
  lra.
Qed.

Lemma reduce_sum_ge_entry (l : list R) (i : nat) (v : R) :
  (forall x, In x l -> 0 <= x) ->
  nth_error l i = Some v -> v <= reduce_sum l.
Proof.
  revert i; induction l as [|x l IH]; intros [|i] H Hv; simpl in *;
    try discriminate.
  - injection Hv as <-.
    assert (0 <= reduce_sum l)
      by (apply reduce_sum_nonneg; intros; apply H; now right).
    lra.
  - assert (0 <= x) by (apply H; now left).
    assert (v <= reduce_sum l) by (apply (IH i); auto).
    lra.
Qed.

Lemma reduce_sum_map_div (l : list R) (c : R) :
  reduce_sum (map (fun x => x / c) l) = reduce_sum l / c.
Proof.
  induction l as [|x l IH]; simpl; [unfold Rdiv; ring|].
  rewrite IH. unfold Rdiv. ring.
Qed.

Lemma reduce_sum_exp_pos (l : list R) :
  l <> [] -> 0 < reduce_sum (map exp l).
Proof.
  destruct l as [|x l]; [congruence|]. intros _. simpl.
  assert (0 < exp x) by apply exp_pos.
  assert (0 <= reduce_sum (map exp l)).
  { apply reduce_sum_nonneg. intros y Hy. apply in_map_iff in Hy.
    destruct Hy as (z & <- & _). left. apply exp_pos. }
  lra.
Qed.

(** Every softmax entry is a positive real. *)
Lemma softmax_row_pos (logits : list R) (x : R) :
  In x (softmax_row logits) -> 0 < x.
Proof.
  unfold softmax_row. intros H. apply in_map_iff in H.
  destruct H as (z & <- & Hz).
  apply Rdiv_lt_0_compat; [apply exp_pos|].
  apply reduce_sum_exp_pos. intros ->. contradiction.
Qed.

Lemma softmax_row_length (logits : list R) :
  List.length (softmax_row logits) = List.length logits.
Proof. unfold softmax_row. apply length_map. Qed.

Lemma masked_entries_nonneg (a m : list R) :
  (forall x, In x a -> 0 <= x) -> (forall y, In y m -> 0 <= y) ->
  forall z, In z (zip_with Rmult a m) -> 0 <= z.
Proof.
  intros Ha Hm z Hz. apply In_nth_error in Hz. destruct Hz as (i & Hi).
  apply zip_with_nth_error_inv in Hi. destruct Hi as (x & y & Hx & Hy & ->).
  apply Rmult_le_pos; [apply Ha | apply Hm]; eapply nth_error_In; eassumption.
Qed.

Lemma softmax_row_nonneg (logits : list R) (x : R) :
  In x (softmax_row logits) -> 0 <= x.
Proof. intros H. left. eapply softmax_row_pos; eassumption. Qed.

Lemma binary_mask_bounds (mask : list R) :
  (forall x, In x mask -> x = 0 \/ x = 1) ->
  forall y, In y mask -> 0 <= y <= 1.
Proof. intros H y Hy. destruct (H y Hy); subst; lra. Qed.

(** A softmax entry is at most 1. *)
Lemma softmax_row_le_1 (logits : list R) (x : R) :
  In x (softmax_row logits) -> x <= 1.
Proof.
  unfold softmax_row. intros H. apply in_map_iff in H.
  destruct H as (z & <- & Hz).
  assert (Hpos : 0 < reduce_sum (map exp logits)).
  { apply reduce_sum_exp_pos. intros ->. contradiction. }
  assert (Hle : exp z <= reduce_sum (map exp logits)).
  { apply In_nth_error in Hz. destruct Hz as (i & Hi).
    apply (reduce_sum_ge_entry _ i).
    - intros y Hy. apply in_map_iff in Hy. destruct Hy as (u & <- & _).
      left. apply exp_pos.
    - rewrite nth_error_map, Hi. reflexivity. }
  apply (Rmult_le_reg_r (reduce_sum (map exp logits))); [assumption|].
  unfold Rdiv. rewrite Rmult_assoc, Rinv_l by lra. lra.
Qed.

Lemma reduce_sum_zero (l : list R) :
  (forall x, In x l -> x = 0) -> reduce_sum l = 0.
Proof.
  induction l as [|x l IH]; simpl; intros H; [reflexivity|].
  rewrite (H x) by now left. rewrite IH by (intros; apply H; now right).
  ring.
Qed.

Lemma renorm_row_sum (logits mask : list R) :
  reduce_sum (renorm_softmax_row logits mask)
  = reduce_sum (zip_with Rmult (softmax_row logits) mask)
    / (reduce_sum (zip_with Rmult (softmax_row logits) mask) + epsilon).
Proof. unfold renorm_softmax_row. apply reduce_sum_map_div. Qed.

Lemma renorm_softmax_row_of {child_state : Type}
  (self : @FlatMultiAttention.t child_state) (logits : Matrix) (b : nat)
  (lrow mrow : list R) :
  nth_error logits b = Some lrow ->
  nth_error (FlatMultiAttention.masks_concat self) b = Some mrow ->
  nth_error (FlatMultiAttention._renorm_softmax self logits) b
  = Some (renorm_softmax_row lrow mrow).
Proof.
  intros Hl Hm. unfold FlatMultiAttention._renorm_softmax.
  now apply zip_with_nth_error.
Qed.

(** C4, as the code has it.  Row [b] of [_renorm_softmax] is the softmax of
    the logits row times the mask row, divided by [s + epsilon] where [s] is
    the sum of that product.  The divisor is at least [epsilon], so never 0;
    a masked position gets weight exactly 0, a valid one its softmax weight
    over the divisor; every weight lies between 0 and 1; and when every
    position is masked all weights, and their sum, are 0.  Nothing is said
    of the sum over the valid positions otherwise. *)
Theorem renorm_softmax_weights {child_state : Type}
  (self : @FlatMultiAttention.t child_state) (logits : Matrix) (b : nat)
  (lrow mrow : list R) :
  nth_error logits b = Some lrow ->
  nth_error (FlatMultiAttention.masks_concat self) b = Some mrow ->
  List.length lrow = List.length mrow ->
  (forall x, In x mrow -> x = 0 \/ x = 1) ->
  let masked := zip_with Rmult (softmax_row lrow) mrow in
  let s := reduce_sum masked in
  exists w,
    nth_error (FlatMultiAttention._renorm_softmax self logits) b = Some w /\
    w = map (fun x => x / (s + epsilon)) masked /\
    List.length w = List.length lrow /\
    0 <= s /\
    epsilon <= s + epsilon /\
    (forall i, nth_error mrow i = Some 0 -> nth_error w i = Some 0) /\
    (forall i p,
        nth_error mrow i = Some 1 ->
        nth_error (softmax_row lrow) i = Some p ->
        nth_error w i = Some (p / (s + epsilon))) /\
    (forall x, In x w -> 0 <= x <= 1) /\
    ((forall x, In x mrow -> x = 0) ->
     (forall x, In x w -> x = 0) /\ reduce_sum w = 0).
Proof.
  intros Hl Hm Hlen H01 masked s.
  pose proof epsilon_pos as He.
  assert (Hnn : forall z, In z masked -> 0 <= z).
  { apply masked_entries_nonneg; [apply softmax_row_nonneg|].
    intros y Hy. apply (binary_mask_bounds mrow H01 y Hy). }
  assert (Hs : 0 <= s) by (apply reduce_sum_nonneg; exact Hnn).
  assert (Hlm : List.length masked = List.length lrow).
  { unfold masked. rewrite zip_with_length; rewrite softmax_row_length; auto. }
  assert (Hzero : (forall x, In x mrow -> x = 0) ->
                  forall x, In x (renorm_softmax_row lrow mrow) -> x = 0).
  { intros Hz x Hx. unfold renorm_softmax_row in Hx. fold masked s in Hx.
    apply in_map_iff in Hx. destruct Hx as (z & <- & Hin).
    apply In_nth_error in Hin. destruct Hin as (i & Hi). unfold masked in Hi.
    apply zip_with_nth_error_inv in Hi. destruct Hi as (p & q & _ & Hq' & ->).
    rewrite (Hz q) by (eapply nth_error_In; eassumption).
    unfold Rdiv. ring. }
  exists (renorm_softmax_row lrow mrow).
  split; [now apply renorm_softmax_row_of|].
  split; [reflexivity|].
  split; [unfold renorm_softmax_row; fold masked; now rewrite length_map|].
  split; [exact Hs|]. split; [lra|]. split.
  { intros i Hi. unfold renorm_softmax_row. fold masked s.
    rewrite nth_error_map.
    destruct (nth_error (softmax_row lrow) i) as [x|] eqn:Hx.
    - unfold masked. rewrite (zip_with_nth_error Rmult _ _ i x 0 Hx Hi).
      simpl. f_equal. unfold Rdiv. ring.
    - apply nth_error_None in Hx. rewrite softmax_row_length, Hlen in Hx.
      assert (nth_error mrow i <> None) by congruence.
      apply nth_error_Some in H. lia. }
  split.
  { intros i p Hi Hp. unfold renorm_softmax_row. fold masked s.
    rewrite nth_error_map. unfold masked.
    rewrite (zip_with_nth_error Rmult _ _ i p 1 Hp Hi).
    simpl. now rewrite Rmult_1_r. }
  split.
  { intros x Hx. unfold renorm_softmax_row in Hx. fold masked s in Hx.
    apply in_map_iff in Hx. destruct Hx as (z & <- & Hin).
    pose proof (Hnn z Hin) as Hz0.
    apply In_nth_error in Hin. destruct Hin as (i & Hi).
    pose proof (reduce_sum_ge_entry masked i z Hnn Hi) as Hzs. fold s in Hzs.
    split.
    - unfold Rdiv. apply Rmult_le_pos; [assumption|].
      left. apply Rinv_0_lt_compat. lra.
    - apply (Rmult_le_reg_r (s + epsilon)); [lra|].
      unfold Rdiv. rewrite Rmult_assoc, Rinv_l by lra. lra. }
  intros Hz. split; [exact (Hzero Hz)|].
  apply reduce_sum_zero. exact (Hzero Hz).
Qed.

(** In a row with one valid position whose logit is far below the masked
    one, the weights sum to less than a half, which is further than
    [epsilon] from 1. *)
Lemma renorm_softmax_mass_far_from_one :
  exists self,
    FlatMultiAttention.__init__ Example.vars (Example.multi_attention false)
    = Ok self /\
    FlatMultiAttention.masks_concat self = [[1; 0]] /\
    exists w,
      FlatMultiAttention._renorm_softmax self [[0; 100000000]] = [w] /\
      reduce_sum w < 1 / 2 /\
      epsilon < Rabs (reduce_sum w - 1).
Proof.
  eexists. split; [reflexivity|]. split; [reflexivity|].
  exists (renorm_softmax_row [0; 100000000] [1; 0]).
  split; [reflexivity|].
  pose proof epsilon_pos as He.
  assert (Heps : epsilon = / 100000000) by reflexivity.
  rewrite renorm_row_sum.
  set (s := reduce_sum (zip_with Rmult (softmax_row [0; 100000000]) [1; 0])).
  assert (Hs : s = / (1 + exp 100000000)).
  { unfold s, softmax_row. simpl. rewrite exp_0. field.
    pose proof (exp_pos 100000000). lra. }
  assert (Hexp : 1 + 100000000 <= exp 100000000) by apply exp_ineq1_le.
  assert (Hs0 : 0 < s).
  { rewrite Hs. apply Rinv_0_lt_compat. lra. }
  assert (Hs1 : s < epsilon).
  { rewrite Hs, Heps. apply Rinv_lt_contravar; [|lra].
    apply Rmult_lt_0_compat; lra. }
  assert (Hhalf : s / (s + epsilon) < 1 / 2).
  { apply (Rmult_lt_reg_r (s + epsilon)); [lra|].
    unfold Rdiv. rewrite Rmult_assoc, Rinv_l by lra. lra. }
  split; [exact Hhalf|].
  rewrite Rabs_left by lra.
  assert (epsilon < 1 / 2) by (rewrite Heps; lra).
  lra.
Qed.

Section Hierarchical.
Context {child_state : Type}.
Variable vars : VariableStore.

Lemma split_maps {A B : Type} :
  forall (l : list (A * B)) (xs : list A) (ys : list B),
    List.split l = (xs, ys) -> xs = map fst l /\ ys = map snd l.
Proof.
  induction l as [|[x y] l IH]; simpl; intros xs ys H.
  - injection H as <- <-. auto.
  - destruct (List.split l) as [l1 l2].
    injection H as <- <-. destruct (IH l1 l2 eq_refl) as [-> ->]. auto.
Qed.

Lemma unzip2_Ok {A B : Type} (l : list (A * B)) (xs : list A) (ys : list B) :
  HierarchicalMultiAttention.unzip2 l = Ok (xs, ys) ->
  xs = map fst l /\ ys = map snd l.
Proof.
  unfold HierarchicalMultiAttention.unzip2.
  destruct l as [|p l]; [discriminate|].
  intros H. injection H as H. now apply split_maps.
Qed.

(** What a successful hierarchical attention step returns for the children:
    the loop states its child attentions produced. *)
Lemma attention_children (self : @HierarchicalMultiAttention.t child_state)
  (decoder_state decoder_prev_state decoder_input : Matrix)
  (hls : HierarchicalMultiAttention.HierarchicalLoopState) (step : Z)
  (context : Matrix)
  (next : @HierarchicalMultiAttention.HierarchicalLoopState child_state) :
  HierarchicalMultiAttention.attention vars self decoder_state
    decoder_prev_state decoder_input hls step = Ok (context, next) ->
  exists children,
    HierarchicalMultiAttention.child_attentions self decoder_state
      decoder_prev_state decoder_input hls step = Ok children /\
    HierarchicalMultiAttention.child_loop_states next = map snd children.
Proof.
  unfold HierarchicalMultiAttention.attention. intros H.
  apply bind_Ok_inv in H. destruct H as (children & Hch & H).
  exists children. split; [assumption|].
  apply bind_Ok_inv in H. destruct H as ([ctxs cls] & Hun & H).
  apply unzip2_Ok in Hun. destruct Hun as [_ ->].
  apply bind_Ok_inv in H. destruct H as ([pc al] & _ & H).
  destruct (if _use_sentinels (HierarchicalMultiAttention.base self)
            then _ else _) as [pc' al'].
  apply bind_Ok_inv in H. destruct H as (lc & _ & H).
  apply bind_Ok_inv in H. destruct H as (prj & _ & H).
  apply bind_Ok_inv in H. destruct H as (nc & _ & H).
  apply bind_Ok_inv in H. destruct H as (nw & _ & H).
  injection H as _ <-. reflexivity.
Qed.

(** C7.  Two hierarchical attentions over the same encoders that differ
    only in the sentinel flag run the same child attentions on the same
    arguments: when both steps succeed, the children's context vectors and
    loop states are the same lists, and they are the child loop states both
    steps return. *)
Theorem child_contexts_ignore_sentinel
  (encoders : list (@Attentive child_state)) (size : nat) (share : bool)
  (decoder_state decoder_prev_state decoder_input : Matrix)
  (hls : HierarchicalMultiAttention.HierarchicalLoopState) (step : Z)
  (context_on context_off : Matrix)
  (next_on next_off
     : @HierarchicalMultiAttention.HierarchicalLoopState child_state) :
  let with_sentinel :=
    HierarchicalMultiAttention.__init__
      {| _encoders := encoders; attention_state_size := size;
         _share_projections := share; _use_sentinels := true |} in
  let without_sentinel :=
    HierarchicalMultiAttention.__init__
      {| _encoders := encoders; attention_state_size := size;
         _share_projections := share; _use_sentinels := false |} in
  HierarchicalMultiAttention.attention vars with_sentinel decoder_state
    decoder_prev_state decoder_input hls step = Ok (context_on, next_on) ->
  HierarchicalMultiAttention.attention vars without_sentinel decoder_state
    decoder_prev_state decoder_input hls step = Ok (context_off, next_off) ->
  exists children,
    HierarchicalMultiAttention.child_attentions with_sentinel decoder_state
      decoder_prev_state decoder_input hls step = Ok children /\
    HierarchicalMultiAttention.child_attentions without_sentinel
      decoder_state decoder_prev_state decoder_input hls step = Ok children /\
    HierarchicalMultiAttention.child_loop_states next_on = map snd children /\
    HierarchicalMultiAttention.child_loop_states next_off = map snd children.
Proof.
  intros with_sentinel without_sentinel Hon Hoff.
  destruct (attention_children _ _ _ _ _ _ _ _ Hon) as (c1 & Hc1 & Hs1).
  destruct (attention_children _ _ _ _ _ _ _ _ Hoff) as (c2 & Hc2 & Hs2).
  assert (Hsame :
    HierarchicalMultiAttention.child_attentions with_sentinel decoder_state
      decoder_prev_state decoder_input hls step
    = HierarchicalMultiAttention.child_attentions without_sentinel
        decoder_state decoder_prev_state decoder_input hls step)
    by reflexivity.
  rewrite Hsame in Hc1. rewrite Hc1 in Hc2. injection Hc2 as <-.
  exists c1. rewrite Hsame. auto.
Qed.
End Hierarchical.

(** The attention theorems on the example encoder. *)

Lemma renorm_softmax_weights_witness :
  exists self : @FlatMultiAttention.t unit,
    FlatMultiAttention.__init__ Example.vars (Example.multi_attention false)
    = Ok self /\
    nth_error [[0; 0]] 0 = Some [0; 0] /\
    nth_error (FlatMultiAttention.masks_concat self) 0 = Some [1; 0] /\
    (forall x, In x [1; 0] -> x = 0 \/ x = 1) /\
    exists w,
      nth_error (FlatMultiAttention._renorm_softmax self [[0; 0]]) 0
      = Some w /\
      nth_error w 1 = Some 0 /\
      forall x, In x w -> 0 <= x <= 1.
Proof.
  assert (H01 : forall x : R, In x [1; 0] -> x = 0 \/ x = 1).
  { intros x [<-|[<-|[]]]; [right | left]; reflexivity. }
  eexists. split; [reflexivity|]. split; [reflexivity|].
  split; [reflexivity|]. split; [exact H01|].
  match goal with
  | |- exists w, nth_error (FlatMultiAttention._renorm_softmax ?s _) _ = _ /\ _ =>
      destruct (renorm_softmax_weights s [[0; 0]] 0%nat [0; 0] [1; 0]
                  eq_refl eq_refl eq_refl H01)
        as (w & Hw & _ & _ & _ & _ & Hmasked & _ & Hbounds & _)
  end.
  exists w. split; [exact Hw|].
  split; [exact (Hmasked 1%nat eq_refl) | exact Hbounds].
Defined.

Lemma child_contexts_ignore_sentinel_witness :
  exists on off : Matrix * HierarchicalMultiAttention.HierarchicalLoopState,
    HierarchicalMultiAttention.attention Example.vars
      (HierarchicalMultiAttention.__init__ (Example.multi_attention true))
      [[0]] [[0]] [[0]]
      (HierarchicalMultiAttention.initial_loop_state
         (HierarchicalMultiAttention.__init__
            (Example.multi_attention true))) 0%Z = Ok on /\
    HierarchicalMultiAttention.attention Example.vars
      (HierarchicalMultiAttention.__init__ (Example.multi_attention false))
      [[0]] [[0]] [[0]]
      (HierarchicalMultiAttention.initial_loop_state
         (HierarchicalMultiAttention.__init__
            (Example.multi_attention true))) 0%Z = Ok off /\
    HierarchicalMultiAttention.child_loop_states (snd on)
    = HierarchicalMultiAttention.child_loop_states (snd off).
Proof.
  eexists (_, _), (_, _). split; [reflexivity|]. split; [reflexivity|].
  destruct (child_contexts_ignore_sentinel Example.vars [Example.encoder]
              1%nat true [[0]] [[0]] [[0]]
              (HierarchicalMultiAttention.initial_loop_state
                 (HierarchicalMultiAttention.__init__
                    (Example.multi_attention true))) 0%Z _ _ _ _
              eq_refl eq_refl) as (children & _ & _ & Hon & Hoff).
  exact (eq_trans Hon (eq_sym Hoff)).
Defined.

End EncoderWrapperFacts.

(** ** Further properties of the decoder *)

Module DecoderExtras.
Import Tf TfFacts Decoder DecoderFacts.
Local Open Scope string_scope.
Local Open Scope list_scope.
Local Open Scope Z_scope.
Local Open Scope result_scope.

Section Construction.
Context {tensor att_loop_state : Type}.

Abbreviation Args := (@Args tensor att_loop_state).
Abbreviation Decoder := (@Decoder tensor att_loop_state).
Abbreviation Encoder := (@Encoder tensor att_loop_state).

Variable cost : Decoder -> result tensor.

Abbreviation __init__ := (Decoder.__init__ cost).

Lemma is_None_false {A : Type} (o : option A) :
  is_None o = false <-> o <> None.
Proof. destruct o; simpl; split; congruence. Qed.


(** X2.  When the embedding check passes but no hidden size is given, and
    either an encoder projection is given or there is no encoder, [__init__]
    stops at its assertion on the hidden size. *)
Theorem init_hidden_size_assertion (a : Args) :
  (arg_embedding_size a <> None \/ arg_embeddings_source a <> None) ->
  arg_rnn_size a = None ->
  (arg_encoder_projection a <> None \/ arg_encoders a = []) ->
  __init__ a = Err AssertionError.
Proof.
  intros Hemb Hsize Hproj. unfold Decoder.__init__. rewrite Hsize.
  assert (Hn : is_None (arg_embedding_size a)
               && is_None (arg_embeddings_source a) = false).
  { apply andb_false_iff. destruct Hemb as [H|H];
      [left | right]; now apply is_None_false. }
  rewrite Hn.
  destruct (arg_encoder_projection a) as [p|]; [reflexivity|].
  destruct Hproj as [H|H]; [congruence|]. rewrite H. reflexivity.
Qed.

(** X3.  A decoder that [__init__] returns takes its embedding size from
    the embeddings source whenever one is given (overriding the argument);
    without an encoder projection its projection is the empty state for no
    encoder, the concatenation when no hidden size is given (the hidden
    size then being the sum of the encoders' encoded sizes) and the linear
    projection otherwise; its cell name is a recognized one. *)
Theorem init_defaults (a : Args) (d : Decoder) :
  __init__ a = Ok d ->
  (forall src, arg_embeddings_source a = Some src ->
     embedding_size d = embedding_matrix_columns src) /\
  (arg_embeddings_source a = None ->
     embedding_size d = arg_embedding_size a) /\
  (forall p, arg_encoder_projection a = Some p -> encoder_projection d = p) /\
  (arg_encoder_projection a = None ->
     encoder_projection d
     = match arg_encoders a, arg_rnn_size a with
       | [], _ => empty_initial_state
       | _ :: _, None => concat_encoder_projection
       | _ :: _, Some _ => linear_encoder_projection
       end) /\
  (arg_encoder_projection a = None -> arg_rnn_size a = None ->
     rnn_size d = sum_Z (map encoded_size (arg_encoders a))) /\
  (forall n, arg_rnn_size a = Some n -> rnn_size d = n) /\
  dict_in (_rnn_cell_str d) RNN_CELL_TYPES = true /\
  max_output_len d = arg_max_output_len a.
Proof.
  unfold Decoder.__init__. intros H.
  destruct (is_None (arg_embedding_size a)
            && is_None (arg_embeddings_source a)); [discriminate|].
  destruct (arg_embeddings_source a) as [src|];
    destruct (arg_encoder_projection a) as [p|];
    destruct (arg_rnn_size a) as [n|];
    destruct (arg_encoders a) as [|e es'];
    simpl in H; try discriminate H;
    (destruct (dict_in (arg_rnn_cell a) RNN_CELL_TYPES) eqn:Hcell;
     simpl in H; [|discriminate H]);
    apply bind_Ok_inv in H; destruct H as (c & _ & H);
    injection H as <-; simpl;
    repeat split; try congruence; intros; try congruence.
Qed.

Lemma attention_objects_keys (es : list Encoder) (k : string) :
  dict_in k (attention_objects_of es) = true -> In k (map encoder_name es).
Proof.
  induction es as [|e es IH]; [discriminate|].
  cbn [attention_objects_of map].
  destruct (create_attention_object e) as [a0|].
  - destruct (dict_in (encoder_name e) (attention_objects_of es)).
    + intros H. right. now apply IH.
    + unfold dict_in at 1. cbn [dict_get].
      destruct (String.eqb_spec k (encoder_name e)) as [->|Hne].
      * intros _. now left.
      * intros H. right. now apply IH.
  - intros H. right. now apply IH.
Qed.

(** With distinct encoder names, looking an encoder up in the dictionary of
    attention objects gives back what the encoder created. *)
Lemma attention_objects_lookup (es : list Encoder) :
  NoDup (map encoder_name es) ->
  forall e, In e es ->
    dict_get (attention_objects_of es) (encoder_name e)
    = create_attention_object e.
Proof.
  induction es as [|e0 es IH]; intros Hnd e Hin; [contradiction|].
  simpl in Hnd. inversion Hnd as [|x l Hnotin Hnd']; subst.
  assert (Hfresh : dict_in (encoder_name e0) (attention_objects_of es) = false).
  { destruct (dict_in (encoder_name e0) (attention_objects_of es)) eqn:E;
      [|reflexivity].
    apply attention_objects_keys in E. contradiction. }
  simpl. destruct Hin as [<-|Hin].
  - destruct (create_attention_object e0) as [a0|].
    + rewrite Hfresh. simpl. now rewrite String.eqb_refl.
    + unfold dict_in in Hfresh.
      destruct (dict_get (attention_objects_of es) (encoder_name e0));
        [discriminate | reflexivity].
  - assert (Hne : encoder_name e <> encoder_name e0).
    { intros Heq. apply Hnotin. rewrite <- Heq.
      now apply in_map. }
    destruct (create_attention_object e0) as [a0|].
    + rewrite Hfresh. simpl.
      destruct (String.eqb_spec (encoder_name e) (encoder_name e0));
        [contradiction|]. now apply IH.
    + now apply IH.
Qed.

(** X4.  In a decoder that [__init__] returns over encoders with distinct
    names, both unrolls attend with the attention objects the attentive
    encoders created, one per attentive encoder and in encoder order, when
    [use_attention] is set, and with none otherwise. *)
Theorem decoding_attention_objects (a : Args) (d : Decoder)
  (train_mode : bool) :
  __init__ a = Ok d ->
  NoDup (map encoder_name (arg_encoders a)) ->
  decoding_att_objects d train_mode
  = if arg_use_attention a
    then filter_not_None (map create_attention_object (arg_encoders a))
    else [].
Proof.
  unfold Decoder.__init__. intros H Hnd.
  destruct (is_None (arg_embedding_size a)
            && is_None (arg_embeddings_source a)); [discriminate|].
  destruct (match arg_encoder_projection a with
            | Some p => (p, arg_rnn_size a)
            | None => _
            end) as [proj [n|]]; [|discriminate].
  destruct (negb (dict_in (arg_rnn_cell a) RNN_CELL_TYPES)); [discriminate|].
  apply bind_Ok_inv in H. destruct H as (c & _ & H).
  injection H as <-.
  unfold decoding_att_objects, get_attention_object. simpl.
  assert (Hsame : map
            (fun e : Encoder =>
               if train_mode
               then dict_get
                      (if arg_use_attention a
                       then attention_objects_of (arg_encoders a) else [])
                      (encoder_name e)
               else dict_get
                      (if arg_use_attention a
                       then attention_objects_of (arg_encoders a) else [])
                      (encoder_name e))
            (arg_encoders a)
          = map (fun e : Encoder =>
                   if arg_use_attention a then create_attention_object e
                   else None) (arg_encoders a)).
  { apply map_ext_in. intros e He.
    destruct (arg_use_attention a).
    - rewrite (attention_objects_lookup _ Hnd e He). now destruct train_mode.
    - now destruct train_mode. }
  rewrite Hsame. clear Hsame Hnd.
  destruct (arg_use_attention a); [reflexivity|].
  induction (arg_encoders a) as [|e es IH]; [reflexivity | exact IH].
Qed.
End Construction.

Section UnknownCell.
Context {tensor float32 att_loop_state : Type}.
Variable END_TOKEN_INDEX : Z.
Variable rt : @Runtime tensor float32.

(** X5.  On a decoder whose cell name is not in [RNN_CELL_TYPES], the loop
    body fails with the [KeyError] of the cell lookup, whatever the mode
    and the loop state: the body's own "Unknown RNN cell." error is never
    reached. *)
Theorem body_unknown_cell (self : @Decoder tensor att_loop_state)
  (att_objects : list (@BaseAttention tensor att_loop_state))
  (train_mode : bool) (ls : @LoopState tensor float32 att_loop_state) :
  dict_in (_rnn_cell_str self) RNN_CELL_TYPES = false ->
  body END_TOKEN_INDEX rt self att_objects train_mode ls
  = Err (KeyError (_rnn_cell_str self)).
Proof.
  intros H. unfold body, rnn_step, _get_rnn_cell.
  unfold dict_in in H.
  destruct (dict_get RNN_CELL_TYPES (_rnn_cell_str self));
    [discriminate | reflexivity].
Qed.
End UnknownCell.

Lemma iterate_prefix {St : Type} (body : St -> result St) (s : St) :
  forall (T : nat) (final : St),
    iterate T body s = Ok final ->
    forall k, (k <= T)%nat -> exists mid, iterate k body s = Ok mid.
Proof.
  induction T as [|T IH]; intros final Hit k Hk.
  - replace k with O by lia. eauto.
  - destruct (Nat.eq_dec k (S T)) as [->|Hne]; [eauto|].
    rewrite iterate_snoc in Hit. apply bind_Ok_inv in Hit.
    destruct Hit as (mid & Hmid & _). apply (IH mid Hmid). lia.
Qed.

(** A loop that fails: the condition holds on every state of the invariant,
    and the body either fails with [e] or lowers the measure. *)
Lemma while_loop_fails {S : Type} (cond : S -> bool) (body : S -> result S)
  (measure : S -> nat) (Inv : S -> Prop) (e : error) :
  (forall s, Inv s ->
     cond s = true /\
     (body s = Err e \/
      exists s', body s = Ok s' /\ Inv s' /\ (measure s' < measure s)%nat)) ->
  forall fuel s, Inv s -> (measure s < fuel)%nat ->
    while_loop fuel cond body s = Some (Err e).
Proof.
  intros Hstep. induction fuel as [|fuel IH]; intros s HI Hm; [lia|].
  destruct (Hstep s HI) as (Hc & [Hb | (s' & Hb & HI' & Hlt)]); simpl;
    rewrite Hc, Hb; [reflexivity|].
  apply IH; [assumption | lia].
Qed.

Lemma reduce_all_false_entry (a : list bool) (b : nat) :
  nth_error a b = Some false -> reduce_all a = false.
Proof.
  intros H. destruct (reduce_all a) eqn:E; [|reflexivity].
  rewrite reduce_all_true in E.
  assert (b < List.length a)%nat by (apply nth_error_Some; congruence).
  rewrite (E b) in H by assumption. discriminate.
Qed.

Section Reference.
Context {tensor float32 att_loop_state : Type}.
Variable END_TOKEN_INDEX : Z.
Variable rt : @Runtime tensor float32.
Variable self : @Decoder tensor att_loop_state.
Variable feed : @Feed tensor float32.
Variable att_objects : list (@BaseAttention tensor att_loop_state).

Abbreviation LoopState := (@LoopState tensor float32 att_loop_state).

(** The loop state carries the fed reference unchanged. *)
Lemma train_inputs_kept (train_mode : bool) (init : LoopState) :
  get_initial_loop_state rt self feed att_objects = Ok init ->
  forall (T : nat) (ls : LoopState),
    iterate T (body END_TOKEN_INDEX rt self att_objects train_mode) init
    = Ok ls ->
    train_inputs ls = fed_train_inputs feed.
Proof.
  intros Hinit. induction T as [|T IH]; intros ls Hit.
  - simpl in Hit. injection Hit as <-.
    unfold get_initial_loop_state in Hinit. simpl in Hinit.
    injection Hinit as <-. reflexivity.
  - rewrite iterate_snoc in Hit. apply bind_Ok_inv in Hit.
    destruct Hit as (mid & Hmid & Hb).
    destruct (body_Ok _ _ _ _ _ _ _ Hb) as (_ & Htr & _).
    rewrite Htr. now apply IH.
Qed.

(** X6.  A teacher-forced loop that returns after [T] steps has read the
    first [T] rows of the fed reference and nothing else: [T] is at most
    the reference length, the input token after step [t] is row [t] of the
    reference, and the reference is still in the final loop state. *)
Theorem teacher_forced_follows_reference (fuel : nat) (init final : LoopState) :
  get_initial_loop_state rt self feed att_objects = Ok init ->
  while_loop fuel (loop_exit_criterion self)
    (body END_TOKEN_INDEX rt self att_objects true) init = Some (Ok final) ->
  exists T : nat,
    iterate T (body END_TOKEN_INDEX rt self att_objects true) init = Ok final /\
    step final = Z.of_nat T /\
    (T <= List.length (fed_train_inputs feed))%nat /\
    train_inputs final = fed_train_inputs feed /\
    forall t, (t < T)%nat ->
      exists ls,
        iterate (S t) (body END_TOKEN_INDEX rt self att_objects true) init
        = Ok ls /\
        nth_error (fed_train_inputs feed) t = Some (input_symbol ls).
Proof.
  intros Hinit Hw. apply while_loop_Ok in Hw.
  destruct Hw as (T & _ & Hit & _ & _).
  assert (Hrows : forall t, (t < T)%nat ->
            exists ls,
              iterate (S t) (body END_TOKEN_INDEX rt self att_objects true) init
              = Ok ls /\
              nth_error (fed_train_inputs feed) t = Some (input_symbol ls)).
  { intros t Ht.
    destruct (iterate_prefix _ _ T final Hit (S t)) as (ls & Hls); [lia|].
    exists ls. split; [assumption|].
    rewrite iterate_snoc in Hls. apply bind_Ok_inv in Hls.
    destruct Hls as (mid & Hmid & Hb).
    destruct (body_Ok _ _ _ _ _ _ _ Hb) as (_ & _ & Hsym & _).
    destruct (iterate_from_initial _ _ _ _ _ _ _ _ _ Hinit Hmid) as (Hs & _).
    rewrite (train_inputs_kept true init Hinit t mid Hmid), Hs in Hsym.
    unfold index_outer in Hsym.
    destruct (Z.ltb_spec (Z.of_nat t) 0) as [|_]; [lia|].
    rewrite Nat2Z.id in Hsym.
    destruct (nth_error (fed_train_inputs feed) t); [|discriminate].
    now injection Hsym as ->. }
  exists T. split; [assumption|].
  destruct (iterate_from_initial _ _ _ _ _ _ _ _ _ Hinit Hit) as (Hs & _).
  split; [assumption|]. split.
  - destruct T as [|T']; [lia|].
    destruct (Hrows T') as (ls & _ & Hrow); [lia|].
    assert (T' < List.length (fed_train_inputs feed))%nat; [|lia].
    apply nth_error_Some. congruence.
  - split; [exact (train_inputs_kept true init Hinit T final Hit) | exact Hrows].
Qed.
End Reference.

(** *** Teacher forcing on a well-shaped reference *)

Section TeacherForced.
Context {tensor float32 att_loop_state : Type}.
Variable END_TOKEN_INDEX : Z.
Variable rt : @Runtime tensor float32.
Variable self : @Decoder tensor att_loop_state.
Variable feed : @Feed tensor float32.

Abbreviation att_objects := (decoding_att_objects self true).
Abbreviation TFLoopState := (@Decoder.LoopState tensor float32 att_loop_state).
Abbreviation tf_body := (body END_TOKEN_INDEX rt self att_objects true).

(** The cell name is a recognized one, a conditional GRU has attention
    contexts to read, the attention objects do not fail, and every
    reference row has one token per batch entry. *)
Hypothesis cell_recognized :
  dict_in (_rnn_cell_str self) RNN_CELL_TYPES = true.
Hypothesis conditional_gru_attends :
  _conditional_gru self = true -> att_objects <> [].
Hypothesis attention_total :
  forall a, In a att_objects ->
    forall x y z ls n, exists r, attention a x y z ls n = Ok r.
Hypothesis reference_rows :
  forall row, In row (fed_train_inputs feed) ->
    List.length row = List.length (go_symbols feed).

(** A teacher-forced step inside the reference. *)
Lemma teacher_forced_step (ls : TFLoopState) (k : nat)
  (ro : list tensor) (lo : list (list (list float32)))
  (mo : list (list bool)) (row : list Z) :
  step ls = Z.of_nat k ->
  rnn_outputs ls = map Some ro -> List.length ro = S k ->
  logits ls = map Some lo -> List.length lo = k ->
  mask ls = map Some mo -> List.length mo = k ->
  List.length (finished ls) = List.length (go_symbols feed) ->
  List.length (attention_loop_states ls) = List.length att_objects ->
  train_inputs ls = fed_train_inputs feed ->
  nth_error (fed_train_inputs feed) k = Some row ->
  exists ls',
    tf_body ls = Ok ls' /\
    input_symbol ls' = row /\
    finished ls' = zip_with orb (finished ls) (equal row END_TOKEN_INDEX) /\
    List.length (finished ls') = List.length (go_symbols feed) /\
    List.length (attention_loop_states ls') = List.length att_objects /\
    train_inputs ls' = fed_train_inputs feed.
Proof.
  intros Hs Hro Hlro Hlo Hllo Hmo Hlmo Hfin Hals Htr Hrow.
  assert (Hlrow : List.length row = List.length (go_symbols feed))
    by (apply reference_rows; eapply nth_error_In; eassumption).
  unfold Decoder.body.
  destruct (rnn_step_total rt self att_objects cell_recognized
              conditional_gru_attends attention_total
              (input_projection rt self ls) ls Hals)
    as (co & ns & attns & ctxs & als & -> & Hlen & Hlen').
  simpl.
  set (pr := match attns with
             | [] => (co, [])
             | _ :: _ => (linear rt (co :: ctxs) (Some (rnn_size self))
                            "AttnOutputProjection", als)
             end).
  assert (Hpr : List.length (snd pr) = List.length att_objects).
  { unfold pr. destruct attns; simpl; [exact Hlen | apply Hlen'; discriminate]. }
  destruct pr as [output als'] eqn:Epr. simpl in Hpr.
  unfold index_outer. rewrite Hs, Htr.
  destruct (Z.ltb_spec (Z.of_nat k) 0) as [|_]; [lia|].
  rewrite Nat2Z.id, Hrow. simpl.
  unfold logical_or. rewrite broadcast2_same_length
    by (unfold equal; rewrite length_map; congruence).
  simpl. rewrite Hro, Hlo, Hmo.
  rewrite !write_end by lia. simpl.
  eexists. split; [reflexivity|]. simpl.
  split; [reflexivity|]. split; [reflexivity|].
  split; [|split; [assumption | reflexivity]].
  rewrite zip_with_length; [assumption|].
  unfold equal. rewrite length_map. congruence.
Qed.

(** A teacher-forced step past the end of the reference. *)
Lemma teacher_forced_step_outside (ls : TFLoopState) (k : nat) :
  step ls = Z.of_nat k ->
  List.length (attention_loop_states ls) = List.length att_objects ->
  train_inputs ls = fed_train_inputs feed ->
  nth_error (fed_train_inputs feed) k = None ->
  tf_body ls = Err (InvalidArgumentError "slice index out of bounds").
Proof.
  intros Hs Hals Htr Hrow. unfold Decoder.body.
  destruct (rnn_step_total rt self att_objects cell_recognized
              conditional_gru_attends attention_total
              (input_projection rt self ls) ls Hals)
    as (co & ns & attns & ctxs & als & -> & _ & _).
  simpl.
  destruct (match attns with
            | [] => (co, [])
            | _ :: _ => _
            end) as [output als'].
  unfold index_outer. rewrite Hs, Htr.
  destruct (Z.ltb_spec (Z.of_nat k) 0) as [|_]; [reflexivity|].
  rewrite Nat2Z.id, Hrow. reflexivity.
Qed.

(** X7.  If the reference is shorter than [max_output_len] and some
    sequence of the batch never has the end token in it, the teacher-forced
    loop reads one row past the reference and fails with a slice index out
    of bounds. *)
Theorem teacher_forced_reference_exhausted (fuel b : nat) :
  Z.of_nat (List.length (fed_train_inputs feed)) < max_output_len self ->
  (b < List.length (go_symbols feed))%nat ->
  (forall t row, nth_error (fed_train_inputs feed) t = Some row ->
                 nth_error row b <> Some END_TOKEN_INDEX) ->
  (List.length (fed_train_inputs feed) < fuel)%nat ->
  final_loop_state END_TOKEN_INDEX rt fuel self feed true
  = Some (Err (InvalidArgumentError "slice index out of bounds")).
Proof.
  intros Hshort Hb Hnoend Hfuel.
  unfold final_loop_state.
  destruct (initial_loop_state_histories rt self feed att_objects)
    as (init & Hinit & Hs0 & Hro & Hlo & Hmo & Hfin).
  rewrite Hinit.
  apply (while_loop_fails (loop_exit_criterion self) tf_body
           (fun ls => (List.length (fed_train_inputs feed)
                       - Z.to_nat (step ls))%nat)
           (fun ls : TFLoopState =>
              exists k ro lo mo,
                (k <= List.length (fed_train_inputs feed))%nat /\
                step ls = Z.of_nat k /\
                rnn_outputs ls = map Some ro /\ List.length ro = S k /\
                logits ls = map Some lo /\ List.length lo = k /\
                mask ls = map Some mo /\ List.length mo = k /\
                List.length (finished ls) = List.length (go_symbols feed) /\
                List.length (attention_loop_states ls)
                = List.length att_objects /\
                train_inputs ls = fed_train_inputs feed /\
                nth_error (finished ls) b = Some false)).
  - intros ls (k & ro & lo & mo & Hk & Hs & H1 & H2 & H3 & H4 & H5 & H6
               & Hf & Ha & Htr & Hfb).
    split.
    { unfold loop_exit_criterion.
      rewrite (reduce_all_false_entry _ b Hfb). simpl.
      apply Z.ltb_lt. lia. }
    destruct (nth_error (fed_train_inputs feed) k) as [row|] eqn:Hrow.
    + right.
      destruct (teacher_forced_step ls k ro lo mo row Hs H1 H2 H3 H4 H5 H6
                  Hf Ha Htr Hrow)
        as (ls' & Hb' & Hsym & Hfin' & Hlf & Hla & Htr').
      exists ls'. split; [assumption|].
      destruct (body_histories _ _ _ _ _ _ _ _ _ _ _ Hb' Hs H1 H2 H3 H4 H5 H6)
        as (Hk' & H1' & H3' & H5').
      assert (Hlt : (k < List.length (fed_train_inputs feed))%nat)
        by (apply nth_error_Some; congruence).
      split.
      * exists (S k), (ro ++ [prev_rnn_output ls']),
          (lo ++ [prev_logits ls']), (mo ++ [logical_not (finished ls')]).
        rewrite !length_app. simpl.
        repeat (split; [first [assumption | lia]|]).
        rewrite Hfin'.
        assert (Hlrow : List.length row = List.length (go_symbols feed))
          by (apply reference_rows; eapply nth_error_In; eassumption).
        destruct (nth_error row b) as [x|] eqn:Hx.
        2:{ apply nth_error_None in Hx. lia. }
        rewrite (zip_with_nth_error orb _ _ b false (x =? END_TOKEN_INDEX) Hfb)
          by (unfold equal; rewrite nth_error_map, Hx; reflexivity).
        simpl. destruct (Z.eqb_spec x END_TOKEN_INDEX) as [->|]; [|reflexivity].
        exfalso. apply (Hnoend k row Hrow). exact Hx.
      * rewrite Hk', Hs. lia.
    + left. now apply (teacher_forced_step_outside ls k).
  - exists O, [initial_state feed], [], [].
    unfold get_initial_loop_state in Hinit. simpl in Hinit.
    injection Hinit as <-. simpl.
    rewrite repeat_length, length_map, nth_error_repeat by assumption.
    repeat split; auto; lia.
  - rewrite Hs0. simpl. lia.
Qed.

(** X8.  If [max_output_len] does not exceed the reference length, or every
    sequence of the batch has the end token somewhere in the reference, the
    teacher-forced loop returns (with fuel for [max_output_len] steps),
    after at most as many steps as the reference has rows and at most
    [max_output_len]. *)
Theorem teacher_forced_returns (fuel : nat) :
  0 <= max_output_len self ->
  (Z.to_nat (max_output_len self) <= fuel)%nat ->
  (max_output_len self <= Z.of_nat (List.length (fed_train_inputs feed)) \/
   forall b, (b < List.length (go_symbols feed))%nat ->
     exists t row,
       nth_error (fed_train_inputs feed) t = Some row /\
       nth_error row b = Some END_TOKEN_INDEX) ->
  exists init final (T : nat),
    get_initial_loop_state rt self feed att_objects = Ok init /\
    final_loop_state END_TOKEN_INDEX rt fuel self feed true
    = Some (Ok final) /\
    iterate T tf_body init = Ok final /\
    (T <= List.length (fed_train_inputs feed))%nat /\
    Z.of_nat T <= max_output_len self.
Proof.
  intros Hmax Hfuel Hcover.
  unfold final_loop_state.
  destruct (initial_loop_state_histories rt self feed att_objects)
    as (init & Hinit & Hs0 & Hro & Hlo & Hmo & Hfin).
  rewrite Hinit. exists init.
  destruct (while_loop_total (loop_exit_criterion self) tf_body
              (fun ls => Z.to_nat (max_output_len self - step ls))
              (fun ls : TFLoopState =>
                 exists k ro lo mo,
                   (k <= List.length (fed_train_inputs feed))%nat /\
                   step ls = Z.of_nat k /\
                   rnn_outputs ls = map Some ro /\ List.length ro = S k /\
                   logits ls = map Some lo /\ List.length lo = k /\
                   mask ls = map Some mo /\ List.length mo = k /\
                   List.length (finished ls) = List.length (go_symbols feed) /\
                   List.length (attention_loop_states ls)
                   = List.length att_objects /\
                   train_inputs ls = fed_train_inputs feed /\
                   forall b t row,
                     (t < k)%nat ->
                     nth_error (fed_train_inputs feed) t = Some row ->
                     nth_error row b = Some END_TOKEN_INDEX ->
                     nth_error (finished ls) b = Some true))
    with (fuel := fuel) (s := init) as (final & Hw & HI).
  - intros s Hc. unfold loop_exit_criterion in Hc.
    apply andb_true_iff in Hc. destruct Hc as [_ Hc].
    apply Z.ltb_lt in Hc. lia.
  - intros ls (k & ro & lo & mo & Hk & Hs & H1 & H2 & H3 & H4 & H5 & H6
               & Hf & Ha & Htr & Hseen) Hc.
    unfold loop_exit_criterion in Hc. apply andb_true_iff in Hc.
    destruct Hc as [Hc1 Hc2]. apply negb_true_iff in Hc1.
    apply Z.ltb_lt in Hc2.
    destruct (nth_error (fed_train_inputs feed) k) as [row|] eqn:Hrow.
    2:{ exfalso. apply nth_error_None in Hrow.
        destruct Hcover as [Hle | Hall]; [lia|].
        assert (Htrue : reduce_all (finished ls) = true); [|congruence].
        apply reduce_all_true. intros b Hb. rewrite Hf in Hb.
        destruct (Hall b Hb) as (t & r & Hr & Hend).
        apply (Hseen b t r); auto.
        assert (t < List.length (fed_train_inputs feed))%nat
          by (apply nth_error_Some; congruence).
        lia. }
    destruct (teacher_forced_step ls k ro lo mo row Hs H1 H2 H3 H4 H5 H6
                Hf Ha Htr Hrow)
      as (ls' & Hb' & Hsym & Hfin' & Hlf & Hla & Htr').
    exists ls'. split; [assumption|].
    destruct (body_histories _ _ _ _ _ _ _ _ _ _ _ Hb' Hs H1 H2 H3 H4 H5 H6)
      as (Hk' & H1' & H3' & H5').
    assert (Hlt : (k < List.length (fed_train_inputs feed))%nat)
      by (apply nth_error_Some; congruence).
    assert (Hlrow : List.length row = List.length (go_symbols feed))
      by (apply reference_rows; eapply nth_error_In; eassumption).
    split; [|rewrite Hk', Hs; lia].
    exists (S k), (ro ++ [prev_rnn_output ls']),
      (lo ++ [prev_logits ls']), (mo ++ [logical_not (finished ls')]).
    rewrite !length_app. simpl.
    repeat (split; [first [assumption | lia]|]).
    intros b t r Ht Hr Hend. rewrite Hfin'.
    destruct (Nat.eq_dec t k) as [->|Hne].
    + rewrite Hrow in Hr. injection Hr as <-.
      destruct (nth_error (finished ls) b) as [f|] eqn:Hfb.
      2:{ apply nth_error_None in Hfb.
          assert (b < List.length row)%nat
            by (apply nth_error_Some; congruence).
          lia. }
      rewrite (zip_with_nth_error orb _ _ b f true Hfb)
        by (unfold equal; rewrite nth_error_map, Hend; simpl;
            rewrite Z.eqb_refl; reflexivity).
      now rewrite orb_true_r.
    + assert (Hold : nth_error (finished ls) b = Some true)
        by (apply (Hseen b t r); auto; lia).
      destruct (nth_error (equal row END_TOKEN_INDEX) b) as [y|] eqn:Hy.
      2:{ apply nth_error_None in Hy. unfold equal in Hy.
          rewrite length_map in Hy.
          assert (b < List.length (finished ls))%nat
            by (apply nth_error_Some; congruence).
          lia. }
      rewrite (zip_with_nth_error orb _ _ b true y Hold Hy). reflexivity.
  - exists O, [initial_state feed], [], [].
    unfold get_initial_loop_state in Hinit. simpl in Hinit.
    injection Hinit as <-. simpl.
    rewrite repeat_length, length_map.
    repeat split; auto; try lia.
  - rewrite Hs0. replace (max_output_len self - 0) with (max_output_len self)
      by lia. exact Hfuel.
  - pose proof Hw as Hw'. apply while_loop_Ok in Hw'.
    destruct Hw' as (T & _ & Hit & _ & Hbefore).
    exists final, T. split; [reflexivity|]. split; [assumption|].
    split; [assumption|].
    destruct (iterate_from_initial _ _ _ _ _ _ _ _ _ Hinit Hit) as (HsT & _).
    destruct HI as (k & _ & _ & _ & Hk & Hsk & _).
    split; [lia|].
    destruct T as [|T']; [lia|].
    destruct (Hbefore T') as (sk & Hsk' & Hc); [lia|].
    destruct (iterate_from_initial _ _ _ _ _ _ _ _ _ Hinit Hsk') as (Hstep & _).
    unfold loop_exit_criterion in Hc. apply andb_true_iff in Hc.
    destruct Hc as [_ Hc]. apply Z.ltb_lt in Hc. lia.
Qed.

End TeacherForced.

Section MaskShape.
Context {tensor float32 att_loop_state : Type}.
Variable END_TOKEN_INDEX : Z.
Variable rt : @Runtime tensor float32.
Variable self : @Decoder tensor att_loop_state.
Variable feed : @Feed tensor float32.
Variable att_objects : list (@BaseAttention tensor att_loop_state).

(** X9.  In either mode, after at least one step and when every step
    yields one token per batch entry, the stacked mask has one row per step
    and each sequence's column never goes back from 0 to 1: a 0 at step [t]
    is a 0 at every later step. *)
Theorem mask_column_monotone (train_mode : bool)
  (init final : @Decoder.LoopState tensor float32 att_loop_state) (T : nat) :
  (0 < T)%nat ->
  get_initial_loop_state rt self feed att_objects = Ok init ->
  (forall t ls,
      iterate (S t) (body END_TOKEN_INDEX rt self att_objects train_mode) init
      = Ok ls ->
      List.length (input_symbol ls) = List.length (go_symbols feed)) ->
  iterate T (body END_TOKEN_INDEX rt self att_objects train_mode) init
  = Ok final ->
  exists mask_,
    stack (mask final) = Ok mask_ /\ List.length mask_ = T /\
    forall t t' b row row',
      (t <= t')%nat -> (b < List.length (go_symbols feed))%nat ->
      nth_error mask_ t = Some row -> nth_error mask_ t' = Some row' ->
      nth_error row b = Some false -> nth_error row' b = Some false.
Proof.
  intros HT Hinit Hbatch Hit.
  destruct (returned_mask_entries END_TOKEN_INDEX rt self feed att_objects
              train_mode init Hinit Hbatch T final HT Hit)
    as (mask_ & Hstack & Hlen & Hentries).
  exists mask_. split; [assumption|]. split; [assumption|].
  intros t t' b row row' Hle Hb Hrow Hrow' Hzero.
  assert (Ht : (t < T)%nat)
    by (rewrite <- Hlen; apply nth_error_Some; congruence).
  assert (Ht' : (t' < T)%nat)
    by (rewrite <- Hlen; apply nth_error_Some; congruence).
  destruct (Hentries t b Ht Hb) as (r & m & Hr & Hm & Hiff).
  destruct (Hentries t' b Ht' Hb) as (r' & m' & Hr' & Hm' & Hiff').
  rewrite Hrow in Hr. injection Hr as <-.
  rewrite Hrow' in Hr'. injection Hr' as <-.
  rewrite Hzero in Hm. injection Hm as <-.
  rewrite Hm'. f_equal. apply Hiff'.
  destruct (proj1 Hiff eq_refl) as (t0 & ls & Ht0 & Hls & Hend).
  exists t0, ls. repeat split; auto. lia.
Qed.
End MaskShape.

Section Decoded.
Context {float32 : Type}.
Variable gtb : float32 -> float32 -> bool.

(** Not being greater is transitive, as for the order of numbers. *)
Hypothesis gtb_trans :
  forall x y z, gtb x y = false -> gtb y z = false -> gtb x z = false.

Lemma argmax_scan_shift (d : Z) :
  forall (l : list float32) (best : float32) (best_i i : Z),
    argmax_scan gtb best (best_i + d) (i + d) l
    = argmax_scan gtb best best_i i l + d.
Proof.
  induction l as [|x l IH]; intros best best_i i; simpl; [reflexivity|].
  replace (i + d + 1) with (i + 1 + d) by lia.
  destruct (gtb x best); apply IH.
Qed.

(** A scan that ends on a visited index does not depend on the entry it
    started with, as long as that entry was not the greater one. *)
Lemma argmax_scan_dominated :
  forall (l : list float32) (x y : float32) (bi bj i : Z),
    gtb y x = false -> bi < i -> bj < i ->
    i <= argmax_scan gtb x bi i l ->
    argmax_scan gtb y bj i l = argmax_scan gtb x bi i l.
Proof.
  induction l as [|z l IH]; intros x y bi bj i Hyx Hbi Hbj Hres; simpl in *;
    [lia|].
  destruct (gtb z x) eqn:Hzx.
  - destruct (gtb z y) eqn:Hzy; [reflexivity|].
    rewrite (gtb_trans z y x Hzy Hyx) in Hzx. discriminate.
  - assert (Hres' : i + 1 <= argmax_scan gtb x bi (i + 1) l).
    { destruct (argmax_scan_range gtb l x bi (i + 1)) as [E|E]; lia. }
    destruct (gtb z y) eqn:Hzy.
    + apply IH; auto; lia.
    + apply IH; auto; lia.
Qed.

(** When the argmax of a row is not its first index, it is the argmax of
    the row without its first entry, shifted by one. *)
Lemma argmax_tail (x : float32) (r : list float32) (i : Z) :
  argmax gtb (x :: r) = Ok i -> i <> 0 -> argmax gtb r = Ok (i - 1).
Proof.
  simpl. intros H Hi. injection H as H.
  destruct r as [|y r']; simpl in *; [lia|].
  f_equal.
  pose proof (argmax_scan_shift 1 r' y 0 1) as Hshift. simpl in Hshift.
  destruct (gtb y x) eqn:Hyx.
  - rewrite Hshift in H. lia.
  - assert (Hge : 2 <= argmax_scan gtb x 0 2 r').
    { destruct (argmax_scan_range gtb r' x 0 2) as [E|E]; lia. }
    rewrite <- (argmax_scan_dominated r' x y 0 1 2 Hyx) in H by lia.
    rewrite Hshift in H. lia.
Qed.
End Decoded.

Section DecodedTokens.
Context {tensor float32 : Type}.
Variable rt : @Runtime tensor float32.

(** X11.  For the logits of one step, the decoded token of a sequence is
    the token the free-running loop feeds back for it (the argmax over the
    whole row) whenever that token is not the padding id 0; when the loop
    feeds back 0, the decoded token differs from it and is at least 1. *)
Theorem decoded_agrees_with_fed_back_token
  (step_logits : list (list float32)) (syms toks : list Z) :
  (forall x y z, gtb rt x y = false -> gtb rt y z = false ->
                 gtb rt x z = false) ->
  argmax_axis1 (gtb rt) step_logits = Ok syms ->
  decoded_of rt [step_logits] = Ok [toks] ->
  forall b sym tok,
    nth_error syms b = Some sym -> nth_error toks b = Some tok ->
    (sym <> 0 -> tok = sym) /\ (sym = 0 -> tok <> sym /\ 1 <= tok).
Proof.
  intros Htrans Hsyms Hdec b sym tok Hsym Htok.
  unfold argmax_axis1 in Hsyms.
  destruct (mapM_Ok _ _ _ Hsyms) as (_ & Hs).
  destruct (Hs b sym Hsym) as (row & Hrow & Harg).
  unfold decoded_of in Hdec. simpl in Hdec.
  apply bind_Ok_inv in Hdec. destruct Hdec as (toks' & Htoks & Hdec).
  injection Hdec as <-.
  destruct (mapM_Ok _ _ _ Htoks) as (_ & Ht).
  destruct (Ht b tok Htok) as (row' & Hrow' & Hdecrow).
  rewrite Hrow in Hrow'. injection Hrow' as <-.
  apply bind_Ok_inv in Hdecrow. destruct Hdecrow as (i & Hi & Hdecrow).
  injection Hdecrow as <-.
  assert (Hnonneg : 0 <= i) by (apply argmax_range in Hi; lia).
  split.
  - intros Hne. destruct row as [|x r]; [discriminate|].
    simpl in Hi. rewrite (argmax_tail (gtb rt) Htrans x r sym Harg Hne) in Hi.
    injection Hi as <-. lia.
  - intros ->. lia.
Qed.
End DecodedTokens.

(** The properties above on the small decoder. *)

Lemma init_hidden_size_assertion_witness :
  (arg_embedding_size Example.args_without_size <> None \/
   arg_embeddings_source Example.args_without_size <> None) /\
  arg_rnn_size Example.args_without_size = None /\
  (arg_encoder_projection Example.args_without_size <> None \/
   arg_encoders Example.args_without_size = []) /\
  Decoder.__init__ Example.cost Example.args_without_size
  = Err AssertionError.
Proof.
  assert (H1 : arg_embedding_size Example.args_without_size <> None \/
               arg_embeddings_source Example.args_without_size <> None)
    by (left; discriminate).
  assert (H3 : arg_encoder_projection Example.args_without_size <> None \/
               arg_encoders Example.args_without_size = [])
    by (right; reflexivity).
  split; [exact H1|]. split; [reflexivity|]. split; [exact H3|].
  exact (init_hidden_size_assertion Example.cost Example.args_without_size
           H1 eq_refl H3).
Defined.

Lemma init_defaults_witness :
  exists d,
    Decoder.__init__ Example.cost Example.attentive_args = Ok d /\
    embedding_size d = Some 6 /\
    encoder_projection d = concat_encoder_projection /\
    rnn_size d = 8.
Proof.
  eexists. split; [reflexivity|].
  match goal with
  | |- embedding_size ?d = _ /\ _ =>
      destruct (init_defaults Example.cost Example.attentive_args d eq_refl)
        as (Hsrc & _ & _ & Hproj & Hsize & _)
  end.
  split; [exact (Hsrc _ eq_refl)|].
  split; [exact (Hproj eq_refl) | exact (Hsize eq_refl eq_refl)].
Defined.

Lemma decoding_attention_objects_witness :
  exists d,
    Decoder.__init__ Example.cost Example.attentive_args = Ok d /\
    NoDup (map encoder_name (arg_encoders Example.attentive_args)) /\
    decoding_att_objects d false = [Example.unit_attention].
Proof.
  assert (Hnd : NoDup (map encoder_name (arg_encoders Example.attentive_args))).
  { simpl. repeat constructor; simpl; intuition discriminate. }
  eexists. split; [reflexivity|]. split; [exact Hnd|].
  match goal with
  | |- decoding_att_objects ?d _ = _ =>
      exact (decoding_attention_objects Example.cost
               Example.attentive_args d false
               eq_refl Hnd)
  end.
Defined.

Lemma body_unknown_cell_witness :
  dict_in (_rnn_cell_str (Example.decoder_with_cell "RNN")) RNN_CELL_TYPES
  = false /\
  body Example.END_TOKEN_INDEX Example.rt (Example.decoder_with_cell "RNN")
    [] false Example.initial = Err (KeyError "RNN").
Proof.
  split; [reflexivity|].
  exact (body_unknown_cell Example.END_TOKEN_INDEX Example.rt
           (Example.decoder_with_cell "RNN") [] false Example.initial eq_refl).
Defined.

Lemma teacher_forced_follows_reference_witness :
  exists final,
    get_initial_loop_state Example.rt Example.decoder Example.feed []
    = Ok Example.initial /\
    while_loop 5 (loop_exit_criterion Example.decoder)
      (body Example.END_TOKEN_INDEX Example.rt Example.decoder [] true)
      Example.initial = Some (Ok final) /\
    train_inputs final = fed_train_inputs Example.feed.
Proof.
  eexists. split; [reflexivity|]. split; [vm_compute; reflexivity|].
  destruct (teacher_forced_follows_reference Example.END_TOKEN_INDEX
              Example.rt Example.decoder Example.feed [] 5 Example.initial _
              eq_refl eq_refl) as (T & _ & _ & _ & Htr & _).
  exact Htr.
Defined.

Lemma example_reference_rows (f : @Feed Z Z) :
  f = Example.feed \/ f = Example.feed_without_end ->
  forall row, In row (fed_train_inputs f) ->
    List.length row = List.length (go_symbols f).
Proof.
  intros [-> | ->] row; simpl; intuition subst; reflexivity.
Qed.

Lemma teacher_forced_reference_exhausted_witness :
  Z.of_nat (List.length (fed_train_inputs Example.feed_without_end))
  < max_output_len Example.decoder /\
  (0 < List.length (go_symbols Example.feed_without_end))%nat /\
  (forall t row,
      nth_error (fed_train_inputs Example.feed_without_end) t = Some row ->
      nth_error row 0 <> Some Example.END_TOKEN_INDEX) /\
  final_loop_state Example.END_TOKEN_INDEX Example.rt 5 Example.decoder
    Example.feed_without_end true
  = Some (Err (InvalidArgumentError "slice index out of bounds")).
Proof.
  assert (Hnoend : forall t row,
             nth_error (fed_train_inputs Example.feed_without_end) t = Some row ->
             nth_error row 0 <> Some Example.END_TOKEN_INDEX).
  { intros [|[|[|t]]] row H; simpl in H; try discriminate;
      injection H as <-; discriminate. }
  split; [simpl; lia|]. split; [simpl; lia|]. split; [exact Hnoend|].
  apply (teacher_forced_reference_exhausted Example.END_TOKEN_INDEX Example.rt
           Example.decoder Example.feed_without_end eq_refl
           (fun H : false = true => False_ind _ (diff_false_true H))
           (fun a (H : In a []) => match H with end)
           (example_reference_rows _ (or_intror eq_refl)) 5 0).
  - simpl. lia.
  - simpl. lia.
  - exact Hnoend.
  - simpl. lia.
Defined.

Lemma teacher_forced_returns_witness :
  0 <= max_output_len Example.decoder /\
  (forall b, (b < List.length (go_symbols Example.feed))%nat ->
     exists t row,
       nth_error (fed_train_inputs Example.feed) t = Some row /\
       nth_error row b = Some Example.END_TOKEN_INDEX) /\
  exists final,
    final_loop_state Example.END_TOKEN_INDEX Example.rt 5 Example.decoder
      Example.feed true = Some (Ok final).
Proof.
  assert (Hall : forall b, (b < List.length (go_symbols Example.feed))%nat ->
            exists t row,
              nth_error (fed_train_inputs Example.feed) t = Some row /\
              nth_error row b = Some Example.END_TOKEN_INDEX).
  { intros [|[|b]] Hb.
    - exists 1%nat, [2; 3]. split; reflexivity.
    - exists 2%nat, [0; 2]. split; reflexivity.
    - simpl in Hb. lia. }
  split; [simpl; lia|]. split; [exact Hall|].
  destruct (teacher_forced_returns Example.END_TOKEN_INDEX Example.rt
              Example.decoder Example.feed eq_refl
              (fun H : false = true => False_ind _ (diff_false_true H))
              (fun a (H : In a []) => match H with end)
              (example_reference_rows _ (or_introl eq_refl)) 5)
    as (init & final & T & _ & Hfinal & _);
    [simpl; lia | simpl; lia | right; exact Hall |].
  exists final. exact Hfinal.
Defined.

Lemma decoded_agrees_with_fed_back_token_witness :
  (forall x y z, gtb Example.rt x y = false -> gtb Example.rt y z = false ->
                 gtb Example.rt x z = false) /\
  argmax_axis1 (gtb Example.rt) [[0; 0; 0; 5]; [9; 0; 0; 0]] = Ok [3; 0] /\
  decoded_of Example.rt [[[0; 0; 0; 5]; [9; 0; 0; 0]]] = Ok [[3; 1]] /\
  (3 <> 0 -> 3 = 3).
Proof.
  assert (Htrans : forall x y z, gtb Example.rt x y = false ->
                     gtb Example.rt y z = false -> gtb Example.rt x z = false).
  { simpl. intros x y z H1 H2. rewrite Z.gtb_ltb in *.
    apply Z.ltb_ge in H1, H2. apply Z.ltb_ge. lia. }
  split; [exact Htrans|]. split; [reflexivity|]. split; [reflexivity|].
  exact (proj1 (decoded_agrees_with_fed_back_token Example.rt
                  [[0; 0; 0; 5]; [9; 0; 0; 0]] [3; 0] [3; 1] Htrans
                  eq_refl eq_refl 0%nat 3 3 eq_refl eq_refl)).
Defined.

Lemma mask_column_monotone_witness :
  exists final,
    get_initial_loop_state Example.rt Example.decoder Example.feed []
    = Ok Example.initial /\
    iterate 3 (body Example.END_TOKEN_INDEX Example.rt Example.decoder []
                 false) Example.initial = Ok final /\
    exists mask_, stack (mask final) = Ok mask_ /\ List.length mask_ = 3%nat.
Proof.
  eexists. split; [reflexivity|]. split; [vm_compute; reflexivity|].
  destruct (mask_column_monotone Example.END_TOKEN_INDEX Example.rt
              Example.decoder Example.feed [] false Example.initial _ 3
              (Nat.lt_0_succ 2) eq_refl
              (free_running_batch Example.END_TOKEN_INDEX Example.rt
                 Example.decoder Example.feed []
                 ExampleRuns.example_logits_shape Example.initial eq_refl)
              eq_refl) as (mask_ & Hstack & Hlen & _).
  exists mask_. split; [exact Hstack | exact Hlen].
Defined.

End DecoderExtras.

(** ** Feeding the decoder and recording histories *)

Module DecoderInputsFacts.
Import Tf TfFacts Decoder DecoderInputs.
Local Open Scope string_scope.
Local Open Scope list_scope.
Local Open Scope Z_scope.
Local Open Scope result_scope.

Lemma tile_length {A : Type} (n : nat) (v : list A) :
  List.length (tile n v) = (n * List.length v)%nat.
Proof.
  unfold tile. induction n as [|n IH]; simpl; [reflexivity|].
  rewrite length_app, IH. reflexivity.
Qed.

Lemma rows_of_tile {A : Type} (v : list A) :
  forall n, rows_of n (List.length v) (tile n v) = repeat v n.
Proof.
  unfold tile. induction n as [|n IH]; simpl; [reflexivity|].
  rewrite firstn_app, Nat.sub_diag, firstn_all. simpl. rewrite app_nil_r.
  rewrite skipn_app, Nat.sub_diag, skipn_all. simpl. now rewrite IH.
Qed.

(** X12.  A rank-1 projection whose length is the (positive) hidden size
    is broadcast to the batch: the initial state has [batch_size] rows,
    each of them the projected vector. *)
Theorem initial_state_broadcast {A : Type} (rnn_size : Z) (batch_size : nat)
  (v : list A) :
  0 < rnn_size ->
  Z.of_nat (List.length v) = rnn_size ->
  initial_state_of rnn_size batch_size (Rank1 v) = Ok (repeat v batch_size).
Proof.
  intros Hpos Hlen. unfold initial_state_of, reshape_rows.
  rewrite (proj2 (Z.eqb_eq _ _) Hlen).
  destruct (Z.leb_spec rnn_size 0) as [|_]; [lia|].
  rewrite tile_length, Nat2Z.inj_mul, Hlen, Z.mod_mul by lia.
  simpl. rewrite Z.div_mul by lia. rewrite Nat2Z.id, <- Hlen, Nat2Z.id.
  now rewrite rows_of_tile.
Qed.

Section FeedDict.
Context {float32 : Type}.
Variable START_TOKEN : string.

(** X13.  [feed_dict] fails exactly when training is requested and the
    dataset has no series for the decoder.  Otherwise it feeds one start
    token index per dataset entry, so the batch size is the dataset size,
    and it feeds reference inputs exactly when the series is there. *)
Theorem feed_dict_result (vocabulary : @Vocabulary float32)
  (data_id : string) (max_output_len : Z) (dataset : Dataset)
  (train : bool) :
  match feed_dict START_TOKEN vocabulary data_id max_output_len dataset
          train with
  | Err e =>
      e = ValueError "When training, you must feed reference sentences" /\
      train = true /\ get_series dataset data_id = None
  | Ok fd =>
      (train = false \/ get_series dataset data_id <> None) /\
      fd_train_mode fd = train /\
      fd_go_symbols fd
      = repeat (get_word_index vocabulary START_TOKEN) (dataset_len dataset) /\
      List.length (fd_go_symbols fd) = dataset_len dataset /\
      (fd_train_inputs fd = None <-> get_series dataset data_id = None) /\
      (fd_train_padding fd = None <-> get_series dataset data_id = None)
  end.
Proof.
  unfold feed_dict.
  destruct (get_series dataset data_id) as [sentences|]; simpl.
  - destruct (sentences_to_tensor vocabulary sentences max_output_len
                false false true false) as [inputs weights].
    simpl. rewrite repeat_length.
    repeat split; try discriminate; auto. right. discriminate.
  - destruct train; simpl; [auto|].
    rewrite repeat_length.
    repeat split; auto.
Qed.
End FeedDict.

Lemma append_cons (c : Ascii.ascii) (s t : string) :
  String.append (String c s) t = String c (String.append s t).
Proof. reflexivity. Qed.

(** The two unrolls of one decoder record under different keys. *)
Lemma att_history_key_modes (name : string) :
  att_history_key name true <> att_history_key name false.
Proof.
  unfold att_history_key. induction name as [|c name IH]; simpl.
  - discriminate.
  - intros H. injection H as H. contradiction.
Qed.

(** X14.  [finalize_loop] stores the stacked weight history under its key
    and leaves every other key as it was.  Finalizing the teacher-forced
    and then the free-running history of a decoder therefore keeps both:
    the two keys differ. *)
Theorem finalize_loop_keeps_both
  (histories h1 h2 : dict (list EncoderWrapper.Matrix)) (name : string)
  (train_state run_state : EncoderWrapper.AttentionLoopState) :
  finalize_loop histories (att_history_key name true) train_state = Ok h1 ->
  finalize_loop h1 (att_history_key name false) run_state = Ok h2 ->
  exists train_weights run_weights,
    stack (EncoderWrapper.weights train_state) = Ok train_weights /\
    stack (EncoderWrapper.weights run_state) = Ok run_weights /\
    dict_get h2 (att_history_key name true) = Some train_weights /\
    dict_get h2 (att_history_key name false) = Some run_weights /\
    forall k,
      k <> att_history_key name true -> k <> att_history_key name false ->
      dict_get h2 k = dict_get histories k.
Proof.
  unfold finalize_loop, dict_set. intros H1 H2.
  apply bind_Ok_inv in H1. destruct H1 as (w1 & Hw1 & H1).
  apply bind_Ok_inv in H2. destruct H2 as (w2 & Hw2 & H2).
  injection H1 as <-. injection H2 as <-.
  exists w1, w2. split; [assumption|]. split; [assumption|].
  pose proof (att_history_key_modes name) as Hne.
  simpl. rewrite !String.eqb_refl.
  destruct (String.eqb_spec (att_history_key name true)
              (att_history_key name false)) as [E|_]; [contradiction|].
  repeat split; auto.
  intros k Hk1 Hk2.
  destruct (String.eqb_spec k (att_history_key name false)); [contradiction|].
  destruct (String.eqb_spec k (att_history_key name true)); [contradiction|].
  reflexivity.
Qed.

Lemma initial_state_broadcast_witness :
  0 < 3 /\ Z.of_nat (List.length [7; 8; 9]) = 3 /\
  initial_state_of 3 2 (Rank1 [7; 8; 9]) = Ok [[7; 8; 9]; [7; 8; 9]].
Proof.
  split; [lia|]. split; [reflexivity|].
  exact (initial_state_broadcast 3 2 [7; 8; 9] ltac:(lia) eq_refl).
Defined.

Lemma finalize_loop_keeps_both_witness :
  exists h1 h2,
    finalize_loop [] (att_history_key "decoder" true)
      {| EncoderWrapper.contexts := []; EncoderWrapper.weights := [Some [[1%R]]] |}
    = Ok h1 /\
    finalize_loop h1 (att_history_key "decoder" false)
      {| EncoderWrapper.contexts := [];
         EncoderWrapper.weights := [Some [[0%R]]; Some [[1%R]]] |}
    = Ok h2 /\
    dict_get h2 "decoder_train" = Some [[[1%R]]] /\
    dict_get h2 "decoder_run" = Some [[[0%R]]; [[1%R]]].
Proof.
  eexists. eexists. split; [reflexivity|]. split; [reflexivity|].
  destruct (finalize_loop_keeps_both [] _ _ "decoder"
              {| EncoderWrapper.contexts := [];
                 EncoderWrapper.weights := [Some [[1%R]]] |}
              {| EncoderWrapper.contexts := [];
                 EncoderWrapper.weights := [Some [[0%R]]; Some [[1%R]]] |}
              eq_refl eq_refl)
    as (w1 & w2 & Hw1 & Hw2 & Hg1 & Hg2 & _).
  simpl in Hw1, Hw2. injection Hw1 as <-. injection Hw2 as <-.
  split; [exact Hg1 | exact Hg2].
Defined.

End DecoderInputsFacts.

(** ** Further properties of the attention combination *)

Module AttentionExtras.
Import Tf TfFacts EncoderWrapper EncoderWrapperFacts.
Local Open Scope string_scope.
Local Open Scope list_scope.
Local Open Scope R_scope.
Local Open Scope result_scope.

(** A concatenation along axis 1 that succeeds has the batch size of each
    of its tensors. *)
Lemma concat_axis1_batch {A : Type} :
  forall (ts : list (list (list A))) (m : list (list A)),
    concat_axis1 ts = Ok m ->
    forall t, In t ts -> List.length t = List.length m.
Proof.
  induction ts as [|t0 ts IH]; intros m H t Hin; [contradiction|].
  simpl in H. destruct ts as [|t1 rest].
  - injection H as <-. destruct Hin as [<-|[]]. reflexivity.
  - apply bind_Ok_inv in H. destruct H as (r' & Hr' & H).
    destruct (Nat.eqb_spec (List.length t0) (List.length r')) as [E|];
      [|discriminate].
    injection H as <-.
    assert (Hlen : List.length (zip_with (@app A) t0 r') = List.length t0)
      by now apply zip_with_length.
    destruct Hin as [<-|Hin]; [now rewrite Hlen|].
    rewrite Hlen, E. now apply (IH r' Hr').
Qed.

(** Tensors of one batch size concatenate. *)
Lemma concat_axis1_total {A : Type} (n : nat) :
  forall (ts : list (list (list A))),
    ts <> [] -> (forall t, In t ts -> List.length t = n) ->
    exists m, concat_axis1 ts = Ok m /\ List.length m = n.
Proof.
  induction ts as [|t0 ts IH]; intros Hne Hlen; [congruence|].
  destruct ts as [|t1 rest].
  - exists t0. split; [reflexivity|]. apply Hlen. now left.
  - destruct IH as (r' & Hr' & Hlr');
      [discriminate | intros; apply Hlen; now right |].
    change (concat_axis1 (t0 :: t1 :: rest))
      with (r <- concat_axis1 (t1 :: rest) ;;
            if (List.length t0 =? List.length r)%nat
            then Ok (zip_with (@app A) t0 r)
            else Err (InvalidArgumentError
                        "ConcatOp: dimensions do not match")).
    rewrite Hr'. simpl.
    assert (H0 : List.length t0 = n) by (apply Hlen; now left).
    rewrite H0, Hlr', Nat.eqb_refl.
    eexists. split; [reflexivity|]. rewrite zip_with_length; congruence.
Qed.

(** Row [b] of a concatenation along axis 1 is the concatenation of the
    rows [b] of the tensors. *)
Lemma concat_axis1_row {A : Type} :
  forall (ts : list (list (list A))) (m : list (list A)),
    concat_axis1 ts = Ok m ->
    forall b row, nth_error m b = Some row ->
      exists rows,
        Forall2 (fun t r => nth_error t b = Some r) ts rows /\
        row = List.concat rows.
Proof.
  induction ts as [|t0 ts IH]; intros m H b row Hrow; [discriminate|].
  simpl in H. destruct ts as [|t1 rest].
  - injection H as <-. exists [row].
    split; [repeat constructor; assumption | simpl; now rewrite app_nil_r].
  - apply bind_Ok_inv in H. destruct H as (r' & Hr' & H).
    destruct (List.length t0 =? List.length r')%nat; [|discriminate].
    injection H as <-.
    apply zip_with_nth_error_inv in Hrow.
    destruct Hrow as (x0 & row' & Hx0 & Hrow' & ->).
    destruct (IH r' Hr' b row' Hrow') as (rows & Hrows & ->).
    exists (x0 :: rows). split; [now constructor | reflexivity].
Qed.

Section FlatConstruction.
Context {child_state : Type}.
Variable vars : VariableStore.

(** X15.  A flat attention can be built exactly when there is at least one
    encoder and all encoder masks have the batch size of the first one;
    the sentinel flag does not matter. *)
Theorem flat_init_succeeds_iff (b : @MultiAttention child_state) :
  (exists self, FlatMultiAttention.__init__ vars b = Ok self) <->
  exists e es,
    _encoders b = e :: es /\
    forall e', In e' es ->
      List.length (_attention_mask e') = List.length (_attention_mask e).
Proof.
  split.
  - intros (self & Hinit). unfold FlatMultiAttention.__init__ in Hinit.
    apply bind_Ok_inv in Hinit. destruct Hinit as (masks & Hmasks & Hinit).
    apply bind_Ok_inv in Hinit. destruct Hinit as (mc & Hmc & _).
    destruct (_encoders b) as [|e es]; simpl in Hmasks.
    { destruct (_use_sentinels b); [discriminate|].
      injection Hmasks as <-. discriminate. }
    exists e, es. split; [reflexivity|]. intros e' He'.
    assert (Hin0 : In (_attention_mask e) masks)
      by (destruct (_use_sentinels b); injection Hmasks as <-; now left).
    assert (Hin : In (_attention_mask e') masks).
    { destruct (_use_sentinels b); injection Hmasks as <-; right;
        [apply in_or_app; left|]; now apply in_map. }
    rewrite (concat_axis1_batch _ _ Hmc _ Hin).
    now rewrite (concat_axis1_batch _ _ Hmc _ Hin0).
  - intros (e & es & Heq & Hlen). unfold FlatMultiAttention.__init__.
    rewrite Heq. cbn [map].
    assert (Hms : forall t, In t (map _attention_mask es) ->
              List.length t = List.length (_attention_mask e)).
    { intros t Ht. apply in_map_iff in Ht.
      destruct Ht as (e' & <- & He'). now apply Hlen. }
    destruct (_use_sentinels b); cbn [bind].
    + destruct (concat_axis1_total (List.length (_attention_mask e))
                  ((_attention_mask e :: map _attention_mask es)
                   ++ [repeat [1] (List.length (_attention_mask e))]))
        as (mc & -> & _); [discriminate | | simpl; eauto].
      intros t [<-|Ht]; [reflexivity|].
      apply in_app_or in Ht. destruct Ht as [Ht|[<-|[]]];
        [now apply Hms | apply repeat_length].
    + destruct (concat_axis1_total (List.length (_attention_mask e))
                  (_attention_mask e :: map _attention_mask es))
        as (mc & -> & _); [discriminate | | simpl; eauto].
      intros t [<-|Ht]; [reflexivity | now apply Hms].
Qed.

(** X16.  Row [b] of [masks_concat] is the encoders' mask rows [b] one
    after the other, in encoder order, followed by a single 1 when the
    sentinel is enabled. *)
Theorem masks_concat_row (b : @MultiAttention child_state)
  (self : @FlatMultiAttention.t child_state) (i : nat) (row : list R) :
  FlatMultiAttention.__init__ vars b = Ok self ->
  nth_error (FlatMultiAttention.masks_concat self) i = Some row ->
  exists rows,
    Forall2 (fun e r => nth_error (_attention_mask e) i = Some r)
      (_encoders b) rows /\
    row = List.concat rows ++ (if _use_sentinels b then [1] else []).
Proof.
  unfold FlatMultiAttention.__init__. intros Hinit Hrow.
  apply bind_Ok_inv in Hinit. destruct Hinit as (masks & Hmasks & Hinit).
  apply bind_Ok_inv in Hinit. destruct Hinit as (mc & Hmc & Hinit).
  injection Hinit as <-. simpl in Hrow.
  destruct (concat_axis1_row _ _ Hmc i row Hrow) as (rows & Hrows & ->).
  assert (Hmap : forall (es : list (@Attentive child_state)) rs,
             Forall2 (fun t r => nth_error t i = Some r)
               (map _attention_mask es) rs ->
             Forall2 (fun e r => nth_error (_attention_mask e) i = Some r)
               es rs).
  { induction es as [|e es IH]; intros rs H; inversion H; subst;
      constructor; auto. }
  destruct (_use_sentinels b).
  - destruct (map _attention_mask (_encoders b)) as [|m0 ms] eqn:Em;
      [discriminate|].
    injection Hmasks as <-.
    change (m0 :: ms ++ [repeat [1] (List.length m0)])
      with ((m0 :: ms) ++ [repeat [1] (List.length m0)]) in Hrows.
    apply Forall2_app_inv_l in Hrows.
    destruct Hrows as (rs1 & rs2 & H1 & H2 & ->).
    inversion H2 as [|t r ts rs Hr Hnil]; subst. inversion Hnil; subst.
    apply nth_error_In, repeat_spec in Hr. subst r.
    exists rs1. split.
    + apply Hmap. rewrite Em. exact H1.
    + rewrite concat_app. simpl. reflexivity.
  - injection Hmasks as <-. exists rows.
    split; [now apply Hmap | now rewrite app_nil_r].
Qed.
End FlatConstruction.

Lemma flat_tile_length {A : Type} (n : nat) (l : list A) :
  List.length (FlatMultiAttention.tile n l) = (n * List.length l)%nat.
Proof.
  unfold FlatMultiAttention.tile. induction n as [|n IH]; simpl;
    [reflexivity|].
  rewrite length_app, IH. reflexivity.
Qed.

Section BeamTiling.
Context {child_state : Type}.

(** X17.  When the sentinel's batch is [k] times the (non-empty) batch of
    the encoder projections, tiling returns every projection repeated [k]
    times along the batch, so each has the sentinel's batch size; for
    [k = 1] the projections come back unchanged. *)
Theorem tile_encoders_batch (self : @FlatMultiAttention.t child_state)
  (projected_sentinel : Tensor3) (n k : nat) :
  (0 < n)%nat ->
  FlatMultiAttention.encoder_projections_for_ctx self <> [] ->
  (forall p, In p (FlatMultiAttention.encoder_projections_for_ctx self) ->
             List.length p = n) ->
  List.length projected_sentinel = (k * n)%nat ->
  exists tiled,
    FlatMultiAttention._tile_encoders_for_beamsearch self projected_sentinel
    = Ok tiled /\
    tiled = map (FlatMultiAttention.tile k)
              (FlatMultiAttention.encoder_projections_for_ctx self) /\
    (forall p, In p tiled ->
               List.length p = List.length projected_sentinel) /\
    (k = 1%nat ->
     tiled = FlatMultiAttention.encoder_projections_for_ctx self).
Proof.
  intros Hn Hne Hlen Hs.
  unfold FlatMultiAttention._tile_encoders_for_beamsearch.
  destruct (FlatMultiAttention.encoder_projections_for_ctx self)
    as [|p0 ps] eqn:Ep; [congruence|].
  assert (H0 : List.length p0 = n) by (apply Hlen; now left).
  rewrite H0, Hs.
  destruct (Nat.eqb_spec n 0) as [|_]; [lia|].
  rewrite Nat.Div0.mod_mul, Nat.eqb_refl, Nat.div_mul by lia.
  eexists. split; [reflexivity|]. split; [reflexivity|]. split.
  - intros p Hp. apply in_map_iff in Hp. destruct Hp as (q & <- & Hq).
    rewrite flat_tile_length, (Hlen q Hq). reflexivity.
  - intros ->. rewrite <- (map_id (p0 :: ps)) at 2.
    apply map_ext. intros q. unfold FlatMultiAttention.tile. simpl.
    apply app_nil_r.
Qed.

(** X18.  When the sentinel's batch is not a multiple of the encoders'
    batch, tiling fails on its assertion. *)
Theorem tile_encoders_not_integral (self : @FlatMultiAttention.t child_state)
  (projected_sentinel : Tensor3) (p0 : list (list (list R)))
  (ps : list Tensor3) :
  FlatMultiAttention.encoder_projections_for_ctx self = p0 :: ps ->
  (0 < List.length p0)%nat ->
  (List.length projected_sentinel mod List.length p0 <> 0)%nat ->
  FlatMultiAttention._tile_encoders_for_beamsearch self projected_sentinel
  = Err (InvalidArgumentError "assertion failed").
Proof.
  intros Hp Hpos Hmod.
  unfold FlatMultiAttention._tile_encoders_for_beamsearch. rewrite Hp.
  destruct (Nat.eqb_spec (List.length p0) 0) as [|_]; [lia|].
  destruct (Nat.eqb_spec
              (List.length projected_sentinel mod List.length p0) 0);
    [contradiction | reflexivity].
Qed.
End BeamTiling.

Lemma renorm_zero_mask (logits mask : list R) :
  (forall x, In x mask -> x = 0) ->
  forall w, In w (renorm_softmax_row logits mask) -> w = 0.
Proof.
  intros Hzero w Hw. unfold renorm_softmax_row in Hw.
  apply in_map_iff in Hw. destruct Hw as (z & <- & Hz).
  apply In_nth_error in Hz. destruct Hz as (i & Hi).
  apply zip_with_nth_error_inv in Hi. destruct Hi as (p & q & _ & Hq & ->).
  rewrite (Hzero q) by (eapply nth_error_In; eassumption).
  unfold Rdiv. ring.
Qed.

Lemma weighted_sum_zero (size : nat) (a : list R) (p : list (list R)) :
  (forall x, In x a -> x = 0) ->
  forall y,
    In y (fold_right vector_add (repeat 0 size) (zip_with scale a p)) ->
    y = 0.
Proof.
  revert p. induction a as [|x a IH]; intros [|v p] Hzero y Hy; simpl in Hy;
    try (apply repeat_spec in Hy; exact Hy).
  unfold vector_add in Hy at 1. apply In_nth_error in Hy.
  destruct Hy as (i & Hi). apply zip_with_nth_error_inv in Hi.
  destruct Hi as (u & w & Hu & Hw & ->).
  assert (u = 0).
  { apply nth_error_In in Hu. unfold scale in Hu. apply in_map_iff in Hu.
    destruct Hu as (z & <- & _). rewrite (Hzero x) by now left. ring. }
  assert (w = 0).
  { apply (IH p); [intros; apply Hzero; now right|].
    eapply nth_error_In; eassumption. }
  subst. ring.
Qed.

Section FlatStep.
Context {child_state : Type}.
Variable vars : VariableStore.

(** What a successful flat attention step returns. *)
Lemma flat_attention_Ok (self : @FlatMultiAttention.t child_state)
  (decoder_state decoder_prev_state decoder_input : Matrix)
  (ls ls' : AttentionLoopState) (step : Z) (ctx : Matrix) :
  FlatMultiAttention.attention vars self decoder_state decoder_prev_state
    decoder_input ls step = Ok (ctx, ls') ->
  exists logits_concat projections_concat,
    concat_axis1
      (fst (FlatMultiAttention.attention_logits vars self decoder_state
              decoder_prev_state decoder_input)) = Ok logits_concat /\
    ctx = weighted_sum (attention_state_size (FlatMultiAttention.base self))
            (FlatMultiAttention._renorm_softmax self logits_concat)
            projections_concat /\
    write (contexts ls) step ctx = Ok (contexts ls') /\
    write (weights ls) step
      (FlatMultiAttention._renorm_softmax self logits_concat)
    = Ok (weights ls').
Proof.
  unfold FlatMultiAttention.attention. intros H.
  destruct (FlatMultiAttention.attention_logits vars self decoder_state
              decoder_prev_state decoder_input) as [logits sentinel].
  apply bind_Ok_inv in H. destruct H as (lc & Hlc & H).
  apply bind_Ok_inv in H. destruct H as (pc & _ & H).
  apply bind_Ok_inv in H. destruct H as (nc & Hnc & H).
  apply bind_Ok_inv in H. destruct H as (nw & Hnw & H).
  injection H as <- <-. simpl. exists lc, pc. auto.
Qed.

(** X19.  When every position of every row of [masks_concat] is masked
    (which needs the sentinel off), a flat attention step that succeeds
    returns an all-zero context: no encoder position contributes. *)
Theorem all_masked_context_is_zero
  (self : @FlatMultiAttention.t child_state)
  (decoder_state decoder_prev_state decoder_input : Matrix)
  (ls ls' : AttentionLoopState) (step : Z) (ctx : Matrix) :
  FlatMultiAttention.attention vars self decoder_state decoder_prev_state
    decoder_input ls step = Ok (ctx, ls') ->
  (forall row, In row (FlatMultiAttention.masks_concat self) ->
     forall x, In x row -> x = 0) ->
  forall row, In row ctx -> forall x, In x row -> x = 0.
Proof.
  intros H Hmask row Hrow x Hx.
  destruct (flat_attention_Ok _ _ _ _ _ _ _ _ H)
    as (lc & pc & _ & -> & _ & _).
  unfold weighted_sum in Hrow. apply In_nth_error in Hrow.
  destruct Hrow as (i & Hi). apply zip_with_nth_error_inv in Hi.
  destruct Hi as (a & p & Ha & _ & ->).
  apply (weighted_sum_zero
           (attention_state_size (FlatMultiAttention.base self)) a p);
    [|exact Hx].
  unfold FlatMultiAttention._renorm_softmax in Ha.
  apply zip_with_nth_error_inv in Ha.
  destruct Ha as (l & m & _ & Hm & ->).
  apply renorm_zero_mask. apply Hmask. eapply nth_error_In; eassumption.
Qed.

(** X20.  A flat attention step at the step index equal to the number of
    entries recorded so far appends its context and its weights to the two
    histories, and [finalize_loop] on the new loop state then records all
    the weights, the new ones last, under the given key. *)
Theorem flat_attention_extends_history
  (self : @FlatMultiAttention.t child_state)
  (decoder_state decoder_prev_state decoder_input : Matrix)
  (ls ls' : AttentionLoopState) (step : Z) (ctx : Matrix)
  (cs ws : list Matrix)
  (histories : Decoder.dict (list Matrix)) (key : string) :
  FlatMultiAttention.attention vars self decoder_state decoder_prev_state
    decoder_input ls step = Ok (ctx, ls') ->
  contexts ls = map Some cs -> weights ls = map Some ws ->
  step = Z.of_nat (List.length cs) -> step = Z.of_nat (List.length ws) ->
  exists w,
    contexts ls' = map Some (cs ++ [ctx]) /\
    weights ls' = map Some (ws ++ [w]) /\
    DecoderInputs.finalize_loop histories key ls'
    = Ok (DecoderInputs.dict_set histories key (ws ++ [w])) /\
    Decoder.dict_get (DecoderInputs.dict_set histories key (ws ++ [w])) key
    = Some (ws ++ [w]).
Proof.
  intros H Hcs Hws Hstep1 Hstep2.
  destruct (flat_attention_Ok _ _ _ _ _ _ _ _ H)
    as (lc & pc & _ & _ & Hc & Hw).
  rewrite Hcs, write_end in Hc by assumption.
  rewrite Hws, write_end in Hw by assumption.
  injection Hc as Hc. injection Hw as Hw.
  exists (FlatMultiAttention._renorm_softmax self lc).
  split; [now symmetry|]. split; [now symmetry|].
  unfold DecoderInputs.finalize_loop.
  rewrite <- Hw, stack_written by (destruct ws; discriminate). simpl.
  split; [reflexivity|]. now rewrite String.eqb_refl.
Qed.
End FlatStep.

Lemma sigmoid_range (z : R) : 0 <= sigmoid z <= 1.
Proof.
  unfold sigmoid. pose proof (exp_pos (- z)) as He.
  split.
  - left. apply Rdiv_lt_0_compat; lra.
  - apply (Rmult_le_reg_r (1 + exp (- z))); [lra|].
    unfold Rdiv. rewrite Rmult_assoc, Rinv_l by lra. lra.
Qed.

Section SentinelValue.
Variable vars : VariableStore.

(** X21.  Every entry of the sentinel value is the matching entry of the
    decoder state scaled by a gate between 0 and 1, so it is no larger in
    magnitude than the state's entry. *)
Theorem sentinel_is_gated_state (state prev_state input_ : Matrix)
  (b i : nat) (row : list R) (x : R) :
  nth_error (_sentinel vars state prev_state input_) b = Some row ->
  nth_error row i = Some x ->
  exists state_row s gate,
    nth_error state b = Some state_row /\
    nth_error state_row i = Some s /\
    x = gate * s /\ 0 <= gate <= 1 /\ Rabs x <= Rabs s.
Proof.
  unfold _sentinel. intros Hrow Hx.
  apply zip_with_nth_error_inv in Hrow.
  destruct Hrow as (grow & srow & Hg & Hs & ->).
  apply zip_with_nth_error_inv in Hx.
  destruct Hx as (g & s & Hgi & Hsi & ->).
  rewrite nth_error_map in Hg.
  destruct (nth_error _ b) as [lrow|]; [|discriminate].
  injection Hg as <-. rewrite nth_error_map in Hgi.
  destruct (nth_error lrow i) as [z|]; [|discriminate].
  injection Hgi as <-.
  pose proof (sigmoid_range z) as Hb.
  exists srow, s, (sigmoid z). repeat split; auto; try lra.
  rewrite Rabs_mult, (Rabs_pos_eq (sigmoid z)) by lra.
  pose proof (Rabs_pos s). nra.
Qed.
End SentinelValue.

Lemma expand_dims_1_rows {A : Type} (t : list A) (r : list A) :
  In r (expand_dims_1 t) -> exists v, r = [v].
Proof.
  unfold expand_dims_1. intros H. apply in_map_iff in H.
  destruct H as (v & <- & _). eauto.
Qed.

Section HierarchicalStep.
Context {child_state : Type}.
Variable vars : VariableStore.

(** A logit computed for one vector per batch entry has one entry per
    batch row. *)
Lemma vector_logit_rows (self : @MultiAttention child_state)
  (x vector_value : Matrix) (scope : string) (row : list R) :
  In row (snd (_vector_logit vars self (expand_dims_1 x) vector_value scope)) ->
  List.length row = 1%nat.
Proof.
  unfold _vector_logit. simpl. unfold add_scalar. intros H.
  apply in_map_iff in H. destruct H as (erow & <- & He).
  rewrite length_map. unfold energies in He.
  apply In_nth_error in He. destruct He as (i & Hi).
  apply zip_with_nth_error_inv in Hi. destruct Hi as (s & p & Hs & Hp & ->).
  rewrite length_map.
  apply nth_error_In, expand_dims_1_rows in Hs. destruct Hs as (v & ->).
  apply nth_error_In, expand_dims_1_rows in Hp. destruct Hp as (pv & ->).
  reflexivity.
Qed.

Lemma concat_singletons {A : Type} (b : nat) :
  forall (ts : list (list (list A))) (rows : list (list A)),
    Forall2 (fun t r => nth_error t b = Some r) ts rows ->
    (forall t, In t ts -> forall r, In r t -> List.length r = 1%nat) ->
    List.length (List.concat rows) = List.length ts.
Proof.
  induction ts as [|t ts IH]; intros rows H Hone; inversion H; subst; simpl;
    [reflexivity|].
  rewrite length_app, IH; auto.
  - rewrite (Hone t (or_introl eq_refl) y); [reflexivity|].
    eapply nth_error_In; eassumption.
  - intros t' Ht'. apply Hone. now right.
Qed.

(** The softmax of concatenated one-column logits: one weight per
    concatenated tensor in every batch row, each between 0 and 1. *)
Lemma softmax_concat_rows (al : list Matrix) (lc : Matrix) :
  concat_axis1 al = Ok lc ->
  (forall t, In t al -> forall r, In r t -> List.length r = 1%nat) ->
  forall row, In row (softmax lc) ->
    List.length row = List.length al /\
    forall x, In x row -> 0 <= x <= 1.
Proof.
  intros Hlc Hone row Hrow. unfold softmax in Hrow.
  apply in_map_iff in Hrow. destruct Hrow as (lrow & <- & Hl).
  apply In_nth_error in Hl. destruct Hl as (i & Hi).
  destruct (concat_axis1_row al lc Hlc i lrow Hi) as (rows & Hrows & ->).
  pose proof (concat_singletons i al rows Hrows Hone) as Hlen.
  split; [now rewrite softmax_row_length|].
  intros x Hx. split;
    [eapply softmax_row_nonneg | eapply softmax_row_le_1]; exact Hx.
Qed.

(** X22.  A hierarchical attention step that succeeds records, for every
    batch row, one weight per encoder plus one for the sentinel when it is
    enabled, each weight between 0 and 1. *)
Theorem hierarchical_weights_per_encoder
  (b : @MultiAttention child_state)
  (decoder_state decoder_prev_state decoder_input : Matrix)
  (hls next : @HierarchicalMultiAttention.HierarchicalLoopState child_state)
  (step : Z) (context : Matrix) :
  HierarchicalMultiAttention.attention vars
    (HierarchicalMultiAttention.__init__ b) decoder_state decoder_prev_state
    decoder_input hls step = Ok (context, next) ->
  List.length (HierarchicalMultiAttention.child_loop_states hls)
  = List.length (_encoders b) ->
  exists distr,
    write (weights (HierarchicalMultiAttention.loop_state hls)) step distr
    = Ok (weights (HierarchicalMultiAttention.loop_state next)) /\
    forall row, In row distr ->
      List.length row
      = (List.length (_encoders b)
         + (if _use_sentinels b then 1 else 0))%nat /\
      forall x, In x row -> 0 <= x <= 1.
Proof.
  unfold HierarchicalMultiAttention.attention.
  cbn [HierarchicalMultiAttention.base HierarchicalMultiAttention.__init__].
  intros H Hstates.
  apply bind_Ok_inv in H. destruct H as (children & Hch & H).
  apply bind_Ok_inv in H. destruct H as ([ctxs cls] & Hun & H).
  apply unzip2_Ok in Hun. destruct Hun as [-> ->].
  apply bind_Ok_inv in H. destruct H as ([pc al] & Hun & H).
  apply unzip2_Ok in Hun. destruct Hun as [-> ->].
  unfold HierarchicalMultiAttention.child_attentions in Hch.
  cbn [HierarchicalMultiAttention._attn_objs
       HierarchicalMultiAttention.__init__] in Hch.
  apply mapM_Ok in Hch. destruct Hch as (Hlch & _).
  rewrite length_combine, length_map, Hstates, Nat.min_id in Hlch.
  set (x := linear vars "" [decoder_state] (attention_state_size b)) in *.
  set (vl := map (fun p : Matrix * Attentive =>
                    _vector_logit vars b (expand_dims_1 x) (fst p)
                      (name (snd p)))
                 (combine (map fst children) (_encoders b))) in *.
  assert (Hlvl : List.length (map snd vl) = List.length (_encoders b)).
  { unfold vl. rewrite !length_map, length_combine, length_map, Hlch.
    apply Nat.min_id. }
  assert (Hone : forall t, In t (map snd vl) ->
                   forall r, In r t -> List.length r = 1%nat).
  { intros t Ht r Hr. unfold vl in Ht. rewrite map_map in Ht.
    apply in_map_iff in Ht. destruct Ht as (p & <- & _).
    eapply vector_logit_rows. exact Hr. }
  set (sv := _sentinel vars decoder_state decoder_prev_state decoder_input)
    in *.
  assert (Hsent : forall r,
             In r (snd (_vector_logit vars b (expand_dims_1 x) sv "sentinel"))
             -> List.length r = 1%nat)
    by (intros r Hr; eapply vector_logit_rows; exact Hr).
  destruct (_vector_logit vars b (expand_dims_1 x) sv "sentinel")
    as [ps sl] eqn:Evl.
  simpl in Hsent.
  destruct (_use_sentinels b) eqn:Eus.
  - apply bind_Ok_inv in H. destruct H as (lc & Hlc & H).
    apply bind_Ok_inv in H. destruct H as (prj & _ & H).
    apply bind_Ok_inv in H. destruct H as (nc & _ & H).
    apply bind_Ok_inv in H. destruct H as (nw & Hnw & H).
    injection H as _ <-. exists (softmax lc). split; [exact Hnw|].
    intros row Hrow.
    assert (Hone' : forall t, In t (map snd vl ++ [sl]) ->
                      forall r, In r t -> List.length r = 1%nat).
    { intros t Ht. apply in_app_or in Ht.
      destruct Ht as [Ht|[<-|[]]]; [now apply Hone | exact Hsent]. }
    destruct (softmax_concat_rows _ lc Hlc Hone' row Hrow) as (Hl & Hp).
    rewrite Hl, length_app, Hlvl. auto.
  - apply bind_Ok_inv in H. destruct H as (lc & Hlc & H).
    apply bind_Ok_inv in H. destruct H as (prj & _ & H).
    apply bind_Ok_inv in H. destruct H as (nc & _ & H).
    apply bind_Ok_inv in H. destruct H as (nw & Hnw & H).
    injection H as _ <-. exists (softmax lc). split; [exact Hnw|].
    intros row Hrow.
    destruct (softmax_concat_rows _ lc Hlc Hone row Hrow) as (Hl & Hp).
    rewrite Hl, Hlvl, Nat.add_0_r. auto.
Qed.

(** X23.  With no encoder to attend to, a hierarchical attention step
    fails when it unpacks the (empty) list of child results. *)
Theorem hierarchical_needs_encoder
  (b : @MultiAttention child_state)
  (decoder_state decoder_prev_state decoder_input : Matrix)
  (hls : @HierarchicalMultiAttention.HierarchicalLoopState child_state)
  (step : Z) :
  _encoders b = [] ->
  HierarchicalMultiAttention.attention vars
    (HierarchicalMultiAttention.__init__ b) decoder_state decoder_prev_state
    decoder_input hls step
  = Err (ValueError "not enough values to unpack (expected 2, got 0)").
Proof.
  intros Hb. unfold HierarchicalMultiAttention.attention,
    HierarchicalMultiAttention.child_attentions,
    HierarchicalMultiAttention.__init__.
  cbn [HierarchicalMultiAttention._attn_objs HierarchicalMultiAttention.base].
  rewrite Hb. reflexivity.
Qed.
End HierarchicalStep.

(** The theorems above on the example encoders. *)

Lemma masks_concat_row_witness :
  exists self : @FlatMultiAttention.t unit,
    FlatMultiAttention.__init__ Example.vars (Example.multi_attention true)
    = Ok self /\
    nth_error (FlatMultiAttention.masks_concat self) 0 = Some [1; 0; 1] /\
    exists rows,
      Forall2 (fun e r => nth_error (_attention_mask e) 0 = Some r)
        [Example.encoder] rows /\
      [1; 0; 1] = List.concat rows ++ [1].
Proof.
  eexists. split; [reflexivity|]. split; [reflexivity|].
  exact (masks_concat_row Example.vars (Example.multi_attention true) _
           0%nat [1; 0; 1] eq_refl eq_refl).
Defined.

Lemma tile_encoders_batch_witness :
  exists self : @FlatMultiAttention.t unit,
    FlatMultiAttention.__init__ Example.vars (Example.multi_attention false)
    = Ok self /\
    exists tiled,
      FlatMultiAttention._tile_encoders_for_beamsearch self [[[0]]; [[0]]]
      = Ok tiled /\
      forall p, In p tiled -> List.length p = 2%nat.
Proof.
  eexists. split; [reflexivity|].
  match goal with
  | |- exists tiled,
         FlatMultiAttention._tile_encoders_for_beamsearch ?s _ = _ /\ _ =>
      destruct (tile_encoders_batch s [[[0]]; [[0]]] 1 2)
        as (tiled & Ht & _ & Hlen & _)
  end.
  - apply Nat.lt_0_1.
  - discriminate.
  - intros p [<-|[]]. reflexivity.
  - reflexivity.
  - exists tiled. split; [exact Ht | exact Hlen].
Defined.

Lemma tile_encoders_not_integral_witness :
  exists self : @FlatMultiAttention.t unit,
    FlatMultiAttention.__init__ Example.vars Example.pair_attention
    = Ok self /\
    FlatMultiAttention._tile_encoders_for_beamsearch self
      [[[0]]; [[0]]; [[0]]]
    = Err (InvalidArgumentError "assertion failed").
Proof.
  eexists. split; [reflexivity|].
  eapply tile_encoders_not_integral.
  - reflexivity.
  - simpl. lia.
  - simpl. discriminate.
Defined.

Lemma all_masked_context_is_zero_witness :
  exists self : @FlatMultiAttention.t unit,
    FlatMultiAttention.__init__ Example.vars Example.masked_attention
    = Ok self /\
    exists ctx ls',
      FlatMultiAttention.attention Example.vars self [[0]] [[0]] [[0]]
        empty_attention_loop_state 0%Z = Ok (ctx, ls') /\
      (forall row, In row (FlatMultiAttention.masks_concat self) ->
         forall x, In x row -> x = 0) /\
      forall row, In row ctx -> forall x, In x row -> x = 0.
Proof.
  eexists. split; [reflexivity|].
  match goal with
  | |- exists ctx ls',
         FlatMultiAttention.attention _ ?s _ _ _ _ _ = _ /\ ?M /\ _ =>
      assert (Hm : M)
        by (intros row [<-|[]] x [<-|[<-|[]]]; reflexivity);
      eexists _, _; split; [reflexivity|]; split; [exact Hm|];
      exact (all_masked_context_is_zero Example.vars s [[0]] [[0]] [[0]]
               empty_attention_loop_state _ 0%Z _ eq_refl Hm)
  end.
Defined.

Lemma flat_attention_extends_history_witness :
  exists self : @FlatMultiAttention.t unit,
    FlatMultiAttention.__init__ Example.vars (Example.multi_attention false)
    = Ok self /\
    exists ctx ls',
      FlatMultiAttention.attention Example.vars self [[0]] [[0]] [[0]]
        empty_attention_loop_state 0%Z = Ok (ctx, ls') /\
      exists w,
        contexts ls' = [Some ctx] /\ weights ls' = [Some w] /\
        DecoderInputs.finalize_loop [] "decoder_run" ls'
        = Ok [("decoder_run", [w])].
Proof.
  eexists. split; [reflexivity|].
  match goal with
  | |- exists ctx ls',
         FlatMultiAttention.attention _ ?s _ _ _ _ _ = _ /\ _ =>
      eexists _, _; split; [reflexivity|];
      destruct (flat_attention_extends_history Example.vars s
                  [[0]] [[0]] [[0]] empty_attention_loop_state _ 0%Z _
                  [] [] [] "decoder_run"
                  eq_refl eq_refl eq_refl eq_refl eq_refl)
        as (w & Hc & Hw & Hf & _)
  end.
  exists w. split; [exact Hc|]. split; [exact Hw | exact Hf].
Defined.

Lemma sentinel_is_gated_state_witness :
  exists row x,
    nth_error (_sentinel Example.vars [[2]] [[0]] [[0]]) 0 = Some row /\
    nth_error row 0 = Some x /\
    Rabs x <= Rabs 2.
Proof.
  eexists _, _. split; [reflexivity|]. split; [reflexivity|].
  destruct (sentinel_is_gated_state Example.vars [[2]] [[0]] [[0]]
              0%nat 0%nat _ _ eq_refl eq_refl)
    as (sr & s & g & Hsr & Hs & _ & _ & Hle).
  simpl in Hsr. injection Hsr as <-. simpl in Hs. injection Hs as <-.
  exact Hle.
Defined.

Lemma hierarchical_weights_per_encoder_witness :
  exists out,
    HierarchicalMultiAttention.attention Example.vars
      (HierarchicalMultiAttention.__init__ (Example.multi_attention true))
      [[0]] [[0]] [[0]]
      (HierarchicalMultiAttention.initial_loop_state
         (HierarchicalMultiAttention.__init__
            (Example.multi_attention true))) 0%Z = Ok out /\
    exists distr,
      weights (HierarchicalMultiAttention.loop_state (snd out))
      = [Some distr] /\
      forall row, In row distr -> List.length row = 2%nat.
Proof.
  eexists (_, _). split; [reflexivity|].
  destruct (hierarchical_weights_per_encoder Example.vars
              (Example.multi_attention true) [[0]] [[0]] [[0]]
              (HierarchicalMultiAttention.initial_loop_state
                 (HierarchicalMultiAttention.__init__
                    (Example.multi_attention true))) _ 0%Z _
              eq_refl eq_refl) as (distr & Hw & Hrows).
  exists distr. split.
  - simpl in Hw. injection Hw as Hw. rewrite Hw. reflexivity.
  - intros row Hr. exact (proj1 (Hrows row Hr)).
Defined.

Lemma hierarchical_needs_encoder_witness :
  _encoders Example.no_encoders = [] /\
  HierarchicalMultiAttention.attention Example.vars
    (HierarchicalMultiAttention.__init__ Example.no_encoders)
    [[0]] [[0]] [[0]]
    (HierarchicalMultiAttention.initial_loop_state
       (HierarchicalMultiAttention.__init__ Example.no_encoders)) 0%Z
  = Err (ValueError "not enough values to unpack (expected 2, got 0)").
Proof.
  split; [reflexivity|].
  exact (hierarchical_needs_encoder Example.vars Example.no_encoders
           [[0]] [[0]] [[0]]
           (HierarchicalMultiAttention.initial_loop_state
              (HierarchicalMultiAttention.__init__ Example.no_encoders))
           0%Z eq_refl).
Defined.

End AttentionExtras.
